(** * Seat reservation and booking core of the movie-theater backend

    A shallow embedding of the Mongoose models [Booking], [Ticket], [Room]
    and of the schedule controller, with the properties of the
    specification stated over it.

    Conventions of the embedding:
    - a MongoDB [ObjectId] is a number; a collection is a finite map from
      [_id] to document;
    - a JavaScript [Number] is a rational or [NaN] ([Js.num]); a field that
      may be [undefined] is an [option];
    - a [Date] is its millisecond time stamp;
    - an [async] handler is the function from the database state before the
      call to the response and the database state after it. *)

From stdpp Require Import gmap strings list fin_maps sorting.
From Stdlib Require Import QArith Qround Qminmax Lqa DecimalString DecimalNat DecimalN.

Local Open Scope Q_scope.

(** ** JavaScript numbers *)

Module Js.

(** The Number values the pricing code can produce: finite rationals
    and [NaN]. The arithmetic is that of the rationals, which is the
    arithmetic of the Numbers where these do not round: the statements
    about the totals either give the result as the expression the code
    evaluates, or are about [whole] amounts within 2^53. *)
Inductive num : Type :=
| Fin (q : Q)
| NaN.

(** Reading a Number field: [undefined] behaves as [NaN] in arithmetic,
    in comparisons, in [Math.min] and as a condition. *)
Definition ofField (o : option Q) : num :=
  match o with
  | Some q => Fin q
  | None => NaN
  end.

Definition add (a b : num) : num :=
  match a, b with
  | Fin x, Fin y => Fin (x + y)
  | _, _ => NaN
  end.

Definition sub (a b : num) : num :=
  match a, b with
  | Fin x, Fin y => Fin (x - y)
  | _, _ => NaN
  end.

Definition mul (a b : num) : num :=
  match a, b with
  | Fin x, Fin y => Fin (x * y)
  | _, _ => NaN
  end.

(** [a / b]; the only divisor in the sources is the literal [100], a zero
    divisor is mapped to [NaN]. *)
Definition div (a b : num) : num :=
  match a, b with
  | Fin x, Fin y => if Qeq_bool y 0 then NaN else Fin (x / y)
  | _, _ => NaN
  end.

(** Truthiness of a number: neither [0] nor [NaN]. *)
Definition truthy (a : num) : bool :=
  match a with
  | Fin x => negb (Qeq_bool x 0)
  | NaN => false
  end.

(** [a || 0] *)
Definition or0 (a : num) : num := if truthy a then a else Fin 0.

(** [a > b] *)
Definition gt (a b : num) : bool :=
  match a, b with
  | Fin x, Fin y => if Qlt_le_dec y x then true else false
  | _, _ => false
  end.

(** [Math.min(a, b)] *)
Definition min (a b : num) : num :=
  match a, b with
  | Fin x, Fin y => Fin (Qmin x y)
  | _, _ => NaN
  end.

(** [Math.max(a, b)] *)
Definition max (a b : num) : num :=
  match a, b with
  | Fin x, Fin y => Fin (Qmax x y)
  | _, _ => NaN
  end.

(** A number without fractional part. Sums, differences and products of
    such numbers are carried out without rounding as long as they stay
    within 2^53. *)
Definition whole (q : Q) : Prop := q == inject_Z (Qfloor q).

(** Equality of numbers, up to the representation of the rational. *)
Definition eqv (a b : num) : Prop :=
  match a, b with
  | Fin x, Fin y => x == y
  | NaN, NaN => True
  | _, _ => False
  end.

End Js.

Abbreviation ObjectId := N.
Abbreviation Date := Z.

(** ** Documents *)

Inductive SeatType : Type := standard | vip.

Inductive DiscountType : Type := percent | fixed.

Inductive Status : Type :=
| st_pending | st_confirmed | st_cancelled | st_refunded | st_expired.

Inductive PaymentStatus : Type :=
| pay_pending | pay_completed | pay_failed | pay_refunded.

Definition status_name (s : Status) : string :=
  match s with
  | st_pending => "pending"
  | st_confirmed => "confirmed"
  | st_cancelled => "cancelled"
  | st_refunded => "refunded"
  | st_expired => "expired"
  end.

Definition payment_status_name (s : PaymentStatus) : string :=
  match s with
  | pay_pending => "pending"
  | pay_completed => "completed"
  | pay_failed => "failed"
  | pay_refunded => "refunded"
  end.

#[global] Instance Status_eq_dec : EqDecision Status.
Proof. solve_decision. Defined.

#[global] Instance PaymentStatus_eq_dec : EqDecision PaymentStatus.
Proof. solve_decision. Defined.

#[global] Instance SeatType_eq_dec : EqDecision SeatType.
Proof. solve_decision. Defined.

(** An element of [seats] of a booking or ticket. *)
Module SeatLine.
Record t : Type := mk {
  code : string;
  type : SeatType;
  price : option Q;
  row : Z;
  column : Z
}.
End SeatLine.

(** An element of [combos] of a booking or ticket. The schema path of the
    count is [quantity]. *)
Module ComboLine.
Record t : Type := mk {
  combo : ObjectId;
  name : string;
  quantity : option Q;
  price : option Q
}.

(** [combo.qty]: not a path of the [combos] sub-schema of [ticketSchema]
    or [bookingSchema], so reading it gives [undefined]. *)
Definition qty (c : t) : option Q := None.
End ComboLine.

Module Voucher.
Record t : Type := mk {
  code : option string;
  discountValue : option Q;
  discountType : DiscountType;
  maxDiscount : option Q;
  minOrderValue : option Q
}.

Definition set_minOrderValue (v : t) (m : option Q) : t :=
  mk (code v) (discountValue v) (discountType v) (maxDiscount v) m.
End Voucher.

Module Payment.
Record t : Type := mk {
  method : string;
  transactionId : option string;
  status : PaymentStatus;
  paidAt : option Date
}.
End Payment.

(** The fields [bookingSchema] and [ticketSchema] share; [expiresAt] is the
    ticket's [pendingExpiresAt]. Neither schema has a path [scheduleId]: a
    stored document has none, whatever the caller passed. *)
Module Reservation.
Record t : Type := mk {
  user : ObjectId;
  showtime : ObjectId;
  seats : list SeatLine.t;
  combos : list ComboLine.t;
  voucher : option Voucher.t;
  subtotal : Js.num;
  discount : Js.num;
  tax : option Q;
  serviceFee : option Q;
  totalAmount : Js.num;
  payment : Payment.t;
  status : Status;
  expiresAt : Date;
  cancelledBy : option ObjectId;
  cancelledAt : option Date;
  cancellationReason : option string
}.

Definition set_totals (r : t) (sub disc total : Js.num) : t :=
  mk (user r) (showtime r) (seats r) (combos r) (voucher r)
     sub disc (tax r) (serviceFee r) total
     (payment r) (status r) (expiresAt r)
     (cancelledBy r) (cancelledAt r) (cancellationReason r).

Definition set_voucher (r : t) (v : option Voucher.t) : t :=
  mk (user r) (showtime r) (seats r) (combos r) v
     (subtotal r) (discount r) (tax r) (serviceFee r) (totalAmount r)
     (payment r) (status r) (expiresAt r)
     (cancelledBy r) (cancelledAt r) (cancellationReason r).

Definition set_status (r : t) (s : Status) : t :=
  mk (user r) (showtime r) (seats r) (combos r) (voucher r)
     (subtotal r) (discount r) (tax r) (serviceFee r) (totalAmount r)
     (payment r) s (expiresAt r)
     (cancelledBy r) (cancelledAt r) (cancellationReason r).

Definition set_payment_status (r : t) (s : PaymentStatus) : t :=
  mk (user r) (showtime r) (seats r) (combos r) (voucher r)
     (subtotal r) (discount r) (tax r) (serviceFee r) (totalAmount r)
     (Payment.mk (Payment.method (payment r))
                 (Payment.transactionId (payment r)) s
                 (Payment.paidAt (payment r)))
     (status r) (expiresAt r)
     (cancelledBy r) (cancelledAt r) (cancellationReason r).

Definition set_cancellation (r : t) (by_ : ObjectId) (at_ : Date)
    (reason : string) : t :=
  mk (user r) (showtime r) (seats r) (combos r) (voucher r)
     (subtotal r) (discount r) (tax r) (serviceFee r) (totalAmount r)
     (payment r) (status r) (expiresAt r)
     (Some by_) (Some at_) (Some reason).
End Reservation.

(** What a Mongoose [save] knows about the document: [this.isNew] and the
    paths for which [this.isModified(path)] holds. *)
Record SaveCtx : Type := {
  isNew : bool;
  modifiedPaths : list string
}.

Definition isModified (ctx : SaveCtx) (path : string) : bool :=
  bool_decide (path ∈ modifiedPaths ctx).

(** ** Collections *)

(** [Model.find(query)]: the documents of a collection that satisfy the
    query. *)
Definition find_docs {A : Type} (query : ObjectId -> A -> bool)
    (c : gmap ObjectId A) : list (ObjectId * A) :=
  List.filter (fun d => query (fst d) (snd d)) (map_to_list c).

(** [Model.findOne(query)] *)
Definition findOne {A : Type} (query : ObjectId -> A -> bool)
    (c : gmap ObjectId A) : option (ObjectId * A) :=
  head (find_docs query c).

(** [{ path: { $in: names } }] on a string-valued path. *)
Definition name_in (name : string) (names : list string) : bool :=
  existsb (String.eqb name) names.

(** ** Rooms, Room.js *)

Inductive RoomSeatStatus : Type := seat_available | seat_maintenance.

Definition room_seat_status_name (s : RoomSeatStatus) : string :=
  match s with
  | seat_available => "available"
  | seat_maintenance => "maintenance"
  end.

Module RoomSeat.
Record t : Type := mk {
  code : string;
  type : SeatType;
  status : RoomSeatStatus;
  row : nat;
  column : nat
}.
End RoomSeat.

(** The set of seat codes the availability functions collect
    ([new Set()], [add], [has]). *)
Definition add_seat_codes (codes : gset string) (seats : list SeatLine.t)
    (keep : SeatLine.t -> bool) : gset string :=
  fold_left (fun set seat =>
               if keep seat then {[ SeatLine.code seat ]} ∪ set else set)
            seats codes.

Definition collect_seat_codes (docs : list (ObjectId * Reservation.t))
    (keep : SeatLine.t -> bool) : gset string :=
  fold_left (fun set doc =>
               add_seat_codes set (Reservation.seats (snd doc)) keep)
            docs ∅.

Module Room.

Record t : Type := mk {
  theater : ObjectId;
  name : string;
  capacity : Q;
  rows : Q;
  seatsPerRow : Q;
  seats : list RoomSeat.t;
  isActive : bool
}.

Definition alphabet : string := "ABCDEFGHIJKLMNOPQRSTUVWXYZ".

Definition vipRows : nat := 2.

(** The template literal [`${rowLetter}${col}`]. *)
Definition seatCode (row col : nat) : string :=
  match String.get (row mod String.length alphabet) alphabet with
  | Some rowLetter =>
    String rowLetter (NilEmpty.string_of_uint (Nat.to_uint col))
  | None => "undefined" ++ NilEmpty.string_of_uint (Nat.to_uint col)
  end.

(** The rounds of [for (let row = 0; row < this.rows; row++)]: one for
    each whole number from 0 on that is below [rows]. *)
Definition rowCount (rows : Q) : nat := Z.to_nat (Qceiling rows).

(** The rounds of [for (let col = 1; col <= this.seatsPerRow; col++)]:
    one for each whole number from 1 on that is at most [seatsPerRow]. *)
Definition colCount (seatsPerRow : Q) : nat := Z.to_nat (Qfloor seatsPerRow).

(** [roomSchema.methods.generateSeatMap], Room.js 102-125: the outer loop
    runs [row] from 0 while [row < rows], the inner one [col] from 1
    while [col <= seatsPerRow], each step pushing one seat. [rows] and
    [seatsPerRow] are Numbers: the schema asks for no whole number. *)
Definition generateSeatMap (this : t) : list RoomSeat.t :=
  flat_map
    (fun row =>
       let isVip := row <? vipRows in
       map (fun col =>
              RoomSeat.mk (seatCode row col)
                          (if isVip then vip else standard)
                          seat_available
                          row
                          (col - 1))
           (seq 1 (colCount (seatsPerRow this))))
    (seq 0 (rowCount (rows this))).

(** [roomSchema.pre('save')], Room.js 93-99. *)
Definition pre_save (ctx : SaveCtx) (this : t) : t :=
  if isNew ctx || isModified ctx "rows" || isModified ctx "seatsPerRow"
  then mk (theater this) (name this)
          (rows this * seatsPerRow this)
          (rows this) (seatsPerRow this)
          (generateSeatMap this)
          (isActive this)
  else this.

(** An element of the result of [getAvailableSeats]: the seat with its
    [status] overwritten. *)
Record SeatView : Type := mkView {
  seat : RoomSeat.t;
  status : string
}.

(** [roomSchema.methods.getAvailableSeats], Room.js 128-152. *)
Definition getAvailableSeats (tickets : gmap ObjectId Reservation.t)
    (this : t) (showtimeId : ObjectId) : list SeatView :=
  let bookedTickets :=
    find_docs (fun _ ticket =>
                 N.eqb (Reservation.showtime ticket) showtimeId
                 && name_in (status_name (Reservation.status ticket))
                            ["booked"; "confirmed"])
              tickets in
  let bookedSeats :=
    collect_seat_codes bookedTickets
      (fun seat => negb (String.eqb (SeatLine.code seat) "")) in
  map (fun seat =>
         mkView seat
                (if bool_decide (RoomSeat.code seat ∈ bookedSeats)
                 then "booked" else "available"))
      (seats this).

End Room.

(** [showtimeSchema], Booking.js 483-532. *)
Module Showtime.
Record t : Type := mk {
  movie : ObjectId;
  theater : ObjectId;
  room : ObjectId;
  startTime : Date;
  endTime : Date;
  isActive : bool
}.
End Showtime.

(** ** Pricing *)

(** The voucher block, textually the same in [Booking.calculateTotals]
    (Booking.js 213-223), in the first pre-save hook of [Ticket]
    (Ticket.js 255-265) and in [Ticket.calculateTotals] (Ticket.js 335-345). *)
Definition voucher_discount (subtotal : Js.num) (voucher : option Voucher.t)
    : Js.num :=
  match voucher with
  | None => Js.Fin 0
  | Some v =>
    if Js.truthy (Js.ofField (Voucher.discountValue v)) then
      match Voucher.discountType v with
      | percent =>
        let discount :=
          Js.div (Js.mul subtotal (Js.ofField (Voucher.discountValue v)))
                 (Js.Fin 100) in
        if Js.truthy (Js.ofField (Voucher.maxDiscount v))
           && Js.gt discount (Js.ofField (Voucher.maxDiscount v))
        then Js.ofField (Voucher.maxDiscount v)
        else discount
      | fixed =>
        Js.min (Js.ofField (Voucher.discountValue v)) subtotal
      end
    else Js.Fin 0
  end.

(** [seatsSubtotal] and [combosSubtotal] of [calculateTotals]. *)
Definition seatsSubtotal (seats : list SeatLine.t) : Js.num :=
  fold_left (fun sum seat =>
               Js.add sum (Js.or0 (Js.ofField (SeatLine.price seat))))
            seats (Js.Fin 0).

Definition combosSubtotal (combos : list ComboLine.t) : Js.num :=
  fold_left (fun sum combo =>
               Js.add sum
                 (Js.or0 (Js.mul (Js.ofField (ComboLine.price combo))
                                 (Js.ofField (ComboLine.quantity combo)))))
            combos (Js.Fin 0).

(** [calculateTotals], the same text in Booking.js 202-232 and Ticket.js
    324-354. *)
Definition calculateTotals (this : Reservation.t) : Reservation.t :=
  let subtotal :=
    Js.add (seatsSubtotal (Reservation.seats this))
           (combosSubtotal (Reservation.combos this)) in
  let discount := voucher_discount subtotal (Reservation.voucher this) in
  let totalAmount :=
    Js.add (Js.add (Js.sub subtotal discount)
                   (Js.or0 (Js.ofField (Reservation.tax this))))
           (Js.or0 (Js.ofField (Reservation.serviceFee this))) in
  Reservation.set_totals this subtotal discount
    (Js.max (Js.Fin 0) totalAmount).

(** The outcome of a pre-save middleware chain: [next()] or [next(err)]. *)
Inductive HookResult : Type :=
| Next (doc : Reservation.t)
| NextError (message : string).

(** The outcome of a model method: [throw new Error(message)] or a value. *)
Inductive Outcome (A : Type) : Type :=
| Thrown (message : string)
| Returned (value : A).

Arguments Thrown {A} message.
Arguments Returned {A} value.

(** ** What [save] checks *)

(** Assigning to a path of type Number: Mongoose cannot cast [NaN], the
    assignment is refused and the path keeps the value it had. *)
Definition assignNumber (stored value : Js.num) : Js.num :=
  match value with
  | Js.NaN => stored
  | Js.Fin _ => value
  end.

(** [min: bound] on a path that may be absent, on a required path, and on
    a stored total. *)
Definition minOf (bound : Q) (value : option Q) : bool :=
  match value with
  | Some q => Qle_bool bound q
  | None => true
  end.

Definition requiredMin (bound : Q) (value : option Q) : bool :=
  match value with
  | Some q => Qle_bool bound q
  | None => false
  end.

Definition storedMin (bound : Q) (value : Js.num) : bool :=
  match value with
  | Js.Fin q => Qle_bool bound q
  | Js.NaN => false
  end.

(** The validators of an element of [seats] and of [combos], the same in
    both schemas: [code] and [name] required, [price] required and not
    negative, [quantity] required and at least 1. *)
Definition validSeat (seat : SeatLine.t) : bool :=
  negb (String.eqb (SeatLine.code seat) "")
  && requiredMin 0 (SeatLine.price seat).

Definition validCombo (combo : ComboLine.t) : bool :=
  negb (String.eqb (ComboLine.name combo) "")
  && requiredMin 1 (ComboLine.quantity combo)
  && requiredMin 0 (ComboLine.price combo).

Definition validVoucher (voucher : option Voucher.t) : bool :=
  match voucher with
  | Some v =>
    minOf 0 (Voucher.discountValue v)
    && minOf 0 (Voucher.maxDiscount v)
    && minOf 0 (Voucher.minOrderValue v)
  | None => true
  end.

(** The validation [save] runs before the pre-save hooks, on the paths of
    a booking or ticket that are modelled here: those above, the totals
    ([min: 0]), the payment method and, where the schema gives
    [cancellationReason] a [maxlength], the length of the reason. The
    paths that are not modelled are taken to pass. *)
Definition validate (maxReason : option nat) (this : Reservation.t) : bool :=
  forallb validSeat (Reservation.seats this)
  && forallb validCombo (Reservation.combos this)
  && validVoucher (Reservation.voucher this)
  && storedMin 0 (Reservation.subtotal this)
  && storedMin 0 (Reservation.discount this)
  && minOf 0 (Reservation.tax this)
  && minOf 0 (Reservation.serviceFee this)
  && storedMin 0 (Reservation.totalAmount this)
  && name_in (Payment.method (Reservation.payment this))
             ["momo"; "zalopay"; "vnpay"; "credit_card"; "cash"]
  && match maxReason, Reservation.cancellationReason this with
     | Some limit, Some reason => (String.length reason <=? limit)%nat
     | _, _ => true
     end.

(** ** Unique indexes *)

Module Index.

(** [schema.index(keys, options)], or the index a path declares: the key
    paths, [unique], [sparse], the condition of a
    [partialFilterExpression] of the form [{ path: { $ne: value } }], the
    only form in the sources, and the names among the options that are
    no option of an index. *)
Record t : Type := mk {
  keys : list string;
  unique : bool;
  sparse : bool;
  partialFilterNe : option (string * string);
  otherOptions : list string
}.

(** What [createIndex] answers. The server builds the index unless its
    specification is one it refuses: a [partialFilterExpression] may
    compare with equality, [$exists: true], [$gt], [$gte], [$lt], [$lte]
    and [$type], not with [$ne], and a name it does not know among the
    options is an error. Mongoose reports a refused index on the [index]
    event of the model; the writes go on without the index. *)
Definition built (index : t) : bool :=
  match partialFilterNe index, otherOptions index with
  | None, [] => true
  | _, _ => false
  end.

(** The keys of a document whose key paths have the given values, one
    list for each path: an array-valued path gives one key for each of
    its elements. *)
Fixpoint tuples (values : list (list (option string)))
    : list (list (option string)) :=
  match values with
  | [] => [[]]
  | here :: rest =>
    flat_map (fun v => map (cons v) (tuples rest)) here
  end.

End Index.

(** ** Bookings, Booking.js *)

Module Booking.

Definition calculateTotals := calculateTotals.

(** [bookingSchema.pre('save')], Booking.js 193-199. *)
Definition pre_save (ctx : SaveCtx) (this : Reservation.t) : HookResult :=
  Next (if isNew ctx || isModified ctx "seats" || isModified ctx "combos"
        then calculateTotals this
        else this).

(** The validation of a booking: [bookingSchema] gives
    [cancellationReason] no [maxlength]. *)
Definition validate : Reservation.t -> bool := validate None.

(** What [cancel] has modified when it calls [save], on a booking as it
    was read from the collection. *)
Definition cancelCtx (refund : bool) : SaveCtx :=
  {| isNew := false;
     modifiedPaths :=
       (if refund then ["payment"; "payment.status"] else [])
       ++ ["status"; "cancelledBy"; "cancelledAt"; "cancellationReason"] |}.

(** [bookingSchema.methods.cancel], Booking.js 235-252; [now] is
    [new Date()]. The closing [await this.save()] validates the document,
    runs the pre-save hook and stores it; when the validation fails the
    method rejects with the validation error, whose message starts with
    the text below, and nothing is stored. *)
Definition cancel (now : Date) (this : Reservation.t)
    (userId : ObjectId) (reason : string) : Outcome Reservation.t :=
  if decide (Reservation.status this = st_cancelled)
  then Thrown "Booking is already cancelled"
  else
    let refund :=
      bool_decide (Reservation.status this = st_confirmed)
      && bool_decide (Payment.status (Reservation.payment this)
                      = pay_completed) in
    let this1 :=
      if refund
      then Reservation.set_payment_status this pay_refunded
      else this in
    let this2 := Reservation.set_status this1 st_cancelled in
    let this3 := Reservation.set_cancellation this2 userId now reason in
    if validate this3
    then
      match pre_save (cancelCtx refund) this3 with
      | Next doc => Returned doc
      | NextError message => Thrown message
      end
    else Thrown "Booking validation failed".

(** An element of the result of [getAvailableSeats]. *)
Record SeatAvailability : Type := mkAvail {
  seat : RoomSeat.t;
  isAvailable : bool
}.

(** [bookingSchema.statics.getAvailableSeats], Booking.js 346-375. The
    virtual [bookings] of a showtime is the tickets whose [showtime] is
    its [_id] (Booking.js 541-546), populated under the [match] filter. *)
Definition getAvailableSeats
    (showtimes : gmap ObjectId Showtime.t)
    (rooms : gmap ObjectId Room.t)
    (tickets : gmap ObjectId Reservation.t)
    (showtimeId : ObjectId) : Outcome (list SeatAvailability) :=
  match showtimes !! showtimeId with
  | None => Thrown "Showtime or room not found"
  | Some showtime =>
    match rooms !! Showtime.room showtime with
    | None => Thrown "Showtime or room not found"
    | Some room =>
      let bookings :=
        find_docs
          (fun _ ticket =>
             N.eqb (Reservation.showtime ticket) showtimeId
             && name_in (status_name (Reservation.status ticket))
                        ["confirmed"; "pending"]
             && negb (String.eqb
                        (payment_status_name
                           (Payment.status (Reservation.payment ticket)))
                        "refunded"))
          tickets in
      let bookedSeats := collect_seat_codes bookings (fun _ => true) in
      Returned
        (map (fun seat =>
                mkAvail seat
                  (negb (bool_decide (RoomSeat.code seat ∈ bookedSeats))
                   && String.eqb
                        (room_seat_status_name (RoomSeat.status seat))
                        "available"))
             (Room.seats room))
    end
  end.

End Booking.

(** ** Tickets, Ticket.js *)

Module Ticket.

Definition calculateTotals := calculateTotals.

(** First [ticketSchema.pre('save')], Ticket.js 247-272. *)
Definition pre_save_totals (ctx : SaveCtx) (this : Reservation.t)
    : Reservation.t :=
  if isNew ctx || isModified ctx "seats" || isModified ctx "combos"
     || isModified ctx "voucher"
  then
    let seatTotal :=
      fold_left (fun sum seat =>
                   Js.add sum (Js.ofField (SeatLine.price seat)))
                (Reservation.seats this) (Js.Fin 0) in
    let comboTotal :=
      fold_left (fun sum combo =>
                   Js.add sum
                     (Js.mul (Js.ofField (ComboLine.price combo))
                             (Js.ofField (ComboLine.qty combo))))
                (Reservation.combos this) (Js.Fin 0) in
    (* [this.subtotal], [this.discount] and [this.totalAmount] as the
       assignments leave them; the discount and the total are computed
       from what [this.subtotal] and [this.discount] then read *)
    let subtotal :=
      assignNumber (Reservation.subtotal this)
                   (Js.add seatTotal comboTotal) in
    let discount :=
      assignNumber (Reservation.discount this)
                   (voucher_discount subtotal (Reservation.voucher this)) in
    Reservation.set_totals this subtotal discount
      (assignNumber (Reservation.totalAmount this)
                    (Js.sub subtotal discount))
  else this.

(** Last [ticketSchema.pre('save')], Ticket.js 315-321. *)
Definition pre_save_defaults (ctx : SaveCtx) (this : Reservation.t)
    : Reservation.t :=
  if isNew ctx || isModified ctx "seats" || isModified ctx "combos"
  then calculateTotals this
  else this.

(** The pre-save hooks in registration order. The hook between the two
    (Ticket.js 275-283) only assigns [qrCode] ([qrCode] below), which no
    total depends on. *)
Definition pre_save (ctx : SaveCtx) (this : Reservation.t) : HookResult :=
  Next (pre_save_defaults ctx (pre_save_totals ctx this)).

(** The validation of a ticket: [cancellationReason] has
    [maxlength: 500], Ticket.js 208-211. A character of the text counts
    as one unit of its length. *)
Definition validate : Reservation.t -> bool := validate (Some 500%nat).

(** What [cancel] has modified when it calls [save], on a ticket as it
    was read from the collection. *)
Definition cancelCtx : SaveCtx :=
  {| isNew := false;
     modifiedPaths :=
       ["status"; "cancellationReason"; "cancelledBy"; "cancelledAt"] |}.

(** [ticketSchema.methods.cancel], Ticket.js 357-375; [now] is
    [new Date()]. The closing [await this.save()] validates the document,
    runs the pre-save hooks and stores it; when the validation fails the
    method rejects with the validation error, whose message starts with
    the text below, and nothing is stored. *)
Definition cancel (now : Date) (this : Reservation.t)
    (userId : ObjectId) (reason : string) : Outcome Reservation.t :=
  if decide (Reservation.status this = st_cancelled)
  then Thrown "Ticket is already cancelled"
  else
    let this1 := Reservation.set_status this st_cancelled in
    let this2 := Reservation.set_cancellation this1 userId now reason in
    if validate this2
    then
      match pre_save cancelCtx this2 with
      | Next doc => Returned doc
      | NextError message => Thrown message
      end
    else Thrown "Ticket validation failed".

(** *** The unique indexes, Ticket.js 198-202, 231-240 and 483 *)

(** The index meant to prevent the double booking of a seat. *)
Definition seatIndex : Index.t :=
  Index.mk ["scheduleId"; "seats.code"] true false
           (Some ("status", "cancelled")) ["message"].

Definition qrCodeIndex : Index.t :=
  Index.mk ["qrCode"] true true None [].

Definition transactionIndex : Index.t :=
  Index.mk ["payment.transactionId"] true true None [].

Definition uniqueIndexes : list Index.t :=
  [qrCodeIndex; seatIndex; transactionIndex].

(** The text the second pre-save hook gives to [qrCode] of a new ticket,
    Ticket.js 275-283: [`TICKET-${this._id}`]. *)
Definition qrCode (_id : ObjectId) : string :=
  "TICKET-" ++ NilEmpty.string_of_uint (N.to_uint _id).

(** The values a stored ticket has at a key path, [None] for a path
    without value. [scheduleId] is no path of [ticketSchema]: a stored
    ticket has no value there. *)
Definition pathValues (_id : ObjectId) (t : Reservation.t) (path : string)
    : list (option string) :=
  if String.eqb path "qrCode" then [Some (qrCode _id)]
  else if String.eqb path "payment.transactionId"
  then [Payment.transactionId (Reservation.payment t)]
  else if String.eqb path "seats.code"
  then match Reservation.seats t with
       | [] => [None]
       | seats => map (fun seat => Some (SeatLine.code seat)) seats
       end
  else [None].

(** The entries of a stored ticket in an index; a sparse index leaves out
    a document that has none of the key paths. *)
Definition entries (index : Index.t) (_id : ObjectId) (t : Reservation.t)
    : list (list (option string)) :=
  let keys := Index.tuples (map (pathValues _id t) (Index.keys index)) in
  if Index.sparse index
  then List.filter (existsb (fun v => bool_decide (is_Some v))) keys
  else keys.

(** A write of [t] under [_id] is refused by an index when the index is
    unique, the server has built it, and another document has one of the
    entries of [t]. *)
Definition duplicateKey (index : Index.t)
    (c : gmap ObjectId Reservation.t) (_id : ObjectId) (t : Reservation.t)
    : bool :=
  Index.unique index && Index.built index
  && match findOne (fun id' t' =>
                      negb (N.eqb id' _id)
                      && existsb (fun k =>
                                    bool_decide (k ∈ entries index id' t'))
                                 (entries index _id t)) c with
     | Some _ => true
     | None => false
     end.

Inductive WriteResult : Type :=
| Written (c : gmap ObjectId Reservation.t)
| ValidationError
| DuplicateKeyError.

(** [new Ticket(doc).save()] for a document with a new [_id]: the
    validation, the pre-save hooks, then the insert, which the unique
    indexes of the collection can refuse. *)
Definition save (c : gmap ObjectId Reservation.t) (_id : ObjectId)
    (doc : Reservation.t) : WriteResult :=
  if negb (validate doc) then ValidationError
  else
    match pre_save {| isNew := true; modifiedPaths := [] |} doc with
    | NextError _ => ValidationError
    | Next stored =>
      if bool_decide (is_Some (c !! _id))
         || existsb (fun index => duplicateKey index c _id stored)
                    uniqueIndexes
      then DuplicateKeyError
      else Written (<[_id := stored]> c)
    end.

(** A reservation that is neither cancelled nor expired. *)
Definition active (t : Reservation.t) : Prop :=
  Reservation.status t <> st_cancelled /\ Reservation.status t <> st_expired.

(** The seat codes of a reservation. *)
Definition seatCodes (t : Reservation.t) : list string :=
  map SeatLine.code (Reservation.seats t).

End Ticket.

(** ** Schedules, scheduleController.js *)

(** Modelled from the spec: the [Schedule] model (models/Schedule.js) is
    not among the sources. A schedule has the fields of the specification's
    data model under the names the controller gives them; a schedule is
    created active, and the model adds no validation of its own. *)
Module Schedule.
Record t : Type := mk {
  movie : ObjectId;
  theater : ObjectId;
  room : ObjectId;
  startTime : Date;
  endTime : Date;
  price : Q;
  is3d : bool;
  hasSubtitles : bool;
  isDubbed : bool;
  isActive : bool;
  createdBy : ObjectId
}.
End Schedule.

(** The collections the schedule controller reads and writes. Of a movie
    and of a theater only the existence matters. *)
Module Db.
Record t : Type := mk {
  movies : gset ObjectId;
  theaters : gset ObjectId;
  rooms : gmap ObjectId Room.t;
  schedules : gmap ObjectId Schedule.t
}.

Definition set_schedules (db : t) (s : gmap ObjectId Schedule.t) : t :=
  mk (movies db) (theaters db) (rooms db) s.
End Db.

Module scheduleController.

(** The responses of the three handlers. *)
Inductive Response : Type :=
| ValidationErrors (errors : list string)       (* 400, { errors } *)
| NotFound (message : string)                   (* 404 *)
| ScheduleConflict                              (* 400, 'Schedule conflict: ...' *)
| HasBookings                                   (* 400, 'Cannot delete schedule with existing bookings. ...' *)
| Created (id : ObjectId) (data : Schedule.t)   (* 201 *)
| Updated (id : ObjectId) (data : Schedule.t)   (* 200 *)
| Deleted                                       (* 200, data: {} *)
| ServerError.                                  (* 500 *)

(** [req.body] of [POST /api/schedules], the defaults of the
    destructuring applied, the dates parsed. *)
Module CreateBody.
Record t : Type := mk {
  movieId : ObjectId;
  theaterId : ObjectId;
  roomId : ObjectId;
  startTime : Date;
  endTime : Date;
  price : Q;
  is3d : bool;
  hasSubtitles : bool;
  isDubbed : bool
}.
End CreateBody.

(** [req.body] of [PUT /api/schedules/:id]: every field is optional. *)
Module UpdateBody.
Record t : Type := mk {
  startTime : option Date;
  endTime : option Date;
  roomId : option ObjectId;
  price : option Q;
  is3d : option bool;
  hasSubtitles : option bool;
  isDubbed : option bool;
  isActive : option bool
}.
End UpdateBody.

Record Request (B : Type) : Type := mkRequest {
  validationErrors : list string;   (* validationResult(req).array() *)
  user : ObjectId;                  (* req.user.id *)
  body : B
}.

Arguments mkRequest {B} validationErrors user body.
Arguments validationErrors {B} r.
Arguments user {B} r.
Arguments body {B} r.

(** The query [{ room, $or: [{ startTime: { $lt: end }, endTime:
    { $gt: start } }] }] of both conflict checks. *)
Definition conflictQuery (room : ObjectId) (start end_ : Date)
    (s : Schedule.t) : bool :=
  N.eqb (Schedule.room s) room
  && (Schedule.startTime s <? end_)%Z
  && (Schedule.endTime s >? start)%Z.

(** [exports.createSchedule], scheduleController.js 11-95. *)
Definition createSchedule (db : Db.t) (req : Request CreateBody.t)
    : Response * Db.t :=
  let b := body req in
  match validationErrors req with
  | _ :: _ => (ValidationErrors (validationErrors req), db)
  | [] =>
    if negb (bool_decide (CreateBody.movieId b ∈ Db.movies db))
    then (NotFound "Movie not found", db)
    else if negb (bool_decide (CreateBody.theaterId b ∈ Db.theaters db))
    then (NotFound "Theater not found", db)
    else
      match findOne (fun id room =>
                       N.eqb id (CreateBody.roomId b)
                       && N.eqb (Room.theater room) (CreateBody.theaterId b))
                    (Db.rooms db) with
      | None => (NotFound "Room not found in this theater", db)
      | Some _ =>
        match findOne (fun _ s =>
                         conflictQuery (CreateBody.roomId b)
                                       (CreateBody.startTime b)
                                       (CreateBody.endTime b) s)
                      (Db.schedules db) with
        | Some _ => (ScheduleConflict, db)
        | None =>
          let schedule :=
            Schedule.mk (CreateBody.movieId b) (CreateBody.theaterId b)
                        (CreateBody.roomId b)
                        (CreateBody.startTime b) (CreateBody.endTime b)
                        (CreateBody.price b)
                        (CreateBody.is3d b) (CreateBody.hasSubtitles b)
                        (CreateBody.isDubbed b)
                        true
                        (user req) in
          let _id := fresh (dom (Db.schedules db)) in
          (Created _id schedule,
           Db.set_schedules db (<[_id := schedule]> (Db.schedules db)))
        end
      end
  end.

(** The [$set] of [updateSchedule]: the allowed fields present in the
    body. *)
Definition applyUpdates (b : UpdateBody.t) (s : Schedule.t) : Schedule.t :=
  Schedule.mk (Schedule.movie s) (Schedule.theater s) (Schedule.room s)
              (default (Schedule.startTime s) (UpdateBody.startTime b))
              (default (Schedule.endTime s) (UpdateBody.endTime b))
              (default (Schedule.price s) (UpdateBody.price b))
              (default (Schedule.is3d s) (UpdateBody.is3d b))
              (default (Schedule.hasSubtitles s) (UpdateBody.hasSubtitles b))
              (default (Schedule.isDubbed s) (UpdateBody.isDubbed b))
              (default (Schedule.isActive s) (UpdateBody.isActive b))
              (Schedule.createdBy s).

(** [req.body.startTime || req.body.endTime || req.body.roomId] *)
Definition touchesSlot (b : UpdateBody.t) : bool :=
  bool_decide (is_Some (UpdateBody.startTime b))
  || bool_decide (is_Some (UpdateBody.endTime b))
  || bool_decide (is_Some (UpdateBody.roomId b)).

(** [exports.updateSchedule], scheduleController.js 217-286. *)
Definition updateSchedule (db : Db.t) (id : ObjectId)
    (req : Request UpdateBody.t) : Response * Db.t :=
  let b := body req in
  match validationErrors req with
  | _ :: _ => (ValidationErrors (validationErrors req), db)
  | [] =>
    match Db.schedules db !! id with
    | None => (NotFound "Schedule not found", db)
    | Some schedule =>
      let conflict :=
        if touchesSlot b then
          let start := default (Schedule.startTime schedule)
                               (UpdateBody.startTime b) in
          let end_ := default (Schedule.endTime schedule)
                              (UpdateBody.endTime b) in
          let room := default (Schedule.room schedule)
                              (UpdateBody.roomId b) in
          findOne (fun id' s =>
                     negb (N.eqb id' id) && conflictQuery room start end_ s)
                  (Db.schedules db)
        else None in
      match conflict with
      | Some _ => (ScheduleConflict, db)
      | None =>
        let schedule' := applyUpdates b schedule in
        (Updated id schedule',
         Db.set_schedules db (<[id := schedule']> (Db.schedules db)))
      end
    end
  end.

Section DeleteSchedule.

(** What the identifier [Booking] stands for in the module of the
    controller, as far as the handler uses it: the function
    [id => Booking.countDocuments({ schedule: id })], or nothing when the
    identifier is not bound. *)
Variable Booking : option (ObjectId -> nat).

(** [exports.deleteSchedule], scheduleController.js 291-331. Reading an
    unbound identifier throws a [ReferenceError]; the [catch] block
    answers 500 to an error whose [kind] is not ['ObjectId']. *)
Definition deleteSchedule_in (db : Db.t) (id : ObjectId)
    : Response * Db.t :=
  match Db.schedules db !! id with
  | None => (NotFound "Schedule not found", db)
  | Some schedule =>
    match Booking with
    | None => (ServerError, db)
    | Some countBySchedule =>
      let bookingCount := countBySchedule id in
      if 0 <? bookingCount
      then (HasBookings, db)
      else (Deleted, Db.set_schedules db (delete id (Db.schedules db)))
    end
  end.

End DeleteSchedule.

(** The module requires [Schedule], [Movie], [Theater], [Room],
    [validationResult] and [moment] (scheduleController.js 1-6) and
    declares nothing else at top level: [Booking] is not bound. *)
Definition Booking : option (ObjectId -> nat) := None.

Definition deleteSchedule : Db.t -> ObjectId -> Response * Db.t :=
  deleteSchedule_in Booking.

End scheduleController.

(** ** The specification's wording

    The definitions below follow the sentences of the specification, not
    the code; the properties compare the code with them. *)

(** §4.4: [percent] gives [min(subtotal × value / 100, maxDiscount ?? ∞)],
    [fixed] gives [min(value, subtotal)]. *)
Definition spec_discount (subtotal value : Q) (v : Voucher.t) : Q :=
  match Voucher.discountType v with
  | percent =>
    match Voucher.maxDiscount v with
    | Some cap => Qmin (subtotal * value / 100) cap
    | None => subtotal * value / 100
    end
  | fixed => Qmin value subtotal
  end.

(** §3: [subtotal = Σ seat.price + Σ combo.price × qty]. *)
Definition spec_subtotal (seats : list SeatLine.t) (combos : list ComboLine.t)
    : Q :=
  foldr (fun seat sum => default 0 (SeatLine.price seat) + sum) 0 seats
  + foldr (fun combo sum =>
             default 0 (ComboLine.price combo)
             * default 0 (ComboLine.quantity combo) + sum) 0 combos.

(** §3: [totalAmount = max(0, subtotal - discount + tax + serviceFee)]. *)
Definition spec_total (subtotal discount tax serviceFee : Q) : Q :=
  Qmax 0 (subtotal - discount + tax + serviceFee).

(** §4.3: the terminal states of the state machine. *)
Definition terminal (s : Status) : bool :=
  match s with
  | st_cancelled | st_refunded | st_expired => true
  | st_pending | st_confirmed => false
  end.

(** §4.2: a seat is not free when a reservation of the schedule with status
    pending or confirmed contains its code, a pending reservation whose
    [expiresAt] has passed not counting. *)
Definition spec_not_free (now : Date) (tickets : gmap ObjectId Reservation.t)
    (scheduleId : ObjectId) (code : string) : Prop :=
  exists id t,
    tickets !! id = Some t
    /\ Reservation.showtime t = scheduleId
    /\ (Reservation.status t = st_confirmed
        \/ (Reservation.status t = st_pending
            /\ (now < Reservation.expiresAt t)%Z))
    /\ code ∈ Ticket.seatCodes t.

(** §4.1: an active schedule of the room, other than [self] when given,
    whose interval overlaps [start, end). *)
Definition spec_conflict (schedules : gmap ObjectId Schedule.t)
    (self : option ObjectId) (room : ObjectId) (start end_ : Date) : Prop :=
  exists id s,
    schedules !! id = Some s
    /\ Some id <> self
    /\ Schedule.isActive s = true
    /\ Schedule.room s = room
    /\ (Schedule.startTime s < end_)%Z
    /\ (Schedule.endTime s > start)%Z.

(** ** Sample documents *)

(** A stored ticket: seat A1 at 100000, no combo, a fixed voucher of 20000,
    tax 10000 and service fee 5000. *)
Definition ticket_with_tax : Reservation.t :=
  Reservation.mk 7%N 1%N
    [SeatLine.mk "A1" vip (Some 100000) 0 0] []
    (Some (Voucher.mk (Some "OFF20") (Some 20000) fixed None None))
    (Js.Fin 100000) (Js.Fin 0) (Some 10000) (Some 5000) (Js.Fin 115000)
    (Payment.mk "cash" None pay_pending None)
    st_pending 600000 None None None.

(** A pending ticket for seat A1 of showtime 1 whose hold ended at time
    100. *)
Definition stale_pending_ticket : Reservation.t :=
  Reservation.mk 7%N 1%N
    [SeatLine.mk "A1" vip (Some 100000) 0 0] [] None
    (Js.Fin 100000) (Js.Fin 0) None None (Js.Fin 100000)
    (Payment.mk "momo" None pay_pending None)
    st_pending 100 None None None.

(** An expired booking. *)
Definition expired_booking : Reservation.t :=
  Reservation.mk 7%N 1%N
    [SeatLine.mk "A1" vip (Some 100000) 0 0] [] None
    (Js.Fin 100000) (Js.Fin 0) None None (Js.Fin 100000)
    (Payment.mk "momo" None pay_pending None)
    st_expired 100 None None None.

(** A reason of 501 characters. *)
Definition long_reason : string :=
  String.string_of_list_ascii (repeat (Ascii.ascii_of_nat 120) 501).

(** A pending ticket for the given seats of a showtime. *)
Definition pending_ticket (showtime : ObjectId) (codes : list string)
    : Reservation.t :=
  Reservation.mk 7%N showtime
    (map (fun code => SeatLine.mk code standard (Some 80000) 0 0) codes)
    [] None
    (Js.Fin 0) (Js.Fin 0) None None (Js.Fin 0)
    (Payment.mk "momo" None pay_pending None)
    st_pending 600000 None None None.

(** A room of two rows of two seats, as [pre_save] stores it. *)
Definition small_room : Room.t :=
  Room.pre_save {| isNew := true; modifiedPaths := [] |}
    (Room.mk 1%N "Room 1" 4 2 2 [] true).

(** A schedule of room 5 over [start, end), active or not. *)
Definition schedule_of (start end_ : Date) (active : bool) : Schedule.t :=
  Schedule.mk 1%N 2%N 5%N start end_ 90000 false false false active 9%N.

(** A database with one movie, one theater, room 5 in it, and the given
    schedules. *)
Definition sample_db (schedules : gmap ObjectId Schedule.t) : Db.t :=
  Db.mk {[ 1%N ]} {[ 2%N ]}
        {[ 5%N := Room.mk 2%N "Room 5" 4 2 2 [] true ]}
        schedules.

(** A request to schedule movie 1 in room 5 of theater 2 over
    [start, end). *)
Definition create_request (start end_ : Date)
    : scheduleController.Request scheduleController.CreateBody.t :=
  scheduleController.mkRequest [] 9%N
    (scheduleController.CreateBody.mk 1%N 2%N 5%N start end_ 90000
                                      false false false).

(** A request to move a schedule to [start, end). *)
Definition move_request (start end_ : Date)
    : scheduleController.Request scheduleController.UpdateBody.t :=
  scheduleController.mkRequest [] 9%N
    (scheduleController.UpdateBody.mk (Some start) (Some end_) None None
                                      None None None None).

(** Showtime 1 in room 5, the room holding [small_room]. *)
Definition sample_showtimes : gmap ObjectId Showtime.t :=
  {[ 1%N := Showtime.mk 1%N 2%N 5%N 1000 2000 true ]}.

Definition sample_rooms : gmap ObjectId Room.t :=
  {[ 5%N := small_room ]}.

(** ** Queries of the schedule controller, scheduleController.js 333-563 *)

Module scheduleQueries.

(** A candidate slot of [getAvailableTimeSlots]. *)
Record Slot : Type := mkSlot {
  start : Date;
  end_ : Date
}.

(** [d.setMinutes(d.getMinutes() + n)] and [d.setHours(h, 0, 0, 0)] on time
    stamps: the day of the request is taken to have 24 hours of 60 minutes
    (no change of the clock in between). *)
Definition addMinutes (t : Date) (n : Z) : Date := (t + n * 60000)%Z.

Definition atHour (startOfDay : Date) (h : Z) : Date :=
  (startOfDay + h * 3600000)%Z.

(** [req.query] of [GET /api/schedules/available-times]: [date] is the
    local midnight of the requested day, [duration] is
    [parseInt(duration)], absent when that is [NaN]. *)
Record SlotsQuery : Type := mkSlotsQuery {
  theaterId : option ObjectId;
  roomId : option ObjectId;
  date : option Date;
  duration : option Z
}.

Inductive SlotsResponse : Type :=
| SlotsBadRequest                   (* 400, 'Theater ID, room ID, date, and duration are required' *)
| SlotsData (data : list Slot).     (* 200 *)

(** The query of the shows of the room on the selected day. *)
Definition dayQuery (room : ObjectId) (startOfDay endOfDay : Date)
    (s : Schedule.t) : bool :=
  N.eqb (Schedule.room s) room
  && (((Schedule.startTime s >=? startOfDay)%Z
       && (Schedule.startTime s <=? endOfDay)%Z)
      || ((Schedule.endTime s >=? startOfDay)%Z
          && (Schedule.endTime s <=? endOfDay)%Z)
      || ((Schedule.startTime s <=? startOfDay)%Z
          && (Schedule.endTime s >=? endOfDay)%Z)).

(** The [while (currentTime < closeTime)] loop; [fuel] bounds the number of
    iterations. *)
Fixpoint timeSlots_loop (fuel : nat) (currentTime closeTime : Date)
    (durationMinutes : Z) : list Slot :=
  match fuel with
  | O => []
  | S fuel' =>
    if (currentTime <? closeTime)%Z then
      let slotEnd := addMinutes currentTime durationMinutes in
      let rest :=
        timeSlots_loop fuel' (addMinutes currentTime 30) closeTime
                       durationMinutes in
      if (slotEnd <=? closeTime)%Z
      then mkSlot currentTime slotEnd :: rest
      else rest
    else []
  end.

(** Iterations the loop needs: one per half hour from [openTime] up to
    [closeTime]. *)
Definition timeSlots_fuel (openTime closeTime : Date) : nat :=
  S (Z.to_nat ((closeTime - openTime) / (30 * 60000))).

(** The predicate of [scheduledShows.some] in the filter of the slots. *)
Definition slotTaken (slot : Slot) (show : Schedule.t) : bool :=
  ((start slot >=? Schedule.startTime show)%Z
   && (start slot <? Schedule.endTime show)%Z)
  || ((end_ slot >? Schedule.startTime show)%Z
      && (end_ slot <=? Schedule.endTime show)%Z)
  || ((start slot <=? Schedule.startTime show)%Z
      && (end_ slot >=? Schedule.endTime show)%Z).

(** [exports.getAvailableTimeSlots], scheduleController.js 478-563. The
    sort of the shows does not matter to [some]; [formattedTime], a
    rendering of the two dates in the server's locale, is not modelled. *)
Definition getAvailableTimeSlots (db : Db.t) (q : SlotsQuery)
    : SlotsResponse :=
  match theaterId q, roomId q, date q, duration q with
  | Some _, Some room, Some startOfDay, Some durationMinutes =>
    let endOfDay := (startOfDay + 86399999)%Z in
    let scheduledShows :=
      find_docs (fun _ s => dayQuery room startOfDay endOfDay s)
                (Db.schedules db) in
    let openTime := atHour startOfDay 9 in
    let closeTime := atHour startOfDay 23 in
    let timeSlots :=
      timeSlots_loop (timeSlots_fuel openTime closeTime)
                     openTime closeTime durationMinutes in
    SlotsData
      (List.filter
         (fun slot =>
            negb (existsb (fun show => slotTaken slot (snd show))
                          scheduledShows))
         timeSlots)
  | _, _, _, _ => SlotsBadRequest
  end.

(** An element of [times] in the answer of [getSchedulesByMovie]; [room] is
    the populated room, absent when the room document is gone. *)
Record TimeEntry : Type := mkTime {
  scheduleId : ObjectId;
  time : Date;
  room : option ObjectId;
  price : Q;
  is3d : bool;
  hasSubtitles : bool;
  isDubbed : bool
}.

Record TheaterGroup : Type := mkGroup {
  theater : ObjectId;
  times : list TimeEntry
}.

(** [schedule.startTime.toISOString().split('T')[0]]: the UTC calendar day
    of the instant, kept as the number of the day rather than as its
    ['YYYY-MM-DD'] name. *)
Definition dateKey (t : Date) : Z := (t / 86400000)%Z.

Definition timeEntry (rooms : gmap ObjectId Room.t)
    (doc : ObjectId * Schedule.t) : TimeEntry :=
  mkTime (fst doc) (Schedule.startTime (snd doc))
         (if rooms !! Schedule.room (snd doc) is Some _
          then Some (Schedule.room (snd doc)) else None)
         (Schedule.price (snd doc)) (Schedule.is3d (snd doc))
         (Schedule.hasSubtitles (snd doc)) (Schedule.isDubbed (snd doc)).

(** One step of the [reduce] of [getSchedulesByMovie],
    scheduleController.js 366-402. Reading [schedule.theater._id] of a
    schedule whose theater document is gone throws a [TypeError]: the step
    has no result. *)
Definition groupStep (theaters : gset ObjectId) (rooms : gmap ObjectId Room.t)
    (acc : gmap Z (list TheaterGroup)) (doc : ObjectId * Schedule.t)
    : option (gmap Z (list TheaterGroup)) :=
  let schedule := snd doc in
  let dateKey := dateKey (Schedule.startTime schedule) in
  if bool_decide (Schedule.theater schedule ∈ theaters) then
    let theaterId := Schedule.theater schedule in
    let groups := default [] (acc !! dateKey) in
    match list_find (fun t => theater t = theaterId) groups with
    | None =>
      Some (<[dateKey := groups ++ [mkGroup theaterId
                                            [timeEntry rooms doc]]]> acc)
    | Some (theaterIndex, _) =>
      Some (<[dateKey :=
                alter (fun t => mkGroup (theater t)
                                        (times t ++ [timeEntry rooms doc]))
                      theaterIndex groups]> acc)
    end
  else None.

(** [schedules.reduce(..., {})] *)
Fixpoint groupSchedules (theaters : gset ObjectId)
    (rooms : gmap ObjectId Room.t) (acc : gmap Z (list TheaterGroup))
    (schedules : list (ObjectId * Schedule.t))
    : option (gmap Z (list TheaterGroup)) :=
  match schedules with
  | [] => Some acc
  | doc :: rest =>
    match groupStep theaters rooms acc doc with
    | Some acc' => groupSchedules theaters rooms acc' rest
    | None => None
    end
  end.

(** The schedules of a day and theater, in the order of the list. *)
Definition onDayIn (day : Z) (th : ObjectId)
    (docs : list (ObjectId * Schedule.t)) : list (ObjectId * Schedule.t) :=
  filter (fun doc => dateKey (Schedule.startTime (snd doc)) = day
                     /\ Schedule.theater (snd doc) = th) docs.

(** What the accumulator of the [reduce] holds once the schedules [seen]
    have been processed: under every day a non-empty list of groups with
    pairwise distinct theaters, each group holding the schedules of its day
    and theater in the order they were seen. *)
Definition grouped (rooms : gmap ObjectId Room.t)
    (acc : gmap Z (list TheaterGroup))
    (seen : list (ObjectId * Schedule.t)) : Prop :=
  (forall day groups,
      acc !! day = Some groups ->
      groups <> []
      /\ NoDup (theater <$> groups)
      /\ forall g, g ∈ groups ->
           times g <> []
           /\ times g = timeEntry rooms <$> onDayIn day (theater g) seen)
  /\ (forall doc, doc ∈ seen ->
        exists groups g,
          acc !! dateKey (Schedule.startTime (snd doc)) = Some groups
          /\ g ∈ groups
          /\ theater g = Schedule.theater (snd doc)).

(** [req.query] of [GET /api/schedules/movie/:movieId]; [date] is the local
    midnight of the requested day. *)
Record ByMovieQuery : Type := mkByMovieQuery {
  onDate : option Date;
  inTheater : option ObjectId
}.

Inductive ByMovieResponse : Type :=
| Grouped (data : gmap Z (list TheaterGroup))   (* 200 *)
| GroupingFailed.                                (* 500 *)

(** The filter of [getSchedulesByMovie]: with a [date] the bounds of that
    day replace the bound [startTime >= now]. *)
Definition byMovieFilter (now : Date) (movieId : ObjectId)
    (q : ByMovieQuery) (s : Schedule.t) : bool :=
  N.eqb (Schedule.movie s) movieId
  && match onDate q with
     | Some startOfDay =>
       (Schedule.startTime s >=? startOfDay)%Z
       && (Schedule.startTime s <=? startOfDay + 86399999)%Z
     | None => (Schedule.startTime s >=? now)%Z
     end
  && match inTheater q with
     | Some theaterId => N.eqb (Schedule.theater s) theaterId
     | None => true
     end.

(** [.sort({ startTime: 1 })]. The order the database gives to schedules
    that start at the same instant is not specified; here it is that of a
    merge sort. *)
Definition byStartTime (a b : ObjectId * Schedule.t) : Prop :=
  (Schedule.startTime (snd a) <= Schedule.startTime (snd b))%Z.

#[global] Instance byStartTime_dec : RelDecision byStartTime.
Proof. intros a b. unfold byStartTime. apply _. Defined.

#[global] Instance byStartTime_total : Total byStartTime.
Proof. intros a b. unfold byStartTime. lia. Qed.

#[global] Instance byStartTime_trans : Transitive byStartTime.
Proof. intros a b c. unfold byStartTime. lia. Qed.

(** [exports.getSchedulesByMovie], scheduleController.js 336-421; [now] is
    [new Date()]. *)
Definition getSchedulesByMovie (db : Db.t) (now : Date) (movieId : ObjectId)
    (q : ByMovieQuery) : ByMovieResponse :=
  let schedules :=
    merge_sort byStartTime
      (find_docs (fun _ s => byMovieFilter now movieId q s)
                 (Db.schedules db)) in
  match groupSchedules (Db.theaters db) (Db.rooms db) ∅ schedules with
  | Some result => Grouped result
  | None => GroupingFailed
  end.

End scheduleQueries.

(** ** More sample documents *)

(** Room 5 is taken from 10:00 to 12:00 on the day that starts at time 0. *)
Definition slots_db : Db.t :=
  sample_db {[ 3%N := schedule_of 36000000 43200000 true ]}.

(** A request for the free slots of room 5 on that day. *)
Definition slots_query (durationMinutes : Z) : scheduleQueries.SlotsQuery :=
  scheduleQueries.mkSlotsQuery (Some 2%N) (Some 5%N) (Some 0%Z)
                               (Some durationMinutes).

(** Two schedules of movie 1 in theater 2, on the days 0 and 1. *)
Definition two_days_db : Db.t :=
  sample_db (<[ 4%N := schedule_of 90000000 97200000 true ]>
               {[ 3%N := schedule_of 36000000 43200000 true ]}).

(** ** Booking history, Booking.js 255-311 and Ticket.js 378-433 *)

Module userBookings.

(** A stored booking or ticket with its [createdAt] time stamp. *)
Record Stored : Type := mkStored {
  doc : Reservation.t;
  createdAt : Date
}.

(** The [options] of [getUserBookings], defaults applied. [limit] and
    [page] are positive integers. An empty [status] counts as absent. *)
Record Options : Type := mkOptions {
  limit : positive;
  page : positive;
  status : option string;
  fromDate : option Date;
  toDate : option Date;
  sortBy : string
}.

Record Pagination : Type := mkPagination {
  total : nat;
  currentPage : positive;
  pageSize : positive;
  totalPages : nat;
  hasNextPage : bool;
  hasPrevPage : bool
}.

Record Result : Type := mkResult {
  bookings : list (ObjectId * Stored);
  pagination : Pagination
}.

(** [Math.ceil(total / limit)] *)
Definition ceilDiv (total limit : nat) : nat :=
  (total / limit + if (total mod limit =? 0)%nat then 0 else 1)%nat.

Section Engine.

(** What the database and the clock contribute: the order [.sort(sortBy)]
    gives to a result, and [setHours(23, 59, 59, 999)] in the time zone of
    the server. *)
Variable sort : string -> list (ObjectId * Stored) -> list (ObjectId * Stored).
Variable endOfDay : Date -> Date.

(** The [query] object of [getUserBookings]. *)
Definition matches (userId : ObjectId) (options : Options) (b : Stored)
    : bool :=
  N.eqb (Reservation.user (doc b)) userId
  && match status options with
     | Some s =>
       String.eqb s ""
       || String.eqb (status_name (Reservation.status (doc b))) s
     | None => true
     end
  && match fromDate options with
     | Some from => (createdAt b >=? from)%Z
     | None => true
     end
  && match toDate options with
     | Some to => (createdAt b <=? endOfDay to)%Z
     | None => true
     end.

(** [bookingSchema.statics.getUserBookings] and
    [ticketSchema.statics.getUserBookings]: the two texts differ in the
    name of the list in the result and in the paths they populate. *)
Definition getUserBookings (c : gmap ObjectId Stored) (userId : ObjectId)
    (options : Options) : Result :=
  let query := fun (_ : ObjectId) b => matches userId options b in
  let skip := ((Pos.to_nat (page options) - 1)
               * Pos.to_nat (limit options))%nat in
  let bookings :=
    take (Pos.to_nat (limit options))
         (drop skip (sort (sortBy options) (find_docs query c))) in
  let total := length (find_docs query c) in
  let totalPages := ceilDiv total (Pos.to_nat (limit options)) in
  mkResult bookings
    (mkPagination total (page options) (limit options) totalPages
       (Pos.to_nat (page options) <? totalPages)%nat
       (1 <? Pos.to_nat (page options))%nat).

(** Everything the query of a request matches, in the order of the
    database: what [.skip] and [.limit] cut the page from. *)
Definition history (c : gmap ObjectId Stored) (userId : ObjectId)
    (options : Options) : list (ObjectId * Stored) :=
  sort (sortBy options)
       (find_docs (fun _ b => matches userId options b) c).

End Engine.

(** The same request for another page. *)
Definition onPage (options : Options) (p : positive) : Options :=
  mkOptions (limit options) p (status options) (fromDate options)
            (toDate options) (sortBy options).

End userBookings.

(** A database that returns the documents in the order it stores them,
    and a server whose days end 86399999 ms after their first instant. *)
Definition stored_order (by_ : string)
    (l : list (ObjectId * userBookings.Stored))
    : list (ObjectId * userBookings.Stored) := l.

Definition last_instant (d : Date) : Date := (d + 86399999)%Z.

(** Three bookings of user 7, created at the times 10, 20 and 30. *)
Definition history_db : gmap ObjectId userBookings.Stored :=
  <[ 3%N := userBookings.mkStored expired_booking 30 ]>
    (<[ 2%N := userBookings.mkStored (pending_ticket 1%N ["A2"]) 20 ]>
       {[ 1%N := userBookings.mkStored stale_pending_ticket 10 ]}).

(** Page [p] of the history, two bookings a page. *)
Definition two_a_page (p : positive) : userBookings.Options :=
  userBookings.mkOptions 2 p None None None "-createdAt".

(** ** Schedules of one room *)

(** Two schedules are in conflict as the queries of [createSchedule] and
    [updateSchedule] understand it: same room, and each starts before the
    other ends. *)
Definition overlap (s1 s2 : Schedule.t) : Prop :=
  Schedule.room s1 = Schedule.room s2
  /\ (Schedule.startTime s1 < Schedule.endTime s2)%Z
  /\ (Schedule.endTime s1 > Schedule.startTime s2)%Z.

(** No two schedules of the collection are in conflict. *)
Definition conflict_free (schedules : gmap ObjectId Schedule.t) : Prop :=
  forall id1 id2 s1 s2,
    id1 <> id2 ->
    schedules !! id1 = Some s1 -> schedules !! id2 = Some s2 ->
    ~ overlap s1 s2.

(** A request to move a schedule to [start, end) and to the room
    [room]. *)
Definition move_to_room_request (room : ObjectId) (start end_ : Date)
    : scheduleController.Request scheduleController.UpdateBody.t :=
  scheduleController.mkRequest [] 9%N
    (scheduleController.UpdateBody.mk (Some start) (Some end_) (Some room)
                                      None None None None None).

(** Room 5 with the schedules 3 (1000-1100) and 4 (1300-1400). *)
Definition two_shows_db : Db.t :=
  sample_db (<[ 4%N := schedule_of 1300 1400 true ]>
               {[ 3%N := schedule_of 1000 1100 true ]}).

(** [stale_pending_ticket] as [Ticket.cancel] leaves it at time 150. *)
Definition cancelled_stale_ticket : Reservation.t :=
  Reservation.set_cancellation
    (Reservation.set_status stale_pending_ticket st_cancelled)
    7%N 150 "late".

(** A ticket that holds the seat [code] of a showtime for
    [Booking.getAvailableSeats]. *)
Definition holds (showtimeId : ObjectId) (code : string) (t : Reservation.t)
    : Prop :=
  Reservation.showtime t = showtimeId
  /\ (Reservation.status t = st_pending
      \/ Reservation.status t = st_confirmed)
  /\ Payment.status (Reservation.payment t) <> pay_refunded
  /\ code ∈ Ticket.seatCodes t.

(** ** Removing rooms and theaters *)

(** [roomSchema.pre('remove')], Room.js 176-180:
    [Showtime.deleteMany({ room: this._id })]. *)
Definition room_pre_remove (showtimes : gmap ObjectId Showtime.t)
    (this_id : ObjectId) : gmap ObjectId Showtime.t :=
  filter (fun d => Showtime.room d.2 <> this_id) showtimes.

(** [room.remove()]: the hook, then the document itself. *)
Definition room_remove (rooms : gmap ObjectId Room.t)
    (showtimes : gmap ObjectId Showtime.t) (this_id : ObjectId)
    : gmap ObjectId Room.t * gmap ObjectId Showtime.t :=
  (delete this_id rooms, room_pre_remove showtimes this_id).

(** [theaterSchema.pre('remove')], Booking.js 459-462:
    [Room.deleteMany({ theater: this._id })]. [deleteMany] is a query on
    the collection: it runs no [remove] hook of the documents it
    deletes. *)
Definition theater_pre_remove (rooms : gmap ObjectId Room.t)
    (this_id : ObjectId) : gmap ObjectId Room.t :=
  filter (fun d => Room.theater d.2 <> this_id) rooms.

(** [theater.remove()] on the collections it reaches. *)
Definition theater_remove (theaters : gset ObjectId)
    (rooms : gmap ObjectId Room.t) (this_id : ObjectId)
    : gset ObjectId * gmap ObjectId Room.t :=
  (theaters ∖ {[ this_id ]}, theater_pre_remove rooms this_id).

(** ** The showtime pages of a movie, showtimeController.js *)

(** [movieSchema], Movie.js 3-88, as far as the controller reads it. *)
Inductive MovieStatus : Type := mv_showing | mv_upcoming | mv_ended.

Module Movie.
Record t : Type := mk {
  title : string;
  duration : Z;
  status : MovieStatus
}.
End Movie.

(** The model [Cinema], which [theater] of a showtime refers to
    (Booking.js 489-493), is not among the sources. Of its documents the
    handlers read [city] only, and nothing is assumed of it: a document
    has a text there, or it has none ([None]). *)
Module Cinema.
Record t : Type := mk {
  city : option string
}.
End Cinema.

Module showtimeController.

(** The [date] of the query string of [getMovieShowtimes] and
    [getMovieAvailability]: absent or empty, failing the test
    [/^\d{4}-\d{2}-\d{2}$/], or passing it; a date that passes is taken
    to name a day of the calendar, and [new Date(date)] is the first
    instant of that day. *)
Inductive DateParam : Type :=
| NoDate
| Malformed
| Day (startDate : Date).

Inductive Response (A : Type) : Type :=
| BadRequest (message : string)      (* 400 *)
| Ok (count : nat) (data : list A)   (* 200, { success, count, data } *)
| NextError.                         (* next(err) *)

Arguments BadRequest {A} message.
Arguments Ok {A} count data.
Arguments NextError {A}.

(** The collections the handlers read. *)
Record Collections : Type := mkCollections {
  movies : gmap ObjectId Movie.t;
  theaters : gmap ObjectId Cinema.t;
  rooms : gmap ObjectId Room.t;
  showtimes : gmap ObjectId Showtime.t;
  bookings : gmap ObjectId Reservation.t
}.

(** [d.setDate(d.getDate() + n)], the days taken to have 24 hours. *)
Definition addDays (t : Date) (n : Z) : Date := (t + n * 86400000)%Z.

(** [query.startTime = { $gte: startDate, $lt: endDate }], when a date
    is given. *)
Definition inDay (date : DateParam) (s : Showtime.t) : bool :=
  match date with
  | Day startDate =>
    (startDate <=? Showtime.startTime s)%Z
    && (Showtime.startTime s <? addDays startDate 1)%Z
  | _ => true
  end.

(** [.sort({ startTime: 1 })], as a merge sort. *)
Definition byStart (a b : ObjectId * Showtime.t) : Prop :=
  (Showtime.startTime (snd a) <= Showtime.startTime (snd b))%Z.

#[global] Instance byStart_dec : RelDecision byStart.
Proof. intros a b. unfold byStart. apply _. Defined.

#[global] Instance byStart_total : Total byStart.
Proof. intros a b. unfold byStart. lia. Qed.

#[global] Instance byStart_trans : Transitive byStart.
Proof. intros a b c. unfold byStart. lia. Qed.

(** [Array.prototype.filter] with a callback that can throw. *)
Fixpoint filterThrowing {A : Type} (f : A -> option bool) (l : list A)
    : option (list A) :=
  match l with
  | [] => Some []
  | x :: l =>
    match f x with
    | None => None
    | Some keep =>
      match filterThrowing f l with
      | None => None
      | Some l' => Some (if keep then x :: l' else l')
      end
    end
  end.

Section Strings.

Variable toLowerCase : string -> string.

(** [st.theater.city.toLowerCase() === city.toLowerCase()];
    [st.theater] is the populated theater, [null] when it is not
    stored. Reading [city] of [null] and calling [toLowerCase] on
    [undefined] both throw a [TypeError]. *)
Definition cityMatches (theaters : gmap ObjectId Cinema.t)
    (city : string) (st : Showtime.t) : option bool :=
  match theaters !! Showtime.theater st with
  | None => None
  | Some theater =>
    match Cinema.city theater with
    | None => None
    | Some c => Some (String.eqb (toLowerCase c) (toLowerCase city))
    end
  end.

(** [exports.getMovieShowtimes], showtimeController.js 10-66. [city]
    is [None] when the query has no city or an empty one. *)
Definition getMovieShowtimes (db : Collections) (id : ObjectId)
    (date : DateParam) (city : option string)
    : Response (ObjectId * Showtime.t) :=
  match date with
  | Malformed => BadRequest "Invalid date format. Use YYYY-MM-DD"
  | _ =>
    let found :=
      merge_sort byStart
        (find_docs (fun _ s => N.eqb (Showtime.movie s) id && inDay date s)
                   (showtimes db)) in
    match city with
    | None => Ok (length found) found
    | Some city =>
      match filterThrowing
              (fun st => cityMatches (theaters db) city (snd st))
              found with
      | Some filteredShowtimes =>
        Ok (length filteredShowtimes) filteredShowtimes
      | None => NextError
      end
    end
  end.

End Strings.

(** An element of the [data] of [getMovieAvailability]; [bookingUrl],
    a text made of the [_id], is left out. *)
Record Availability : Type := mkAvailability {
  showtimeId : ObjectId;
  showtime : Showtime.t;
  availableSeats : Q;
  isAvailable : bool
}.

(** [bookedSeatsMap] after the [forEach] over the bookings. *)
Definition countBooked (found : list (ObjectId * Reservation.t))
    : gmap ObjectId nat :=
  fold_left
    (fun bookedSeatsMap booking =>
       let count :=
         default 0%nat
           (bookedSeatsMap !! Reservation.showtime (snd booking)) in
       <[ Reservation.showtime (snd booking)
          := (count + length (Reservation.seats (snd booking)))%nat ]>
         bookedSeatsMap)
    found ∅.

Section Availability.

(** The order [.sort({ 'theater.name': 1, startTime: 1 })] gives to
    the showtimes found. *)
Variable sort : list (ObjectId * Showtime.t)
                -> list (ObjectId * Showtime.t).

(** The query of [getMovieAvailability]. *)
Definition availabilityQuery (id : ObjectId) (date : DateParam)
    (theaterId : option ObjectId) (s : Showtime.t) : bool :=
  N.eqb (Showtime.movie s) id
  && inDay date s
  && match theaterId with
     | Some theater => N.eqb (Showtime.theater s) theater
     | None => true
     end.

(** [exports.getMovieAvailability], showtimeController.js 198-278. A
    showtime whose room is not stored is populated with [null], and
    reading its [capacity] throws. *)
Definition getMovieAvailability (db : Collections) (id : ObjectId)
    (date : DateParam) (theaterId : option ObjectId)
    : Response Availability :=
  match date with
  | Malformed => BadRequest "Invalid date format. Use YYYY-MM-DD"
  | _ =>
    let found :=
      sort (find_docs (fun _ s => availabilityQuery id date theaterId s)
                      (showtimes db)) in
    let showtimeIds := map fst found in
    let booked :=
      find_docs
        (fun _ b =>
           bool_decide (Reservation.showtime b ∈ showtimeIds)
           && name_in (status_name (Reservation.status b))
                      ["confirmed"; "pending"])
        (bookings db) in
    let bookedSeatsMap := countBooked booked in
    match mapM (fun st =>
                  match rooms db !! Showtime.room (snd st) with
                  | None => None
                  | Some room =>
                    let bookedSeats :=
                      default 0%nat (bookedSeatsMap !! fst st) in
                    let availableSeats :=
                      (Room.capacity room
                       - inject_Z (Z.of_nat bookedSeats))%Q in
                    Some (mkAvailability (fst st) (snd st) availableSeats
                            (if Qlt_le_dec 0 availableSeats
                             then true else false))
                  end)
               found with
    | Some showtimesWithAvailability =>
      Ok (length showtimesWithAvailability) showtimesWithAvailability
    | None => NextError
    end
  end.

End Availability.

(** The seats the pending and confirmed bookings of a showtime hold,
    counted one per seat line. *)
Definition bookedSeatLines (bookings : gmap ObjectId Reservation.t)
    (showtimeId : ObjectId) : nat :=
  sum_list_with
    (fun b => length (Reservation.seats (snd b)))
    (find_docs
       (fun _ b =>
          N.eqb (Reservation.showtime b) showtimeId
          && name_in (status_name (Reservation.status b))
                     ["confirmed"; "pending"])
       bookings).

(** *** Movies with their showtimes *)

(** A value of [moviesMap]: the fields of the movie and its
    [showtimes]. The map itself is kept as the list of its values in
    insertion order, which is the order of [moviesMap.values()]. *)
Record MovieGroup (R : Type) : Type := mkMovieGroup {
  movieId : ObjectId;
  movie : Movie.t;
  movieShowtimes : list R
}.

Arguments mkMovieGroup {R} movieId movie movieShowtimes.
Arguments movieId {R} m.
Arguments movie {R} m.
Arguments movieShowtimes {R} m.

(** One round of the [forEach]: [moviesMap.has], [moviesMap.set] with an
    empty list when the movie is new, then [moviesMap.get] and
    [showtimes.push]. *)
Definition pushShowtime {R : Type} (moviesMap : list (MovieGroup R))
    (key : ObjectId) (doc : Movie.t) (entry : R) : list (MovieGroup R) :=
  let moviesMap1 :=
    if existsb (fun g => N.eqb (movieId g) key) moviesMap
    then moviesMap
    else moviesMap ++ [mkMovieGroup key doc []] in
  map (fun g =>
         if N.eqb (movieId g) key
         then mkMovieGroup (movieId g) (movie g) (movieShowtimes g ++ [entry])
         else g)
      moviesMap1.

(** An element of [showtimes] in the answer of [getTheaterMovies]. *)
Record TheaterShowtime : Type := mkTheaterShowtime {
  ts_id : ObjectId;
  ts_startTime : Date;
  ts_endTime : Date;
  ts_room : ObjectId
}.

Definition theaterShowtime (st : ObjectId * Showtime.t) : TheaterShowtime :=
  mkTheaterShowtime (fst st) (Showtime.startTime (snd st))
                    (Showtime.endTime (snd st)) (Showtime.room (snd st)).

(** [exports.getTheaterMovies], showtimeController.js 71-114; [date] is
    [new Date(date)], the current time when the query has none. A
    showtime whose movie is not stored is populated with [null], and
    reading its [_id] throws. *)
Definition getTheaterMovies (db : Collections) (theaterId : ObjectId)
    (date : Date) : Response (MovieGroup TheaterShowtime) :=
  let found :=
    merge_sort byStart
      (find_docs (fun _ s => N.eqb (Showtime.theater s) theaterId
                             && (date <=? Showtime.startTime s)%Z)
                 (showtimes db)) in
  let moviesMap :=
    fold_left
      (fun acc st =>
         match acc with
         | None => None
         | Some moviesMap =>
           match movies db !! Showtime.movie (snd st) with
           | None => None
           | Some doc =>
             Some (pushShowtime moviesMap (Showtime.movie (snd st)) doc
                                (theaterShowtime st))
           end
         end)
      found (Some []) in
  match moviesMap with
  | Some result => Ok (length result) result
  | None => NextError
  end.

(** An element of [showtimes] in the answer of [getNowShowingMovies];
    [theater] is what [populate] gives under the [match] on the
    city. *)
Record NowShowtime : Type := mkNowShowtime {
  ns_id : ObjectId;
  ns_startTime : Date;
  ns_endTime : Date;
  ns_theater : option Cinema.t;
  ns_room : ObjectId
}.

Section NowShowing.

(** The order [.sort({ 'movie.title': 1, startTime: 1 })] gives to the
    showtimes found; whether [new RegExp(city, 'i')] accepts the text
    as a pattern (it throws a [SyntaxError] otherwise); and the theater
    [populate] attaches to a showtime for a given [city]. *)
Variable sort : list (ObjectId * Showtime.t)
                -> list (ObjectId * Showtime.t).
Variable isPattern : string -> bool.
Variable populateTheater : option string -> ObjectId -> option Cinema.t.

(** [populate({ path: 'movie', match: { status: 'showing' } })] *)
Definition populateShowing (movies : gmap ObjectId Movie.t)
    (id : ObjectId) : option Movie.t :=
  match movies !! id with
  | Some doc =>
    match Movie.status doc with
    | mv_showing => Some doc
    | _ => None
    end
  | None => None
  end.

(** [validShowtimes]: the showtimes of the seven days from
    [queryDate] on whose populated movie is not [null], each with that
    movie. *)
Definition validShowtimes (db : Collections) (queryDate : Date)
    : list (ObjectId * Showtime.t * Movie.t) :=
  let endDate := addDays queryDate 7 in
  let found :=
    sort (find_docs
            (fun _ s => (queryDate <=? Showtime.startTime s)%Z
                        && (Showtime.startTime s <? endDate)%Z
                        && Showtime.isActive s)
            (showtimes db)) in
  omap (fun st =>
          match populateShowing (movies db)
                  (Showtime.movie (snd st)) with
          | Some doc => Some (st, doc)
          | None => None
          end)
       found.

(** The entry [getNowShowingMovies] pushes for a showtime. *)
Definition nowShowtime (city : option string)
    (valid : ObjectId * Showtime.t * Movie.t) : NowShowtime :=
  let st := fst valid in
  mkNowShowtime (fst st) (Showtime.startTime (snd st))
    (Showtime.endTime (snd st))
    (populateTheater city (Showtime.theater (snd st)))
    (Showtime.room (snd st)).

(** [exports.getNowShowingMovies], showtimeController.js 119-193.
    [date] is the date of the query, the current time when the query
    has none, and [None] when it is an Invalid Date; [city] is [None]
    when the query has no city or an empty one. The pattern of the
    city is built after the date is checked, inside the [try]. *)
Definition getNowShowingMovies (db : Collections) (city : option string)
    (date : option Date) : Response (MovieGroup NowShowtime) :=
  match date with
  | None =>
    BadRequest
      "Invalid date format. Please use ISO 8601 format (e.g., 2025-11-12T00:00:00.000Z)"
  | Some queryDate =>
    if match city with
       | Some pattern => isPattern pattern
       | None => true
       end
    then
      let moviesMap :=
        fold_left
          (fun moviesMap valid =>
             pushShowtime moviesMap (Showtime.movie (snd (fst valid)))
                          (snd valid) (nowShowtime city valid))
          (validShowtimes db queryDate) [] in
      Ok (length moviesMap) moviesMap
    else NextError
  end.

End NowShowing.

(** What the [forEach] of both handlers has built after the rounds
    [seen], each a movie [_id], its document and the entry pushed: the
    movies are distinct, and the showtimes of a movie are the entries
    pushed for it, in the order of the rounds. *)
Definition groupedByMovie {R : Type} (seen : list (ObjectId * Movie.t * R))
    (moviesMap : list (MovieGroup R)) : Prop :=
  NoDup (movieId <$> moviesMap)
  /\ (forall g, g ∈ moviesMap ->
        movieShowtimes g
        = snd <$> filter (fun it => fst (fst it) = movieId g) seen
        /\ exists entry, (movieId g, movie g, entry) ∈ seen)
  /\ (forall it, it ∈ seen ->
        exists g, g ∈ moviesMap /\ movieId g = fst (fst it)).

End showtimeController.

(** Movie 1 plays in room 5 of theater 2 (showtime 1); booking 1 holds one
    seat of it. *)
Definition movie_pages : showtimeController.Collections :=
  showtimeController.mkCollections
    {[ 1%N := Movie.mk "Movie 1" 120 mv_showing ]}
    {[ 2%N := Cinema.mk (Some "Hue") ]}
    sample_rooms
    sample_showtimes
    {[ 1%N := stale_pending_ticket ]}.

(** A database that returns the showtimes in the order it stores them. *)
Definition stored_showtimes (l : list (ObjectId * Showtime.t))
    : list (ObjectId * Showtime.t) := l.

(** ** The schedules of a theater, scheduleController.js 426-473 *)

Module theaterSchedules.

(** [req.query] of [GET /api/schedules/theater/:theaterId]; [date] is
    the local midnight of the requested day, a day of 24 hours. *)
Record Query : Type := mkQuery {
  date : option Date;
  movieId : option ObjectId
}.

(** The [query] object: [startTime: { $gte: now }], whose [$gte] the
    spread [{ ...query.startTime, $gte: startOfDay, $lte: endOfDay }]
    overwrites when a date is given. *)
Definition query (now : Date) (theaterId : ObjectId) (q : Query)
    (s : Schedule.t) : bool :=
  N.eqb (Schedule.theater s) theaterId
  && match date q with
     | Some startOfDay =>
       (Schedule.startTime s >=? startOfDay)%Z
       && (Schedule.startTime s <=? startOfDay + 86399999)%Z
     | None => (Schedule.startTime s >=? now)%Z
     end
  && match movieId q with
     | Some movie => N.eqb (Schedule.movie s) movie
     | None => true
     end.

(** The body of the 200 answer. *)
Record Listing : Type := mkListing {
  count : nat;
  data : list (ObjectId * Schedule.t)
}.

(** [exports.getSchedulesByTheater]; [now] is [new Date()]. *)
Definition getSchedulesByTheater (db : Db.t) (now : Date)
    (theaterId : ObjectId) (q : Query) : Listing :=
  let schedules :=
    merge_sort scheduleQueries.byStartTime
      (find_docs (fun _ s => query now theaterId q s) (Db.schedules db)) in
  mkListing (length schedules) schedules.

End theaterSchedules.

(** * Properties *)

(** ** Lists and collections *)

Section Collections.

Lemma flat_map_bind {A B : Type} (f : A -> list B) (l : list A) :
  flat_map f l = l ≫= f.
Proof. induction l as [|x l IH]; [done|]. simpl. by rewrite IH. Qed.

Lemma map_fmap {A B : Type} (f : A -> B) (l : list A) : map f l = f <$> l.
Proof. induction l as [|x l IH]; [done|]. simpl. by rewrite IH. Qed.

Context {A : Type}.

Lemma find_docs_elem (query : ObjectId -> A -> bool) (c : gmap ObjectId A)
    (id : ObjectId) (a : A) :
  (id, a) ∈ find_docs query c <-> c !! id = Some a /\ query id a = true.
Proof.
  unfold find_docs.
  rewrite list_elem_of_In, filter_In, <- list_elem_of_In,
    elem_of_map_to_list.
  done.
Qed.

Lemma findOne_None (query : ObjectId -> A -> bool) (c : gmap ObjectId A) :
  findOne query c = None
  <-> forall id a, c !! id = Some a -> query id a = false.
Proof.
  unfold findOne. rewrite head_None. split.
  - intros Hnil id a Hlookup.
    destruct (query id a) eqn:Hq; [|done].
    assert ((id, a) ∈ find_docs query c) as Hin
      by by apply find_docs_elem.
    rewrite Hnil in Hin. by apply elem_of_nil in Hin.
  - intros Hall.
    destruct (find_docs query c) as [|[id a] l] eqn:Hfind; [done|].
    assert ((id, a) ∈ find_docs query c) as Hin
      by (rewrite Hfind; apply list_elem_of_here).
    apply find_docs_elem in Hin as [Hlookup Hq].
    by rewrite (Hall id a Hlookup) in Hq.
Qed.

Lemma findOne_Some (query : ObjectId -> A -> bool) (c : gmap ObjectId A)
    (id : ObjectId) (a : A) :
  findOne query c = Some (id, a) ->
  c !! id = Some a /\ query id a = true.
Proof.
  unfold findOne. intros Hhead. apply find_docs_elem.
  destruct (find_docs query c) as [|d l]; [done|].
  injection Hhead as ->. apply list_elem_of_here.
Qed.

Lemma findOne_is_Some (query : ObjectId -> A -> bool)
    (c : gmap ObjectId A) :
  is_Some (findOne query c)
  <-> exists id a, c !! id = Some a /\ query id a = true.
Proof.
  split.
  - intros [[id a] H]. exists id, a. by apply findOne_Some in H.
  - intros (id & a & Hlookup & Hq).
    destruct (findOne query c) as [d|] eqn:Hfind; [by eexists|].
    rewrite findOne_None in Hfind.
    by rewrite (Hfind id a Hlookup) in Hq.
Qed.

End Collections.

Section SeatCodes.

Lemma add_seat_codes_elem (codes : gset string) (seats : list SeatLine.t)
    (keep : SeatLine.t -> bool) (code : string) :
  code ∈ add_seat_codes codes seats keep
  <-> code ∈ codes
      \/ exists seat, seat ∈ seats /\ keep seat = true
                      /\ SeatLine.code seat = code.
Proof.
  unfold add_seat_codes. revert codes.
  induction seats as [|seat seats IH]; intros codes; simpl.
  - split; [by left|]. intros [?|(seat & Hin & _)]; [done|].
    by apply elem_of_nil in Hin.
  - rewrite IH. split.
    + intros [Hin|(seat' & Hin & Hkeep & Hcode)].
      * destruct (keep seat) eqn:Hkeep; [|by left].
        apply elem_of_union in Hin as [Hin|Hin]; [|by left].
        apply elem_of_singleton in Hin. right. exists seat.
        split_and!; [apply list_elem_of_here|done|done].
      * right. exists seat'.
        split_and!; [by apply list_elem_of_further|done|done].
    + intros [Hin|(seat' & Hin & Hkeep & Hcode)].
      * left. destruct (keep seat); [|done]. apply elem_of_union. by right.
      * apply elem_of_cons in Hin as [->|Hin].
        -- left. rewrite Hkeep. apply elem_of_union. left.
           by apply elem_of_singleton.
        -- right. by exists seat'.
Qed.

Lemma collect_seat_codes_from (docs : list (ObjectId * Reservation.t))
    (keep : SeatLine.t -> bool) (codes : gset string) (code : string) :
  code ∈ fold_left (fun set doc =>
                      add_seat_codes set (Reservation.seats (snd doc)) keep)
                   docs codes
  <-> code ∈ codes
      \/ exists doc seat,
           doc ∈ docs /\ seat ∈ Reservation.seats (snd doc)
           /\ keep seat = true /\ SeatLine.code seat = code.
Proof.
  revert codes. induction docs as [|doc docs IH]; intros codes; simpl.
  - split; [by left|]. intros [?|(doc & seat & Hin & _)]; [done|].
    by apply elem_of_nil in Hin.
  - rewrite IH, add_seat_codes_elem. split.
    + intros [[Hin|(seat & Hin & Hkeep & Hcode)]
             |(doc' & seat & Hdoc & Hin & Hkeep & Hcode)].
      * by left.
      * right. exists doc, seat.
        split_and!; [apply list_elem_of_here|done..].
      * right. exists doc', seat.
        split_and!; [by apply list_elem_of_further|done..].
    + intros [Hin|(doc' & seat & Hdoc & Hin & Hkeep & Hcode)].
      * by left; left.
      * apply elem_of_cons in Hdoc as [->|Hdoc].
        -- left; right. by exists seat.
        -- right. by exists doc', seat.
Qed.

Lemma collect_seat_codes_elem (docs : list (ObjectId * Reservation.t))
    (keep : SeatLine.t -> bool) (code : string) :
  code ∈ collect_seat_codes docs keep
  <-> exists doc seat,
        doc ∈ docs /\ seat ∈ Reservation.seats (snd doc)
        /\ keep seat = true /\ SeatLine.code seat = code.
Proof.
  unfold collect_seat_codes. rewrite collect_seat_codes_from.
  split; [|by right]. by intros [Hin|H]; [apply not_elem_of_empty in Hin|].
Qed.

Lemma seatCodes_elem (t : Reservation.t) (code : string) :
  code ∈ Ticket.seatCodes t
  <-> exists seat, seat ∈ Reservation.seats t
                   /\ SeatLine.code seat = code.
Proof.
  unfold Ticket.seatCodes. rewrite map_fmap, list_elem_of_fmap.
  split; intros (seat & H1 & H2); exists seat; by split.
Qed.

End SeatCodes.

(** ** The unique indexes of the tickets *)

Section TicketIndex.

(** The server does not build the index declared against double
    booking: its partial filter uses [$ne] and its options carry a
    [message]. *)
Lemma seatIndex_not_built : Index.built Ticket.seatIndex = false.
Proof. reflexivity. Qed.

(** So that index refuses no write. *)
Lemma seatIndex_refuses_nothing (c : gmap ObjectId Reservation.t)
    (id : ObjectId) (t : Reservation.t) :
  Ticket.duplicateKey Ticket.seatIndex c id t = false.
Proof. reflexivity. Qed.

(** Were it built, its keys would not tell the showtimes apart: the
    first component of every key is the missing [scheduleId]. *)
Lemma seatIndex_entries (id : ObjectId) (t : Reservation.t) :
  Ticket.entries Ticket.seatIndex id t
  = match Reservation.seats t with
    | [] => [[None; None]]
    | seats => map (fun seat => [None; Some (SeatLine.code seat)]) seats
    end.
Proof.
  unfold Ticket.entries, Ticket.pathValues. simpl. rewrite app_nil_r.
  destruct (Reservation.seats t) as [|seat seats]; [done|].
  simpl. f_equal.
  induction seats as [|x l IH]; [done|]. simpl. by rewrite IH.
Qed.

End TicketIndex.

(** C1 at its failing input. Seat A1 of showtime 1 is held by a pending
    ticket, stored under [_id] 1. A second new ticket of showtime 1 for the
    seats A1 and A2 is saved under [_id] 2: no index refuses it, and the
    collection then holds two reservations of the same showtime, neither
    cancelled nor expired, that both contain A1. The index declared
    against this is not built, and its key has no showtime in it. *)
Theorem double_booking_is_stored :
  let first := pending_ticket 1%N ["A1"] in
  let second := pending_ticket 1%N ["A1"; "A2"] in
  Index.built Ticket.seatIndex = false
  /\ Ticket.entries Ticket.seatIndex 1%N first = [[None; Some "A1"]]
  /\ exists c1 c2 t1 t2,
       Ticket.save ∅ 1%N first = Ticket.Written c1
       /\ Ticket.save c1 2%N second = Ticket.Written c2
       /\ c2 !! 1%N = Some t1 /\ c2 !! 2%N = Some t2
       /\ Reservation.showtime t1 = 1%N /\ Reservation.showtime t2 = 1%N
       /\ Ticket.active t1 /\ Ticket.active t2
       /\ "A1" ∈ Ticket.seatCodes t1 /\ "A1" ∈ Ticket.seatCodes t2.
Proof.
  intros first second. split; [reflexivity|]. split; [reflexivity|].
  exists (<[1%N := calculateTotals first]> ∅),
         (<[2%N := calculateTotals second]>
            (<[1%N := calculateTotals first]> ∅)),
         (calculateTotals first), (calculateTotals second).
  split_and!.
  - vm_compute. reflexivity.
  - vm_compute. reflexivity.
  - reflexivity.
  - reflexivity.
  - reflexivity.
  - reflexivity.
  - split; discriminate.
  - split; discriminate.
  - constructor.
  - constructor.
Qed.

(** ** Pricing *)

Section Pricing.

Lemma eqv_refl (a : Js.num) : Js.eqv a a.
Proof. destruct a; simpl; [reflexivity|exact I]. Qed.

Lemma eqv_trans (a b c : Js.num) : Js.eqv a b -> Js.eqv b c -> Js.eqv a c.
Proof.
  destruct a, b, c; simpl; try tauto.
  intros H1 H2. by rewrite H1.
Qed.

Lemma or0_field (o : option Q) :
  Js.eqv (Js.or0 (Js.ofField o)) (Js.Fin (default 0 o)).
Proof.
  destruct o as [q|]; simpl; [|reflexivity].
  unfold Js.or0. simpl.
  destruct (Qeq_bool q 0) eqn:Hq; simpl; [|reflexivity].
  apply Qeq_bool_iff in Hq. by rewrite Hq.
Qed.

(** The discount of a finite subtotal is finite. *)
Lemma voucher_discount_finite (subtotal : Q) (voucher : option Voucher.t) :
  exists d, voucher_discount (Js.Fin subtotal) voucher = Js.Fin d.
Proof.
  unfold voucher_discount.
  destruct voucher as [v|]; [|by eexists].
  destruct (Voucher.discountValue v) as [value|]; simpl; [|by eexists].
  destruct (negb (Qeq_bool value 0)); [|by eexists].
  destruct (Voucher.discountType v); simpl; [|by eexists].
  destruct (Voucher.maxDiscount v) as [cap|]; simpl; [|by eexists].
  destruct (negb (Qeq_bool cap 0)); simpl; [|by eexists].
  destruct (Qlt_le_dec cap (subtotal * value / 100)); by eexists.
Qed.

Lemma or0_finite (a : Js.num) :
  exists x, Js.or0 a = Js.Fin x
            /\ x == match a with Js.Fin q => q | Js.NaN => 0 end.
Proof.
  destruct a as [q|]; unfold Js.or0; simpl; [|by exists 0].
  destruct (Qeq_bool q 0) eqn:Hq; simpl.
  - exists 0. split; [done|]. apply Qeq_bool_iff in Hq. by rewrite Hq.
  - by exists q.
Qed.

Lemma seatsSubtotal_from (seats : list SeatLine.t) (acc : Q) :
  exists s,
    fold_left (fun sum seat =>
                 Js.add sum (Js.or0 (Js.ofField (SeatLine.price seat))))
              seats (Js.Fin acc) = Js.Fin s
    /\ s == acc + foldr (fun seat sum =>
                           default 0 (SeatLine.price seat) + sum) 0 seats.
Proof.
  revert acc. induction seats as [|seat seats IH]; intros acc; simpl.
  - exists acc. split; [done|]. lra.
  - destruct (or0_finite (Js.ofField (SeatLine.price seat)))
      as (x & -> & Hx).
    simpl. destruct (IH (acc + x)) as (s & -> & Hs).
    exists s. split; [done|].
    rewrite Hs, Hx. destruct (SeatLine.price seat); simpl; lra.
Qed.

Lemma combosSubtotal_from (combos : list ComboLine.t) (acc : Q) :
  exists s,
    fold_left (fun sum combo =>
                 Js.add sum
                   (Js.or0 (Js.mul (Js.ofField (ComboLine.price combo))
                                   (Js.ofField (ComboLine.quantity combo)))))
              combos (Js.Fin acc) = Js.Fin s
    /\ s == acc + foldr (fun combo sum =>
                           default 0 (ComboLine.price combo)
                           * default 0 (ComboLine.quantity combo) + sum)
                        0 combos.
Proof.
  revert acc. induction combos as [|combo combos IH]; intros acc; simpl.
  - exists acc. split; [done|]. lra.
  - destruct (or0_finite
                (Js.mul (Js.ofField (ComboLine.price combo))
                        (Js.ofField (ComboLine.quantity combo))))
      as (x & -> & Hx).
    simpl. destruct (IH (acc + x)) as (s & -> & Hs).
    exists s. split; [done|].
    rewrite Hs, Hx.
    destruct (ComboLine.price combo), (ComboLine.quantity combo);
      simpl; lra.
Qed.

(** Each path stores the discount of the voucher at the subtotal it
    stores. *)
Lemma calculateTotals_discount (this : Reservation.t) :
  Reservation.discount (calculateTotals this)
  = voucher_discount (Reservation.subtotal (calculateTotals this))
                     (Reservation.voucher this).
Proof. reflexivity. Qed.

Lemma assignNumber_finite (stored : Q) (value : Js.num) :
  exists q, assignNumber (Js.Fin stored) value = Js.Fin q.
Proof. destruct value; by eexists. Qed.

Lemma pre_save_totals_discount (ctx : SaveCtx) (this : Reservation.t)
    (stored : Q) :
  isNew ctx || isModified ctx "seats" || isModified ctx "combos"
  || isModified ctx "voucher" = true ->
  Reservation.subtotal this = Js.Fin stored ->
  Reservation.discount (Ticket.pre_save_totals ctx this)
  = voucher_discount
      (Reservation.subtotal (Ticket.pre_save_totals ctx this))
      (Reservation.voucher this).
Proof.
  intros H Hstored. unfold Ticket.pre_save_totals. rewrite H, Hstored.
  simpl.
  match goal with
  | |- context [assignNumber (Js.Fin stored) ?v] =>
    destruct (assignNumber_finite stored v) as (q & ->)
  end.
  by destruct (voucher_discount_finite q (Reservation.voucher this))
    as (d & ->).
Qed.

(** [calculateTotals] establishes the two invariants of the data model. *)
Lemma calculateTotals_invariants (this : Reservation.t) :
  let saved := calculateTotals this in
  exists subtotal discount,
    Reservation.subtotal saved = Js.Fin subtotal
    /\ Reservation.discount saved = Js.Fin discount
    /\ subtotal == spec_subtotal (Reservation.seats this)
                                 (Reservation.combos this)
    /\ Js.eqv (Reservation.totalAmount saved)
              (Js.Fin (spec_total subtotal discount
                         (default 0 (Reservation.tax this))
                         (default 0 (Reservation.serviceFee this)))).
Proof.
  unfold calculateTotals, seatsSubtotal, combosSubtotal. simpl.
  destruct (seatsSubtotal_from (Reservation.seats this) 0)
    as (s1 & -> & Hs1).
  destruct (combosSubtotal_from (Reservation.combos this) 0)
    as (s2 & -> & Hs2).
  simpl.
  destruct (voucher_discount_finite (s1 + s2) (Reservation.voucher this))
    as (d & ->).
  destruct (or0_finite (Js.ofField (Reservation.tax this)))
    as (tax & -> & Htax).
  destruct (or0_finite (Js.ofField (Reservation.serviceFee this)))
    as (fee & -> & Hfee).
  exists (s1 + s2), d. split_and!; [done|done| |].
  - unfold spec_subtotal. rewrite Hs1, Hs2. lra.
  - simpl. unfold spec_total.
    assert (tax == default 0 (Reservation.tax this)) as ->.
    { rewrite Htax. by destruct (Reservation.tax this). }
    assert (fee == default 0 (Reservation.serviceFee this)) as ->.
    { rewrite Hfee. by destruct (Reservation.serviceFee this). }
    reflexivity.
Qed.

End Pricing.

(** C3, amended. For a voucher with a [discountValue], a non-negative
    subtotal and a non-negative [maxDiscount] (the schema's [min: 0]): a
    [percent] voucher gives [min(subtotal × discountValue / 100,
    maxDiscount)] when [maxDiscount] is given and is not zero, and
    [subtotal × discountValue / 100] when it is absent or zero; a [fixed]
    voucher gives [min(discountValue, subtotal)]. *)
Theorem voucher_discount_formula (subtotal value : Q) (v : Voucher.t) :
  Voucher.discountValue v = Some value ->
  0 <= subtotal ->
  (forall cap, Voucher.maxDiscount v = Some cap -> 0 <= cap) ->
  Js.eqv (voucher_discount (Js.Fin subtotal) (Some v))
         (Js.Fin
            match Voucher.discountType v with
            | percent =>
              match Voucher.maxDiscount v with
              | Some cap =>
                if Qeq_bool cap 0 then subtotal * value / 100
                else Qmin (subtotal * value / 100) cap
              | None => subtotal * value / 100
              end
            | fixed => Qmin value subtotal
            end).
Proof.
  intros Hvalue Hsub Hcap. unfold voucher_discount. rewrite Hvalue. simpl.
  destruct (Qeq_bool value 0) eqn:Hzero; simpl.
  - (* a zero discountValue is falsy: no discount *)
    apply Qeq_bool_iff in Hzero.
    assert (subtotal * value / 100 == 0) as Hpct.
    { rewrite Hzero. unfold Qdiv. by rewrite Qmult_0_r, Qmult_0_l. }
    destruct (Voucher.discountType v).
    + destruct (Voucher.maxDiscount v) as [cap|]; [|by rewrite Hpct].
      destruct (Qeq_bool cap 0); [by rewrite Hpct|].
      rewrite Hpct. symmetry. apply Q.min_l. by apply Hcap.
    + rewrite Hzero. symmetry. by apply Q.min_l.
  - destruct (Voucher.discountType v); simpl; [|reflexivity].
    destruct (Voucher.maxDiscount v) as [cap|]; simpl; [|reflexivity].
    destruct (Qeq_bool cap 0); simpl; [reflexivity|].
    destruct (Qlt_le_dec cap (subtotal * value / 100)) as [Hlt|Hle]; simpl.
    + symmetry. apply Q.min_r. by apply Qlt_le_weak.
    + symmetry. by apply Q.min_l.
Qed.

(** The scenario of the specification: [SAVE10], 10 percent capped at
    50000, on a subtotal of 1,000,000. *)
Lemma voucher_discount_formula_witness :
  let save10 := Voucher.mk (Some "SAVE10") (Some 10) percent (Some 50000) None in
  Js.eqv (voucher_discount (Js.Fin 1000000) (Some save10))
         (Js.Fin (Qmin (1000000 * 10 / 100) 50000))
  /\ Qmin (1000000 * 10 / 100) 50000 == 50000.
Proof.
  split.
  - apply (voucher_discount_formula 1000000 10
             (Voucher.mk (Some "SAVE10") (Some 10) percent (Some 50000) None)).
    + reflexivity.
    + discriminate.
    + simpl. intros cap [= <-]. discriminate.
  - reflexivity.
Defined.

(** C3 as stated fails when [maxDiscount] is given as [0]: the code leaves
    the discount uncapped, the wording caps it at [0]. *)
Lemma voucher_discount_zero_cap :
  let v := Voucher.mk (Some "TEN") (Some 10) percent (Some 0) None in
  Js.eqv (voucher_discount (Js.Fin 1000) (Some v)) (Js.Fin 100)
  /\ spec_discount 1000 10 v == 0
  /\ ~ Js.eqv (voucher_discount (Js.Fin 1000) (Some v))
              (Js.Fin (spec_discount 1000 10 v)).
Proof.
  split; [reflexivity|]. split; [reflexivity|].
  vm_compute. discriminate.
Qed.

(** C2 at its failing input. Saving [ticket_with_tax] after a change of the
    voucher alone runs the first pre-save hook of [Ticket] and not
    [calculateTotals]: the stored total is [subtotal - discount = 80000],
    without tax and service fee, where [calculateTotals] on the same
    document and the invariant of the data model give 95000. *)
Theorem ticket_pre_save_voucher_only_total :
  let ctx := {| isNew := false; modifiedPaths := ["voucher"] |} in
  exists saved,
    Ticket.pre_save ctx ticket_with_tax = Next saved
    /\ Js.eqv (Reservation.subtotal saved) (Js.Fin 100000)
    /\ Js.eqv (Reservation.discount saved) (Js.Fin 20000)
    /\ Js.eqv (Reservation.totalAmount saved) (Js.Fin 80000)
    /\ Js.eqv (Reservation.totalAmount
                 (Booking.calculateTotals ticket_with_tax))
              (Js.Fin 95000)
    /\ spec_total 100000 20000 10000 5000 == 95000
    /\ ~ Js.eqv (Reservation.totalAmount saved)
                (Js.Fin (spec_total 100000 20000 10000 5000)).
Proof.
  eexists. split; [reflexivity|].
  split_and!; try reflexivity.
  vm_compute. discriminate.
Qed.

(** The first hook on a ticket with a combo line: it multiplies by
    [combo.qty], which the schema does not have, so its sum is [NaN], the
    assignment to [subtotal] is refused and the stored subtotal stays. *)
Lemma ticket_pre_save_combo_total (ctx : SaveCtx) (this : Reservation.t) :
  isNew ctx || isModified ctx "seats" || isModified ctx "combos"
  || isModified ctx "voucher" = true ->
  Reservation.combos this <> [] ->
  Reservation.subtotal (Ticket.pre_save_totals ctx this)
  = Reservation.subtotal this.
Proof.
  intros H Hcombos. unfold Ticket.pre_save_totals. rewrite H. simpl.
  assert (forall combos,
             fold_left (fun sum combo =>
                          Js.add sum
                            (Js.mul (Js.ofField (ComboLine.price combo))
                                    (Js.ofField (ComboLine.qty combo))))
                       combos Js.NaN = Js.NaN) as Hnan.
  { induction combos as [|combo combos IH]; [done|]. simpl. apply IH. }
  destruct (Reservation.combos this) as [|combo combos]; [done|].
  simpl in *.
  assert (Js.mul (Js.ofField (ComboLine.price combo)) Js.NaN = Js.NaN) as ->.
  { by destruct (Js.ofField (ComboLine.price combo)). }
  rewrite Hnan.
  match goal with
  | |- assignNumber _ (Js.add ?a Js.NaN) = _ => by destruct a
  end.
Qed.

(** C4, amended. The totals never consult [minOrderValue] and the pre-save
    hooks never fail: whatever the [minOrderValue] of the voucher, the hooks
    of both models end in [next()] and store the same subtotal, discount
    and total as for the voucher with its own [minOrderValue]. *)
Theorem minOrderValue_not_consulted (ctx : SaveCtx) (r : Reservation.t)
    (v : Voucher.t) (m : option Q) :
  let r1 := Reservation.set_voucher r (Some v) in
  let r2 := Reservation.set_voucher r
              (Some (Voucher.set_minOrderValue v m)) in
  (forall subtotal,
      voucher_discount subtotal (Some (Voucher.set_minOrderValue v m))
      = voucher_discount subtotal (Some v))
  /\ (exists d1 d2,
        Booking.pre_save ctx r1 = Next d1
        /\ Booking.pre_save ctx r2 = Next d2
        /\ Reservation.subtotal d2 = Reservation.subtotal d1
        /\ Reservation.discount d2 = Reservation.discount d1
        /\ Reservation.totalAmount d2 = Reservation.totalAmount d1)
  /\ (exists d1 d2,
        Ticket.pre_save ctx r1 = Next d1
        /\ Ticket.pre_save ctx r2 = Next d2
        /\ Reservation.subtotal d2 = Reservation.subtotal d1
        /\ Reservation.discount d2 = Reservation.discount d1
        /\ Reservation.totalAmount d2 = Reservation.totalAmount d1).
Proof.
  intros r1 r2. split_and!.
  - done.
  - eexists _, _. split; [reflexivity|]. split; [reflexivity|].
    destruct (isNew ctx || isModified ctx "seats" || isModified ctx "combos");
      done.
  - eexists _, _. split; [reflexivity|]. split; [reflexivity|].
    unfold Ticket.pre_save_defaults, Ticket.pre_save_totals.
    destruct (isNew ctx || isModified ctx "seats" || isModified ctx "combos");
      simpl; [done|].
    destruct (isModified ctx "voucher"); done.
Qed.

(** C4 as stated fails: a new booking of 100 with a fixed voucher of 50
    whose [minOrderValue] is 1000 is saved with the discount applied. *)
Lemma voucher_below_minimum_applied :
  let v := Voucher.mk (Some "BIG") (Some 50) fixed None (Some 1000) in
  let booking :=
    Reservation.mk 7%N 1%N
      [SeatLine.mk "A1" standard (Some 100) 2 0] [] (Some v)
      (Js.Fin 0) (Js.Fin 0) None None (Js.Fin 0)
      (Payment.mk "cash" None pay_pending None)
      st_pending 900000 None None None in
  exists saved,
    Booking.pre_save {| isNew := true; modifiedPaths := [] |} booking
    = Next saved
    /\ Js.eqv (Reservation.subtotal saved) (Js.Fin 100)
    /\ Voucher.minOrderValue v = Some 1000
    /\ 100 < 1000
    /\ Js.eqv (Reservation.discount saved) (Js.Fin 50)
    /\ Js.eqv (Reservation.totalAmount saved) (Js.Fin 50).
Proof.
  eexists. split; [reflexivity|]. split_and!; reflexivity.
Qed.

(** ** Schedules *)

Section Schedules.

Import scheduleController.

Lemma conflictQuery_true (room : ObjectId) (start end_ : Date)
    (s : Schedule.t) :
  conflictQuery room start end_ s = true
  <-> Schedule.room s = room
      /\ (Schedule.startTime s < end_)%Z
      /\ (Schedule.endTime s > start)%Z.
Proof.
  unfold conflictQuery.
  rewrite !andb_true_iff, N.eqb_eq, Z.ltb_lt, Z.gtb_gt. tauto.
Qed.

(** Intervals that only touch do not match the query. *)
Lemma conflictQuery_touching (room : ObjectId) (start end_ : Date)
    (s : Schedule.t) :
  Schedule.endTime s = start \/ Schedule.startTime s = end_ ->
  conflictQuery room start end_ s = false.
Proof.
  intros Htouch. apply not_true_iff_false.
  rewrite conflictQuery_true. lia.
Qed.

(** [deleteSchedule] as the controller has it never removes a
    schedule. *)
Lemma deleteSchedule_never_deletes (db : Db.t) (id : ObjectId) :
  snd (deleteSchedule db id) = db
  /\ (fst (deleteSchedule db id) = NotFound "Schedule not found"
      \/ fst (deleteSchedule db id) = ServerError).
Proof.
  unfold deleteSchedule, deleteSchedule_in, Booking.
  destruct (Db.schedules db !! id); simpl; auto.
Qed.

(** With [Booking] bound, the handler would decide on the count alone. *)
Lemma deleteSchedule_in_bound (count : ObjectId -> nat) (db : Db.t)
    (id : ObjectId) (schedule : Schedule.t) :
  Db.schedules db !! id = Some schedule ->
  deleteSchedule_in (Some count) db id
  = if (0 <? count id)%nat
    then (HasBookings, db)
    else (Deleted, Db.set_schedules db (delete id (Db.schedules db))).
Proof. intros H. unfold deleteSchedule_in. by rewrite H. Qed.

End Schedules.

(** C5, amended. With a valid request and the movie, the theater and the
    room of the theater found, [createSchedule] answers with the schedule
    conflict exactly when some schedule of the room, active or not,
    satisfies [existing.start < new.end] and [existing.end > new.start],
    and leaves the database unchanged; otherwise it stores the new
    schedule, active, under a fresh id. A schedule that ends where the new
    one starts, or starts where it ends, is not a conflict. *)
Theorem createSchedule_conflict (db : Db.t)
    (req : scheduleController.Request scheduleController.CreateBody.t) :
  let b := scheduleController.body req in
  let overlapping :=
    exists id s,
      Db.schedules db !! id = Some s
      /\ Schedule.room s = scheduleController.CreateBody.roomId b
      /\ (Schedule.startTime s < scheduleController.CreateBody.endTime b)%Z
      /\ (Schedule.endTime s > scheduleController.CreateBody.startTime b)%Z in
  scheduleController.validationErrors req = [] ->
  scheduleController.CreateBody.movieId b ∈ Db.movies db ->
  scheduleController.CreateBody.theaterId b ∈ Db.theaters db ->
  (exists room,
      Db.rooms db !! scheduleController.CreateBody.roomId b = Some room
      /\ Room.theater room = scheduleController.CreateBody.theaterId b) ->
  (overlapping ->
   scheduleController.createSchedule db req
   = (scheduleController.ScheduleConflict, db))
  /\ (~ overlapping ->
      exists id s,
        scheduleController.createSchedule db req
        = (scheduleController.Created id s,
           Db.set_schedules db (<[id := s]> (Db.schedules db)))
        /\ Db.schedules db !! id = None
        /\ Schedule.room s = scheduleController.CreateBody.roomId b
        /\ Schedule.startTime s = scheduleController.CreateBody.startTime b
        /\ Schedule.endTime s = scheduleController.CreateBody.endTime b
        /\ Schedule.isActive s = true)
  /\ (forall s,
        Schedule.endTime s = scheduleController.CreateBody.startTime b
        \/ Schedule.startTime s = scheduleController.CreateBody.endTime b ->
        scheduleController.conflictQuery
          (scheduleController.CreateBody.roomId b)
          (scheduleController.CreateBody.startTime b)
          (scheduleController.CreateBody.endTime b) s = false).
Proof.
  intros b overlapping Hvalid Hmovie Htheater (room & Hroom & Hin).
  unfold scheduleController.createSchedule. fold b.
  rewrite Hvalid.
  rewrite (bool_decide_eq_true_2 _ Hmovie), (bool_decide_eq_true_2 _ Htheater).
  simpl.
  match goal with |- context [findOne ?q (Db.rooms db)] =>
    destruct (findOne q (Db.rooms db)) as [found|] eqn:Hfind
  end.
  2:{ rewrite findOne_None in Hfind. specialize (Hfind _ _ Hroom).
      rewrite N.eqb_refl in Hfind. simpl in Hfind.
      apply N.eqb_neq in Hfind. done. }
  clear found Hfind.
  match goal with |- context [findOne ?q (Db.schedules db)] =>
    destruct (findOne q (Db.schedules db)) as [[id s]|] eqn:Hfind
  end.
  - apply findOne_Some in Hfind as [Hlookup Hq].
    apply conflictQuery_true in Hq.
    split_and!; [done| |by apply conflictQuery_touching].
    intros Hno. destruct Hno. by exists id, s.
  - rewrite findOne_None in Hfind. split_and!.
    + intros (id & s & Hlookup & Hq).
      apply conflictQuery_true in Hq.
      by rewrite (Hfind id s Hlookup) in Hq.
    + intros _. eexists _, _. split; [reflexivity|].
      split_and!; try done.
      apply not_elem_of_dom, is_fresh.
    + by apply conflictQuery_touching.
Qed.

(** The scenario of the specification: room 5 is taken from 1000 to 1200;
    a schedule from 1200 to 1300 is created. *)
Lemma createSchedule_conflict_witness :
  let db := sample_db {[ 3%N := schedule_of 1000 1200 true ]} in
  exists id s,
    scheduleController.createSchedule db (create_request 1200 1300)
    = (scheduleController.Created id s,
       Db.set_schedules db (<[id := s]> (Db.schedules db)))
    /\ Db.schedules db !! id = None
    /\ Schedule.room s = 5%N
    /\ Schedule.startTime s = 1200%Z
    /\ Schedule.endTime s = 1300%Z
    /\ Schedule.isActive s = true.
Proof.
  intros db.
  apply (createSchedule_conflict db (create_request 1200 1300)).
  - reflexivity.
  - vm_compute. reflexivity.
  - vm_compute. reflexivity.
  - eexists. split; reflexivity.
  - intros (id & s & Hlookup & _ & _ & Hend).
    change (({[ 3%N := schedule_of 1000 1200 true ]}
               : gmap ObjectId Schedule.t) !! id = Some s) in Hlookup.
    apply lookup_singleton_Some in Hlookup as [_ <-].
    simpl in Hend. lia.
Defined.

(** C5 as stated fails: the schedule of room 5 from 1000 to 1200 is not
    active, no active schedule overlaps 1100 to 1300, and the request is
    refused all the same. *)
Lemma createSchedule_inactive_conflict :
  let db := sample_db {[ 3%N := schedule_of 1000 1200 false ]} in
  ~ spec_conflict (Db.schedules db) None 5%N 1100 1300
  /\ scheduleController.createSchedule db (create_request 1100 1300)
     = (scheduleController.ScheduleConflict, db).
Proof.
  intros db. split; [|reflexivity].
  intros (id & s & Hlookup & _ & Hactive & _).
  change (({[ 3%N := schedule_of 1000 1200 false ]}
             : gmap ObjectId Schedule.t) !! id = Some s) in Hlookup.
  apply lookup_singleton_Some in Hlookup as [_ <-].
  discriminate.
Qed.

(** C9, amended. For a valid request on an existing schedule: when the body
    carries [startTime], [endTime] or [roomId], [updateSchedule] checks the
    resulting interval against the schedules of the target room, active or
    not, other than the schedule itself, and answers with the schedule
    conflict exactly when one of them overlaps; when the body carries none
    of the three, no check is made. Without a conflict the allowed fields
    of the body are stored. *)
Theorem updateSchedule_conflict (db : Db.t) (id : ObjectId)
    (req : scheduleController.Request scheduleController.UpdateBody.t)
    (schedule : Schedule.t) :
  let b := scheduleController.body req in
  let start := default (Schedule.startTime schedule)
                       (scheduleController.UpdateBody.startTime b) in
  let end_ := default (Schedule.endTime schedule)
                      (scheduleController.UpdateBody.endTime b) in
  let room := default (Schedule.room schedule)
                      (scheduleController.UpdateBody.roomId b) in
  let touched :=
    is_Some (scheduleController.UpdateBody.startTime b)
    \/ is_Some (scheduleController.UpdateBody.endTime b)
    \/ is_Some (scheduleController.UpdateBody.roomId b) in
  let overlapping :=
    exists id' s,
      Db.schedules db !! id' = Some s
      /\ id' <> id
      /\ Schedule.room s = room
      /\ (Schedule.startTime s < end_)%Z
      /\ (Schedule.endTime s > start)%Z in
  let stored :=
    (scheduleController.Updated id
       (scheduleController.applyUpdates b schedule),
     Db.set_schedules db
       (<[id := scheduleController.applyUpdates b schedule]>
          (Db.schedules db))) in
  scheduleController.validationErrors req = [] ->
  Db.schedules db !! id = Some schedule ->
  (touched -> overlapping ->
   scheduleController.updateSchedule db id req
   = (scheduleController.ScheduleConflict, db))
  /\ (touched -> ~ overlapping ->
      scheduleController.updateSchedule db id req = stored)
  /\ (~ touched ->
      scheduleController.updateSchedule db id req = stored).
Proof.
  intros b start end_ room touched overlapping stored Hvalid Hlookup.
  assert (scheduleController.touchesSlot b = true <-> touched) as Htouch.
  { unfold scheduleController.touchesSlot, touched.
    rewrite !orb_true_iff, !bool_decide_eq_true. tauto. }
  unfold scheduleController.updateSchedule. fold b.
  rewrite Hvalid, Hlookup.
  destruct (scheduleController.touchesSlot b) eqn:Hslot.
  - fold start end_ room.
    match goal with |- context [findOne ?q (Db.schedules db)] =>
      destruct (findOne q (Db.schedules db)) as [[id' s]|] eqn:Hfind
    end.
    + apply findOne_Some in Hfind as [Hlookup' Hq].
      apply andb_true_iff in Hq as [Hne Hq].
      apply negb_true_iff, N.eqb_neq in Hne.
      apply conflictQuery_true in Hq.
      split_and!; [done| |].
      * intros _ Hno. destruct Hno. by exists id', s.
      * intros Hno. destruct Hno. by apply Htouch.
    + rewrite findOne_None in Hfind. split_and!; [|done|done].
      intros _ (id' & s & Hlookup' & Hne & Hq).
      apply conflictQuery_true in Hq.
      specialize (Hfind id' s Hlookup').
      apply andb_false_iff in Hfind as [Hid|Hq'].
      * by apply negb_false_iff, N.eqb_eq in Hid.
      * by rewrite Hq in Hq'.
  - split_and!; [|done|done].
    intros Ht. apply Htouch in Ht. done.
Qed.

(** Schedule 4 of room 5, from 1300 to 1400, is moved to 1100-1200 next
    to schedule 3, which runs from 1000 to 1100. *)
Lemma updateSchedule_conflict_witness :
  let db := sample_db (<[ 4%N := schedule_of 1300 1400 true ]>
                         {[ 3%N := schedule_of 1000 1100 true ]}) in
  scheduleController.updateSchedule db 4%N (move_request 1100 1200)
  = (scheduleController.Updated 4%N (schedule_of 1100 1200 true),
     Db.set_schedules db
       (<[ 4%N := schedule_of 1100 1200 true ]> (Db.schedules db))).
Proof.
  intros db.
  destruct (updateSchedule_conflict db 4%N (move_request 1100 1200)
              (schedule_of 1300 1400 true) eq_refl eq_refl)
    as (_ & Hmove & _).
  apply Hmove.
  - left. by eexists.
  - intros (id' & s & Hlookup & Hne & _ & _ & Hend).
    change ((<[ 4%N := schedule_of 1300 1400 true ]>
               {[ 3%N := schedule_of 1000 1100 true ]}
               : gmap ObjectId Schedule.t) !! id' = Some s) in Hlookup.
    apply lookup_insert_Some in Hlookup as [[? _]|[_ Hlookup]]; [done|].
    apply lookup_singleton_Some in Hlookup as [_ <-].
    simpl in Hend. lia.
Defined.

(** C9 as stated fails: schedule 3 of room 5 is not active, no other
    active schedule overlaps 1100 to 1300, and moving schedule 4 there is
    refused all the same. *)
Lemma updateSchedule_inactive_conflict :
  let db := sample_db (<[ 4%N := schedule_of 1300 1400 true ]>
                         {[ 3%N := schedule_of 1000 1200 false ]}) in
  ~ spec_conflict (Db.schedules db) (Some 4%N) 5%N 1100 1300
  /\ scheduleController.updateSchedule db 4%N (move_request 1100 1300)
     = (scheduleController.ScheduleConflict, db).
Proof.
  intros db. split; [|reflexivity].
  intros (id & s & Hlookup & Hself & Hactive & _).
  change ((<[ 4%N := schedule_of 1300 1400 true ]>
             {[ 3%N := schedule_of 1000 1200 false ]}
             : gmap ObjectId Schedule.t) !! id = Some s) in Hlookup.
  apply lookup_insert_Some in Hlookup as [[<- _]|[_ Hlookup]]; [done|].
  apply lookup_singleton_Some in Hlookup as [_ <-].
  discriminate.
Qed.

(** C8 at its failing input. Schedule 3 has no booking at all, yet
    [deleteSchedule] answers with the server error and the schedule stays:
    the handler reads [Booking], which its module does not bind. *)
Theorem deleteSchedule_without_bookings :
  let db := sample_db {[ 3%N := schedule_of 1000 1200 true ]} in
  scheduleController.deleteSchedule db 3%N
  = (scheduleController.ServerError, db)
  /\ Db.schedules (snd (scheduleController.deleteSchedule db 3%N)) !! 3%N
     = Some (schedule_of 1000 1200 true).
Proof. split; reflexivity. Qed.

(** ** Cancelling *)

Section Cancel.

(** Recording a cancellation touches none of the validated paths but
    the reason. *)
Lemma validate_cancellation (maxReason : option nat) (this : Reservation.t)
    (status : Status) (userId : ObjectId) (now : Date) (reason : string) :
  validate maxReason
    (Reservation.set_cancellation (Reservation.set_status this status)
                                  userId now reason)
  = validate None this
    && match maxReason with
       | Some limit => (String.length reason <=? limit)%nat
       | None => true
       end.
Proof.
  unfold validate. simpl. rewrite andb_true_r.
  by destruct maxReason.
Qed.

Lemma validate_payment_status (this : Reservation.t)
    (status : PaymentStatus) :
  validate None (Reservation.set_payment_status this status)
  = validate None this.
Proof. reflexivity. Qed.

(** The hooks of the save that ends [cancel] recompute nothing. *)
Lemma booking_cancel_pre_save (refund : bool) (this : Reservation.t) :
  Booking.pre_save (Booking.cancelCtx refund) this = Next this.
Proof. by destruct refund. Qed.

Lemma ticket_cancel_pre_save (this : Reservation.t) :
  Ticket.pre_save Ticket.cancelCtx this = Next this.
Proof. reflexivity. Qed.

End Cancel.

(** C6, amended. [cancel] fails when the reservation is already cancelled,
    and when the save that ends it refuses the document: one of the
    validated paths of the reservation is invalid or, for a ticket, the
    reason is longer than 500 characters. It fails in no other case: from
    every other status, the terminal [refunded] and [expired] included, it
    succeeds, the status becomes [cancelled] and the actor, time and reason
    are recorded. [Booking.cancel] marks the payment [refunded] exactly
    when the booking was confirmed with a completed payment;
    [Ticket.cancel] leaves the payment as it is. *)
Theorem cancel_transitions (now : Date) (this : Reservation.t)
    (userId : ObjectId) (reason : string) :
  match Booking.cancel now this userId reason with
  | Thrown _ =>
    Reservation.status this = st_cancelled \/ validate None this = false
  | Returned doc =>
    Reservation.status this <> st_cancelled
    /\ validate None this = true
    /\ Reservation.status doc = st_cancelled
    /\ Reservation.cancelledBy doc = Some userId
    /\ Reservation.cancelledAt doc = Some now
    /\ Reservation.cancellationReason doc = Some reason
    /\ Reservation.seats doc = Reservation.seats this
    /\ Reservation.totalAmount doc = Reservation.totalAmount this
    /\ Payment.status (Reservation.payment doc)
       = if decide (Reservation.status this = st_confirmed
                    /\ Payment.status (Reservation.payment this)
                       = pay_completed)
         then pay_refunded
         else Payment.status (Reservation.payment this)
  end
  /\ match Ticket.cancel now this userId reason with
     | Thrown _ =>
       Reservation.status this = st_cancelled
       \/ validate None this = false
       \/ (500 < String.length reason)%nat
     | Returned doc =>
       Reservation.status this <> st_cancelled
       /\ validate None this = true
       /\ (String.length reason <= 500)%nat
       /\ Reservation.status doc = st_cancelled
       /\ Reservation.cancelledBy doc = Some userId
       /\ Reservation.cancelledAt doc = Some now
       /\ Reservation.cancellationReason doc = Some reason
       /\ Reservation.seats doc = Reservation.seats this
       /\ Reservation.totalAmount doc = Reservation.totalAmount this
       /\ Reservation.payment doc = Reservation.payment this
     end.
Proof.
  unfold Booking.cancel, Ticket.cancel, Booking.validate, Ticket.validate.
  destruct (decide (Reservation.status this = st_cancelled)) as [Hc|Hc];
    [by split; left|].
  rewrite !validate_cancellation, booking_cancel_pre_save,
    ticket_cancel_pre_save, andb_true_r.
  split.
  - assert (validate None
              (if bool_decide (Reservation.status this = st_confirmed)
                  && bool_decide (Payment.status (Reservation.payment this)
                                  = pay_completed)
               then Reservation.set_payment_status this pay_refunded
               else this)
            = validate None this) as ->.
    { by destruct (_ && _). }
    destruct (validate None this); [|by right].
    destruct (bool_decide (Reservation.status this = st_confirmed)) eqn:E1;
      destruct (bool_decide (Payment.status (Reservation.payment this)
                             = pay_completed)) eqn:E2;
      simpl; split_and!; try done.
    + apply bool_decide_eq_true in E1, E2. by rewrite decide_True.
    + apply bool_decide_eq_false in E2. rewrite decide_False; tauto.
    + apply bool_decide_eq_false in E1. rewrite decide_False; tauto.
    + apply bool_decide_eq_false in E1. rewrite decide_False; tauto.
  - destruct (validate None this); simpl; [|by right; left].
    destruct (String.length reason <=? 500)%nat eqn:Hlen.
    + apply Nat.leb_le in Hlen. by split_and!.
    + apply Nat.leb_gt in Hlen. by right; right.
Qed.

(** C6 as stated fails: cancelling an expired booking succeeds and moves it
    out of its terminal state. *)
Lemma cancel_expired_booking :
  terminal (Reservation.status expired_booking) = true
  /\ exists doc,
       Booking.cancel 500 expired_booking 7%N "late" = Returned doc
       /\ Reservation.status doc = st_cancelled
       /\ doc <> expired_booking.
Proof.
  split; [reflexivity|].
  eexists. split; [reflexivity|]. split; [reflexivity|].
  discriminate.
Qed.

(** The save that ends [Ticket.cancel] refuses a reason of 501
    characters: the pending ticket is not cancelled. The same reason is
    accepted on a booking. *)
Lemma ticket_cancel_long_reason :
  String.length long_reason = 501%nat
  /\ Ticket.cancel 150 stale_pending_ticket 7%N long_reason
     = Thrown "Ticket validation failed"
  /\ exists doc,
       Booking.cancel 150 stale_pending_ticket 7%N long_reason
       = Returned doc.
Proof.
  split; [reflexivity|]. split; [reflexivity|].
  eexists. reflexivity.
Qed.

(** ** Availability *)

Section Availability.

Lemma status_in_confirmed_pending (s : Status) :
  name_in (status_name s) ["confirmed"; "pending"] = true
  <-> s = st_pending \/ s = st_confirmed.
Proof.
  destruct s; simpl; split; intros H;
    try done; try (by left); try (by right); by destruct H.
Qed.

Lemma status_in_booked_confirmed (s : Status) :
  name_in (status_name s) ["booked"; "confirmed"] = true
  <-> s = st_confirmed.
Proof. destruct s; simpl; split; done. Qed.

Lemma payment_not_refunded (p : PaymentStatus) :
  negb (String.eqb (payment_status_name p) "refunded") = true
  <-> p <> pay_refunded.
Proof. destruct p; simpl; split; done. Qed.

Lemma seat_status_available (s : RoomSeatStatus) :
  String.eqb (room_seat_status_name s) "available" = true
  <-> s = seat_available.
Proof. destruct s; simpl; split; done. Qed.

(** The codes [Booking.getAvailableSeats] collects. *)
Lemma booking_bookedSeats (tickets : gmap ObjectId Reservation.t)
    (showtimeId : ObjectId) (code : string) :
  code ∈ collect_seat_codes
           (find_docs
              (fun _ ticket =>
                 N.eqb (Reservation.showtime ticket) showtimeId
                 && name_in (status_name (Reservation.status ticket))
                            ["confirmed"; "pending"]
                 && negb (String.eqb
                            (payment_status_name
                               (Payment.status (Reservation.payment ticket)))
                            "refunded"))
              tickets)
           (fun _ => true)
  <-> exists id t,
        tickets !! id = Some t
        /\ Reservation.showtime t = showtimeId
        /\ (Reservation.status t = st_pending
            \/ Reservation.status t = st_confirmed)
        /\ Payment.status (Reservation.payment t) <> pay_refunded
        /\ code ∈ Ticket.seatCodes t.
Proof.
  rewrite collect_seat_codes_elem. split.
  - intros ([id t] & seat & Hdoc & Hseat & _ & Hcode).
    apply find_docs_elem in Hdoc as [Hlookup Hq].
    apply andb_true_iff in Hq as [Hq Hpay].
    apply andb_true_iff in Hq as [Hshow Hstatus].
    exists id, t. split_and!; [done| | | |].
    + by apply N.eqb_eq.
    + by apply status_in_confirmed_pending.
    + by apply payment_not_refunded.
    + apply seatCodes_elem. by exists seat.
  - intros (id & t & Hlookup & Hshow & Hstatus & Hpay & Hcode).
    apply seatCodes_elem in Hcode as (seat & Hseat & Hcode).
    exists (id, t), seat. split_and!; [|done..].
    apply find_docs_elem. split; [done|].
    rewrite !andb_true_iff. split_and!.
    + by apply N.eqb_eq.
    + by apply status_in_confirmed_pending.
    + by apply payment_not_refunded.
Qed.

(** The codes [Room.getAvailableSeats] collects. *)
Lemma room_bookedSeats (tickets : gmap ObjectId Reservation.t)
    (showtimeId : ObjectId) (code : string) :
  code ∈ collect_seat_codes
           (find_docs
              (fun _ ticket =>
                 N.eqb (Reservation.showtime ticket) showtimeId
                 && name_in (status_name (Reservation.status ticket))
                            ["booked"; "confirmed"])
              tickets)
           (fun seat => negb (String.eqb (SeatLine.code seat) ""))
  <-> code <> ""
      /\ exists id t,
           tickets !! id = Some t
           /\ Reservation.showtime t = showtimeId
           /\ Reservation.status t = st_confirmed
           /\ code ∈ Ticket.seatCodes t.
Proof.
  rewrite collect_seat_codes_elem. split.
  - intros ([id t] & seat & Hdoc & Hseat & Hkeep & Hcode).
    apply find_docs_elem in Hdoc as [Hlookup Hq].
    apply andb_true_iff in Hq as [Hshow Hstatus].
    apply negb_true_iff, String.eqb_neq in Hkeep.
    split; [by rewrite <- Hcode|].
    exists id, t. split_and!; [done| | |].
    + by apply N.eqb_eq.
    + by apply status_in_booked_confirmed.
    + apply seatCodes_elem. by exists seat.
  - intros (Hne & id & t & Hlookup & Hshow & Hstatus & Hcode).
    apply seatCodes_elem in Hcode as (seat & Hseat & Hcode).
    exists (id, t), seat. split_and!; [| done | | done].
    + apply find_docs_elem. split; [done|].
      rewrite !andb_true_iff. split.
      * by apply N.eqb_eq.
      * by apply status_in_booked_confirmed.
    + apply negb_true_iff, String.eqb_neq. by rewrite Hcode.
Qed.

(** [Room.getAvailableSeats] returns the seats of the room in order; a
    seat is [booked] exactly when a confirmed ticket of the showtime has
    its code. *)
Lemma room_getAvailableSeats_exact (tickets : gmap ObjectId Reservation.t)
    (room : Room.t) (showtimeId : ObjectId) :
  Forall2
    (fun seat view =>
       Room.seat view = seat
       /\ (Room.status view = "booked" \/ Room.status view = "available")
       /\ (Room.status view = "booked"
           <-> RoomSeat.code seat <> ""
               /\ exists id t,
                    tickets !! id = Some t
                    /\ Reservation.showtime t = showtimeId
                    /\ Reservation.status t = st_confirmed
                    /\ RoomSeat.code seat ∈ Ticket.seatCodes t))
    (Room.seats room)
    (Room.getAvailableSeats tickets room showtimeId).
Proof.
  unfold Room.getAvailableSeats.
  rewrite map_fmap. apply Forall2_fmap_r, Forall_Forall2_diag.
  apply Forall_forall. intros seat _.
  unfold Room.seat, Room.status. split; [done|].
  rewrite <- room_bookedSeats.
  case_bool_decide.
  - split; [by left|]. by split.
  - split; [by right|]. by split.
Qed.

End Availability.

(** C7, amended. For a showtime whose room exists, [Booking.getAvailableSeats]
    returns the seats of the room in order, and marks a seat not available
    exactly when the seat is not in status [available] or some ticket of the
    showtime with status pending or confirmed and a payment that is not
    refunded contains its code. [Room.getAvailableSeats] marks [booked]
    every seat whose code a confirmed ticket of the showtime contains, and
    no seat outside the pending and confirmed tickets of the showtime.
    Neither reads [expiresAt]: a ticket counts until it is removed. *)
Theorem getAvailableSeats_marks
    (showtimes : gmap ObjectId Showtime.t) (rooms : gmap ObjectId Room.t)
    (tickets : gmap ObjectId Reservation.t)
    (showtimeId : ObjectId) (showtime : Showtime.t) (room : Room.t) :
  showtimes !! showtimeId = Some showtime ->
  rooms !! Showtime.room showtime = Some room ->
  (exists result,
     Booking.getAvailableSeats showtimes rooms tickets showtimeId
     = Returned result
     /\ Forall2
          (fun seat view =>
             Booking.seat view = seat
             /\ (Booking.isAvailable view = false
                 <-> RoomSeat.status seat <> seat_available
                     \/ exists id t,
                          tickets !! id = Some t
                          /\ Reservation.showtime t = showtimeId
                          /\ (Reservation.status t = st_pending
                              \/ Reservation.status t = st_confirmed)
                          /\ Payment.status (Reservation.payment t)
                             <> pay_refunded
                          /\ RoomSeat.code seat ∈ Ticket.seatCodes t))
          (Room.seats room) result)
  /\ Forall2
       (fun seat view =>
          Room.seat view = seat
          /\ (Room.status view = "booked" \/ Room.status view = "available")
          /\ (RoomSeat.code seat <> ""
              /\ (exists id t,
                    tickets !! id = Some t
                    /\ Reservation.showtime t = showtimeId
                    /\ Reservation.status t = st_confirmed
                    /\ RoomSeat.code seat ∈ Ticket.seatCodes t) ->
              Room.status view = "booked")
          /\ (Room.status view = "booked" ->
              exists id t,
                tickets !! id = Some t
                /\ Reservation.showtime t = showtimeId
                /\ (Reservation.status t = st_pending
                    \/ Reservation.status t = st_confirmed)
                /\ RoomSeat.code seat ∈ Ticket.seatCodes t))
       (Room.seats room)
       (Room.getAvailableSeats tickets room showtimeId).
Proof.
  intros Hshowtime Hroom. split.
  - unfold Booking.getAvailableSeats. rewrite Hshowtime, Hroom.
    eexists. split; [reflexivity|].
    rewrite map_fmap. apply Forall2_fmap_r, Forall_Forall2_diag.
    apply Forall_forall. intros seat _.
    simpl. split; [done|].
    rewrite andb_false_iff, negb_false_iff, bool_decide_eq_true,
      booking_bookedSeats.
    rewrite <- not_true_iff_false, seat_status_available. tauto.
  - eapply Forall2_impl; [apply room_getAvailableSeats_exact|].
    intros seat view (Hseat & Hstatus & Hbooked).
    split_and!; [done|done| |].
    + intros Hconfirmed. by apply Hbooked.
    + intros (_ & id & t & Hlookup & Hshow & Hconf & Hcode)%Hbooked.
      exists id, t. split_and!; [done|done|by right|done].
Qed.

Lemma getAvailableSeats_marks_witness :
  sample_showtimes !! 1%N = Some (Showtime.mk 1%N 2%N 5%N 1000 2000 true)
  /\ sample_rooms !! 5%N = Some small_room
  /\ exists result,
       Booking.getAvailableSeats sample_showtimes sample_rooms
         {[ 1%N := stale_pending_ticket ]} 1%N
       = Returned result
       /\ Forall2
            (fun seat view =>
               Booking.seat view = seat
               /\ (Booking.isAvailable view = false
                   <-> RoomSeat.status seat <> seat_available
                       \/ exists id t,
                            ({[ 1%N := stale_pending_ticket ]}
                               : gmap ObjectId Reservation.t) !! id = Some t
                            /\ Reservation.showtime t = 1%N
                            /\ (Reservation.status t = st_pending
                                \/ Reservation.status t = st_confirmed)
                            /\ Payment.status (Reservation.payment t)
                               <> pay_refunded
                            /\ RoomSeat.code seat ∈ Ticket.seatCodes t))
            (Room.seats small_room) result.
Proof.
  split; [reflexivity|]. split; [reflexivity|].
  apply (getAvailableSeats_marks sample_showtimes sample_rooms
           {[ 1%N := stale_pending_ticket ]} 1%N
           (Showtime.mk 1%N 2%N 5%N 1000 2000 true) small_room);
    reflexivity.
Defined.

(** C7 as stated fails: at time 200 the hold of [stale_pending_ticket] has
    passed, so the wording treats seat A1 as free, but
    [Booking.getAvailableSeats] still marks it not available. *)
Lemma stale_pending_ticket_still_held :
  let tickets : gmap ObjectId Reservation.t :=
    {[ 1%N := stale_pending_ticket ]} in
  (Reservation.expiresAt stale_pending_ticket < 200)%Z
  /\ ~ spec_not_free 200 tickets 1%N "A1"
  /\ exists result,
       Booking.getAvailableSeats sample_showtimes sample_rooms tickets 1%N
       = Returned result
       /\ map (fun view => (RoomSeat.code (Booking.seat view),
                            Booking.isAvailable view)) result
          = [("A1", false); ("A2", true); ("B1", true); ("B2", true)].
Proof.
  intros tickets. split; [reflexivity|]. split.
  - intros (id & t & Hlookup & _ & Hstatus & _).
    apply lookup_singleton_Some in Hlookup as [_ <-].
    destruct Hstatus as [Hs|[_ Hlt]]; [discriminate|].
    simpl in Hlt. lia.
  - eexists. split; reflexivity.
Qed.

(** [Room.getAvailableSeats] leaves out the pending tickets altogether: a
    hold that is still running does not make its seat [booked]. *)
Lemma room_getAvailableSeats_ignores_pending :
  let tickets : gmap ObjectId Reservation.t :=
    {[ 1%N := pending_ticket 1%N ["A1"] ]} in
  spec_not_free 200 tickets 1%N "A1"
  /\ map (fun view => (RoomSeat.code (Room.seat view), Room.status view))
         (Room.getAvailableSeats tickets small_room 1%N)
     = [("A1", "available"); ("A2", "available");
        ("B1", "available"); ("B2", "available")].
Proof.
  intros tickets. split; [|reflexivity].
  exists 1%N, (pending_ticket 1%N ["A1"]).
  split_and!; [reflexivity|reflexivity| |].
  - right. split; [reflexivity|]. simpl. lia.
  - apply list_elem_of_here.
Qed.

(** ** Seat maps *)

Section SeatMap.

(** The letter of a row below 26 is the capital with code [65 + row]. *)
Lemma alphabet_get (row : nat) :
  (row < 26)%nat ->
  String.get row Room.alphabet = Some (Ascii.ascii_of_nat (65 + row)).
Proof.
  intros H.
  do 26 (destruct row as [|row]; [reflexivity|]).
  lia.
Qed.

Lemma decimal_inj (a b : nat) :
  NilEmpty.string_of_uint (Nat.to_uint a)
  = NilEmpty.string_of_uint (Nat.to_uint b) -> a = b.
Proof.
  intros H.
  assert (Some (Nat.to_uint a) = Some (Nat.to_uint b)) as Hu.
  { rewrite <- !NilEmpty.usu. by rewrite H. }
  injection Hu as Hu.
  rewrite <- (DecimalNat.Unsigned.of_to a), <- (DecimalNat.Unsigned.of_to b).
  by rewrite Hu.
Qed.

Lemma seatCode_below_26 (row col : nat) :
  (row < 26)%nat ->
  Room.seatCode row col
  = String (Ascii.ascii_of_nat (65 + row))
           (NilEmpty.string_of_uint (Nat.to_uint col)).
Proof.
  intros H. unfold Room.seatCode.
  replace (String.length Room.alphabet) with 26%nat by reflexivity.
  rewrite Nat.mod_small by done.
  by rewrite alphabet_get.
Qed.

Lemma seatCode_inj (row col row' col' : nat) :
  (row < 26)%nat -> (row' < 26)%nat ->
  Room.seatCode row col = Room.seatCode row' col' ->
  row = row' /\ col = col'.
Proof.
  intros H H' Heq.
  rewrite !seatCode_below_26 in Heq by done.
  assert (Hn := f_equal (fun s => match s with
                                  | String c _ => Ascii.nat_of_ascii c
                                  | EmptyString => 0%nat
                                  end) Heq).
  assert (Hd := f_equal (fun s => match s with
                                  | String _ d => d
                                  | EmptyString => EmptyString
                                  end) Heq).
  cbv beta iota in Hn, Hd.
  rewrite !Ascii.nat_ascii_embedding in Hn by lia.
  split; [lia | by apply decimal_inj].
Qed.

Lemma map_flat_map {A B C : Type} (g : B -> C) (f : A -> list B)
    (l : list A) :
  map g (flat_map f l) = flat_map (fun x => map g (f x)) l.
Proof.
  induction l as [|x l IH]; [done|].
  simpl. by rewrite map_app, IH.
Qed.

(** The rounds of the two loops of [generateSeatMap]: [row] runs over
    the whole numbers from 0 that are below [rows], [col] over those
    from 1 that are at most [seatsPerRow]. *)
Lemma rowCount_spec (rows : Q) (row : nat) :
  (row < Room.rowCount rows)%nat <-> inject_Z (Z.of_nat row) < rows.
Proof.
  unfold Room.rowCount. split.
  - intros H.
    apply Qle_lt_trans with (inject_Z (Qceiling rows - 1));
      [|apply Qceiling_lt].
    rewrite <- Zle_Qle. lia.
  - intros H.
    assert (inject_Z (Z.of_nat row) < inject_Z (Qceiling rows)) as Hlt.
    { apply Qlt_le_trans with rows; [done|apply Qle_ceiling]. }
    rewrite <- Zlt_Qlt in Hlt. lia.
Qed.

Lemma colCount_spec (seatsPerRow : Q) (col : nat) :
  (col <= Room.colCount seatsPerRow)%nat
  <-> col = 0%nat \/ inject_Z (Z.of_nat col) <= seatsPerRow.
Proof.
  unfold Room.colCount. split.
  - intros H. destruct col as [|col]; [by left|right].
    apply Qle_trans with (inject_Z (Qfloor seatsPerRow));
      [|apply Qfloor_le].
    rewrite <- Zle_Qle. lia.
  - intros [->|H]; [lia|].
    assert (inject_Z (Z.of_nat col) < inject_Z (Qfloor seatsPerRow + 1))
      as Hlt.
    { apply Qle_lt_trans with seatsPerRow; [done|apply Qlt_floor]. }
    rewrite <- Zlt_Qlt in Hlt. lia.
Qed.

(** For whole numbers the rounds are as many as the number says. *)
Lemma rowCount_whole (rows : Q) (n : nat) :
  rows == inject_Z (Z.of_nat n) -> Room.rowCount rows = n.
Proof.
  intros H. unfold Room.rowCount.
  by rewrite (Qceiling_comp _ _ H), Qceiling_Z, Nat2Z.id.
Qed.

Lemma colCount_whole (seatsPerRow : Q) (n : nat) :
  seatsPerRow == inject_Z (Z.of_nat n) -> Room.colCount seatsPerRow = n.
Proof.
  intros H. unfold Room.colCount.
  by rewrite (Qfloor_comp _ _ H), Qfloor_Z, Nat2Z.id.
Qed.

Lemma generateSeatMap_codes (room : Room.t) :
  map RoomSeat.code (Room.generateSeatMap room)
  = flat_map (fun row => map (Room.seatCode row)
                             (seq 1 (Room.colCount (Room.seatsPerRow room))))
             (seq 0 (Room.rowCount (Room.rows room))).
Proof.
  unfold Room.generateSeatMap. rewrite map_flat_map.
  apply flat_map_ext. intros row. by rewrite map_map.
Qed.

Lemma generateSeatMap_length (room : Room.t) :
  length (Room.generateSeatMap room)
  = (Room.rowCount (Room.rows room)
     * Room.colCount (Room.seatsPerRow room))%nat.
Proof.
  unfold Room.generateSeatMap.
  rewrite <- (length_seq (Room.rowCount (Room.rows room)) 0) at 2.
  induction (seq 0 (Room.rowCount (Room.rows room))) as [|row l IH]; [done|].
  simpl. by rewrite length_app, length_map, length_seq, IH.
Qed.

Lemma generateSeatMap_elem (room : Room.t) (seat : RoomSeat.t) :
  seat ∈ Room.generateSeatMap room ->
  exists row col,
    (row < Room.rowCount (Room.rows room))%nat
    /\ (1 <= col <= Room.colCount (Room.seatsPerRow room))%nat
    /\ seat = RoomSeat.mk (Room.seatCode row col)
                          (if (row <? Room.vipRows)%nat then vip else standard)
                          seat_available row (col - 1)%nat.
Proof.
  unfold Room.generateSeatMap.
  rewrite list_elem_of_In, in_flat_map.
  intros (row & Hrow & Hin).
  apply in_map_iff in Hin as (col & <- & Hcol).
  apply in_seq in Hrow, Hcol.
  exists row, col. split_and!; [lia..|done].
Qed.

Lemma codes_NoDup (rows seatsPerRow : nat) :
  (rows <= 26)%nat ->
  NoDup (flat_map (fun row => map (Room.seatCode row) (seq 1 seatsPerRow))
                  (seq 0 rows)).
Proof.
  intros Hrows. rewrite flat_map_bind.
  apply NoDup_bind; [| |apply NoDup_seq].
  - intros row row' code Hrow Hrow' Hc Hc'.
    apply elem_of_seq in Hrow, Hrow'.
    rewrite map_fmap in Hc, Hc'.
    apply list_elem_of_fmap in Hc as (col & -> & _).
    apply list_elem_of_fmap in Hc' as (col' & Heq & _).
    apply seatCode_inj in Heq as [? _]; [done|lia..].
  - intros row Hrow. apply elem_of_seq in Hrow.
    rewrite map_fmap.
    apply NoDup_fmap_2_strong; [|apply NoDup_seq].
    intros col col' _ _ Heq.
    apply seatCode_inj in Heq as [_ ?]; [done|lia..].
Qed.

Lemma codes_wrap (rows seatsPerRow : nat) :
  (26 < rows)%nat -> (1 <= seatsPerRow)%nat ->
  ~ NoDup (flat_map (fun row => map (Room.seatCode row) (seq 1 seatsPerRow))
                    (seq 0 rows)).
Proof.
  intros Hrows Hcols Hnd.
  replace rows with (26 + (rows - 26))%nat in Hnd by lia.
  rewrite seq_app, flat_map_app in Hnd.
  apply NoDup_app in Hnd as (_ & Hdisj & _).
  apply (Hdisj (Room.seatCode 0 1)).
  - rewrite list_elem_of_In, in_flat_map. exists 0%nat.
    split; [apply in_seq; lia|].
    apply in_map, in_seq. lia.
  - change (Room.seatCode 0 1) with (Room.seatCode 26 1).
    rewrite list_elem_of_In, in_flat_map. exists 26%nat.
    split; [apply in_seq; lia|].
    apply in_map, in_seq. lia.
Qed.

End SeatMap.

(** C10, amended. A room that is saved new, or with [rows] or
    [seatsPerRow] modified, whose [rows] and [seatsPerRow] are whole
    numbers with at least one seat per row, gets the generated seat map and
    [capacity = rows * seatsPerRow]. With at most 26 rows the map has
    exactly [rows * seatsPerRow] seats, their codes are pairwise distinct,
    and every seat has as code the letter of its row followed by its
    column number in decimal, type [vip] in rows 0 and 1 and [standard] in
    the others. The row letter is taken modulo 26, and with more than 26
    rows the codes are no longer pairwise distinct. *)
Theorem room_pre_save_seat_map (ctx : SaveCtx) (room : Room.t)
    (rows seatsPerRow : nat) :
  Room.rows room == inject_Z (Z.of_nat rows) ->
  Room.seatsPerRow room == inject_Z (Z.of_nat seatsPerRow) ->
  (1 <= seatsPerRow)%nat ->
  isNew ctx || isModified ctx "rows" || isModified ctx "seatsPerRow" = true ->
  let saved := Room.pre_save ctx room in
  Room.seats saved = Room.generateSeatMap room
  /\ Room.capacity saved == Room.rows room * Room.seatsPerRow room
  /\ ((rows <= 26)%nat ->
      length (Room.seats saved) = (rows * seatsPerRow)%nat
      /\ NoDup (map RoomSeat.code (Room.seats saved))
      /\ forall seat, seat ∈ Room.seats saved ->
           exists letter col,
             String.get (RoomSeat.row seat) Room.alphabet = Some letter
             /\ (RoomSeat.row seat < rows)%nat
             /\ (1 <= col <= seatsPerRow)%nat
             /\ RoomSeat.column seat = (col - 1)%nat
             /\ RoomSeat.code seat
                = String letter (NilEmpty.string_of_uint (Nat.to_uint col))
             /\ RoomSeat.type seat
                = if (RoomSeat.row seat <? 2)%nat then vip else standard)
  /\ (forall row col,
        Room.seatCode row col = Room.seatCode (row mod 26) col)
  /\ ((26 < rows)%nat ->
      ~ NoDup (map RoomSeat.code (Room.seats saved))).
Proof.
  intros Hr Hc Hcols Hsave saved.
  apply rowCount_whole in Hr. apply colCount_whole in Hc.
  assert (Room.seats saved = Room.generateSeatMap room) as Hseats.
  { unfold saved, Room.pre_save. by rewrite Hsave. }
  split_and!.
  - done.
  - unfold saved, Room.pre_save. by rewrite Hsave.
  - intros Hrows. rewrite Hseats. split_and!.
    + by rewrite generateSeatMap_length, Hr, Hc.
    + rewrite generateSeatMap_codes, Hr, Hc. by apply codes_NoDup.
    + intros seat (row & col & Hrow & Hcol & ->)%generateSeatMap_elem.
      rewrite Hr in Hrow. rewrite Hc in Hcol.
      exists (Ascii.ascii_of_nat (65 + row)), col. simpl.
      split_and!; try done; try lia.
      * apply alphabet_get. lia.
      * apply seatCode_below_26. lia.
  - intros row col. unfold Room.seatCode.
    replace (String.length Room.alphabet) with 26%nat by reflexivity.
    by rewrite Nat.Div0.mod_mod.
  - intros Hrows. rewrite Hseats, generateSeatMap_codes, Hr, Hc.
    by apply codes_wrap.
Qed.

Lemma room_pre_save_seat_map_witness :
  let room := Room.mk 1%N "Room 1" 1 3 2 [] true in
  let saved := Room.pre_save {| isNew := true; modifiedPaths := [] |} room in
  map RoomSeat.code (Room.seats saved) = ["A1"; "A2"; "B1"; "B2"; "C1"; "C2"]
  /\ Room.capacity saved == 6
  /\ NoDup (map RoomSeat.code (Room.seats saved)).
Proof.
  split; [reflexivity|]. split; [reflexivity|].
  apply (room_pre_save_seat_map
           {| isNew := true; modifiedPaths := [] |}
           (Room.mk 1%N "Room 1" 1 3 2 [] true) 3 2);
    [reflexivity|reflexivity|lia|reflexivity|lia].
Defined.

(** C10 as stated fails for a room that is saved without the hook
    regenerating the map, and for a room whose [rows] is no whole number.
    A stored room of 2 rows of 2 seats, saved with only [capacity] changed
    to 9, keeps the capacity 9. A new room with [rows] 2.5 and
    [seatsPerRow] 2 gets the three rows A, B and C, six seats, and the
    capacity 5. *)
Lemma room_saved_stale_or_fractional :
  (let room :=
     Room.mk 1%N "Room 1" 9 2 2
             (Room.generateSeatMap (Room.mk 1%N "Room 1" 4 2 2 [] true))
             true in
   let saved :=
     Room.pre_save {| isNew := false; modifiedPaths := ["capacity"] |} room in
   Room.rows saved == 2 /\ Room.seatsPerRow saved == 2
   /\ Room.capacity saved == 9
   /\ ~ Room.capacity saved == Room.rows saved * Room.seatsPerRow saved)
  /\ (let room := Room.mk 1%N "Room 1" 5 (5 # 2) 2 [] true in
      let saved :=
        Room.pre_save {| isNew := true; modifiedPaths := [] |} room in
      Room.rows saved <= 26 /\ 1 <= Room.seatsPerRow saved
      /\ map RoomSeat.code (Room.seats saved)
         = ["A1"; "A2"; "B1"; "B2"; "C1"; "C2"]
      /\ Room.capacity saved == 5
      /\ Room.rows saved * Room.seatsPerRow saved == 5
      /\ ~ inject_Z (Z.of_nat (length (Room.seats saved)))
           == Room.rows saved * Room.seatsPerRow saved).
Proof.
  split.
  - split_and!; [reflexivity..|]. vm_compute. discriminate.
  - split_and!; [discriminate|discriminate|reflexivity..|].
    vm_compute. discriminate.
Qed.

(** ** Free time slots *)

Section TimeSlots.

Import scheduleQueries.

Lemma filter_elem {A : Type} (f : A -> bool) (l : list A) (x : A) :
  x ∈ List.filter f l <-> x ∈ l /\ f x = true.
Proof. by rewrite !list_elem_of_In, filter_In. Qed.

Lemma filter_StronglySorted {A : Type} (R : A -> A -> Prop)
    (f : A -> bool) (l : list A) :
  StronglySorted R l -> StronglySorted R (List.filter f l).
Proof.
  induction 1 as [|x l Hl IH Hx]; simpl; [constructor|].
  destruct (f x); [|done].
  constructor; [done|].
  apply Forall_forall. intros y [Hy _]%filter_elem.
  by apply (proj1 (Forall_forall _ _) Hx).
Qed.

Lemma filter_length_le {A : Type} (f : A -> bool) (l : list A) :
  (length (List.filter f l) <= length l)%nat.
Proof. induction l as [|x l IH]; simpl; [lia|]. destruct (f x); simpl; lia. Qed.

(** The slots the loop produces: the half-hour grid from [currentTime],
    as long as the slot starts before and ends by [closeTime]. *)
Lemma timeSlots_loop_elem (fuel : nat) (currentTime closeTime d : Z)
    (slot : Slot) :
  slot ∈ timeSlots_loop fuel currentTime closeTime d
  <-> exists k : nat,
        (k < fuel)%nat
        /\ start slot = (currentTime + Z.of_nat k * 1800000)%Z
        /\ (start slot < closeTime)%Z
        /\ end_ slot = (start slot + d * 60000)%Z
        /\ (end_ slot <= closeTime)%Z.
Proof.
  revert currentTime. induction fuel as [|fuel IH]; intros currentTime; simpl.
  - split; [by intros ?%elem_of_nil|]. intros (k & ? & _). lia.
  - destruct (Z.ltb_spec currentTime closeTime) as [Hlt|Hge].
    + assert (slot ∈ timeSlots_loop fuel (addMinutes currentTime 30)
                       closeTime d
              <-> exists k : nat,
                    (0 < k < S fuel)%nat
                    /\ start slot = (currentTime + Z.of_nat k * 1800000)%Z
                    /\ (start slot < closeTime)%Z
                    /\ end_ slot = (start slot + d * 60000)%Z
                    /\ (end_ slot <= closeTime)%Z) as Hrest.
      { rewrite IH. unfold addMinutes. split.
        - intros (k & Hk & Hs & Hrest). exists (S k).
          split; [lia|]. split; [lia|done].
        - intros (k & Hk & Hs & Hrest). exists (pred k).
          split; [lia|]. split; [lia|done]. }
      destruct (Z.leb_spec (addMinutes currentTime d) closeTime)
        as [Hend|Hend].
      * rewrite elem_of_cons, Hrest. split.
        -- intros [->|(k & Hk & H)]; [|exists k; split; [lia|done]].
           exists 0%nat. simpl. unfold addMinutes in *.
           split_and!; lia.
        -- intros (k & Hk & Hs & Hc & He & Hle).
           destruct k as [|k]; [left|right].
           ++ destruct slot as [s e]. simpl in *. unfold addMinutes.
              f_equal; lia.
           ++ exists (S k). split_and!; [lia|lia|done..].
      * rewrite Hrest. split.
        -- intros (k & Hk & H). exists k. split; [lia|done].
        -- intros (k & Hk & Hs & Hc & He & Hle).
           destruct k as [|k].
           ++ unfold addMinutes in Hend. lia.
           ++ exists (S k). split_and!; [lia|lia|done..].
    + split; [by intros ?%elem_of_nil|].
      intros (k & _ & Hs & Hc & _). lia.
Qed.

Lemma timeSlots_loop_sorted (fuel : nat) (currentTime closeTime d : Z) :
  StronglySorted (fun a b => (start a < start b)%Z)
                 (timeSlots_loop fuel currentTime closeTime d).
Proof.
  revert currentTime. induction fuel as [|fuel IH]; intros currentTime; simpl;
    [constructor|].
  destruct (currentTime <? closeTime)%Z; [|constructor].
  destruct (addMinutes currentTime d <=? closeTime)%Z; [|apply IH].
  constructor; [apply IH|].
  apply Forall_forall. intros slot Hin.
  apply timeSlots_loop_elem in Hin as (k & _ & Hs & _).
  simpl. unfold addMinutes in Hs. lia.
Qed.

Lemma timeSlots_loop_length (fuel : nat) (currentTime closeTime d : Z) :
  (length (timeSlots_loop fuel currentTime closeTime d) <= fuel)%nat.
Proof.
  revert currentTime. induction fuel as [|fuel IH]; intros currentTime; simpl;
    [lia|].
  destruct (currentTime <? closeTime)%Z; simpl; [|lia].
  specialize (IH (addMinutes currentTime 30)).
  destruct (addMinutes currentTime d <=? closeTime)%Z; simpl; lia.
Qed.

(** Once the grid has passed [closeTime] more fuel changes nothing: the
    loop has run to its end. *)
Lemma timeSlots_loop_more (fuel extra : nat) (currentTime closeTime d : Z) :
  (closeTime <= currentTime + Z.of_nat fuel * 1800000)%Z ->
  timeSlots_loop (fuel + extra) currentTime closeTime d
  = timeSlots_loop fuel currentTime closeTime d.
Proof.
  revert currentTime. induction fuel as [|fuel IH]; intros currentTime Hend.
  - simpl. destruct extra as [|extra]; [done|]. simpl.
    destruct (Z.ltb_spec currentTime closeTime); [lia|done].
  - simpl. rewrite IH; [done|]. unfold addMinutes. lia.
Qed.

Lemma timeSlots_fuel_enough (openTime closeTime d : Z) (extra : nat) :
  timeSlots_loop (timeSlots_fuel openTime closeTime + extra)
                 openTime closeTime d
  = timeSlots_loop (timeSlots_fuel openTime closeTime) openTime closeTime d.
Proof.
  apply timeSlots_loop_more. unfold timeSlots_fuel.
  destruct (Z.le_gt_cases closeTime openTime) as [Hle|Hgt]; [lia|].
  pose proof (Z.mul_succ_div_gt (closeTime - openTime) (30 * 60000)) as H.
  rewrite Nat2Z.inj_succ, Z2Nat.id by (apply Z.div_pos; lia).
  lia.
Qed.

(** The opening hours hold 28 half hours. *)
Lemma timeSlots_of_day (startOfDay d : Z) :
  timeSlots_loop
    (timeSlots_fuel (atHour startOfDay 9) (atHour startOfDay 23))
    (atHour startOfDay 9) (atHour startOfDay 23) d
  = timeSlots_loop 28 (atHour startOfDay 9) (atHour startOfDay 23) d.
Proof.
  unfold timeSlots_fuel.
  replace (atHour startOfDay 23 - atHour startOfDay 9)%Z with 50400000%Z
    by (unfold atHour; lia).
  change (S (Z.to_nat (50400000 / (30 * 60000)))) with (28 + 1)%nat.
  apply timeSlots_loop_more. unfold atHour. lia.
Qed.

(** The shows fetched for the day contain every schedule of the room that
    meets the opening hours. *)
Lemma dayQuery_covers (room : ObjectId) (startOfDay : Date)
    (s : Schedule.t) (a b : Date) :
  Schedule.room s = room ->
  (startOfDay <= a)%Z -> (b <= startOfDay + 86399999)%Z ->
  (Schedule.startTime s <= b)%Z -> (Schedule.endTime s >= a)%Z ->
  dayQuery room startOfDay (startOfDay + 86399999) s = true.
Proof.
  intros Hroom Ha Hb Hs He. unfold dayQuery.
  rewrite andb_true_iff, !orb_true_iff, !andb_true_iff, N.eqb_eq,
    !Z.geb_le, !Z.leb_le.
  split; [done|]. lia.
Qed.

Lemma slotTaken_overlap (slot : Slot) (show : Schedule.t) :
  (start slot < end_ slot)%Z ->
  (Schedule.startTime show < Schedule.endTime show)%Z ->
  slotTaken slot show = true
  <-> (Schedule.startTime show < end_ slot)%Z
      /\ (Schedule.endTime show > start slot)%Z.
Proof.
  intros Hslot Hshow. unfold slotTaken.
  rewrite !orb_true_iff, !andb_true_iff, !Z.geb_le, !Z.leb_le, !Z.ltb_lt,
    Z.gtb_gt.
  lia.
Qed.

End TimeSlots.

Lemma SlotsData_inj (a b : list scheduleQueries.Slot) :
  scheduleQueries.SlotsData a = scheduleQueries.SlotsData b -> a = b.
Proof. by intros [= ->]. Qed.

(** X1. The slots [getAvailableTimeSlots] returns lie on the half-hour grid
    that starts at 9:00, last the requested duration and end by 23:00; they
    come in ascending order without repetition, at most 28 of them, and
    none at all when the duration exceeds the 14 opening hours. *)
Theorem getAvailableTimeSlots_grid (db : Db.t)
    (q : scheduleQueries.SlotsQuery) (data : list scheduleQueries.Slot) :
  scheduleQueries.getAvailableTimeSlots db q = scheduleQueries.SlotsData data ->
  exists startOfDay d,
    scheduleQueries.date q = Some startOfDay
    /\ scheduleQueries.duration q = Some d
    /\ (forall slot, slot ∈ data ->
          exists k : Z,
            (0 <= k < 28)%Z
            /\ scheduleQueries.start slot
               = scheduleQueries.addMinutes
                   (scheduleQueries.atHour startOfDay 9) (k * 30)
            /\ scheduleQueries.end_ slot
               = scheduleQueries.addMinutes (scheduleQueries.start slot) d
            /\ (scheduleQueries.end_ slot
                <= scheduleQueries.atHour startOfDay 23)%Z)
    /\ StronglySorted
         (fun a b => (scheduleQueries.start a < scheduleQueries.start b)%Z)
         data
    /\ (length data <= 28)%nat
    /\ ((840 < d)%Z -> data = []).
Proof.
  unfold scheduleQueries.getAvailableTimeSlots.
  destruct (scheduleQueries.theaterId q) as [theater|]; [|done].
  destruct (scheduleQueries.roomId q) as [room|]; [|done].
  destruct (scheduleQueries.date q) as [startOfDay|]; [|done].
  destruct (scheduleQueries.duration q) as [d|]; [|done].
  rewrite timeSlots_of_day. intros <-%SlotsData_inj.
  exists startOfDay, d. split; [done|]. split; [done|].
  match goal with |- context [List.filter ?f ?l] =>
    set (free := f); set (slots := l) end.
  assert (forall slot, slot ∈ List.filter free slots ->
            exists k : Z,
              (0 <= k < 28)%Z
              /\ scheduleQueries.start slot
                 = scheduleQueries.addMinutes
                     (scheduleQueries.atHour startOfDay 9) (k * 30)
              /\ scheduleQueries.end_ slot
                 = scheduleQueries.addMinutes (scheduleQueries.start slot) d
              /\ (scheduleQueries.end_ slot
                  <= scheduleQueries.atHour startOfDay 23)%Z) as Hgrid.
  { intros slot [Hin _]%filter_elem.
    apply timeSlots_loop_elem in Hin as (k & Hk & Hs & Hc & He & Hle).
    exists (Z.of_nat k). unfold scheduleQueries.addMinutes.
    split_and!; [lia|lia|lia|done|done]. }
  split_and!.
  - done.
  - apply filter_StronglySorted, timeSlots_loop_sorted.
  - etrans; [apply filter_length_le|apply timeSlots_loop_length].
  - intros Hlong.
    destruct (List.filter free slots) as [|slot rest] eqn:Hdata; [done|].
    destruct (Hgrid slot) as (k & Hk & Hs & He & Hle);
      [apply list_elem_of_here|].
    unfold scheduleQueries.addMinutes, scheduleQueries.atHour in *. lia.
Qed.

(** X2. For a duration of at least one minute, in a room whose schedules
    all start before they end, a candidate slot of the grid is returned
    exactly when no schedule of the room, on any day, overlaps it:
    [schedule.start < slot.end] and [schedule.end > slot.start]. The
    theater of the request plays no part. *)
Theorem getAvailableTimeSlots_free (db : Db.t)
    (theater room : ObjectId) (startOfDay d k : Z) :
  let q := scheduleQueries.mkSlotsQuery (Some theater) (Some room)
             (Some startOfDay) (Some d) in
  let slot :=
    scheduleQueries.mkSlot
      (scheduleQueries.addMinutes (scheduleQueries.atHour startOfDay 9)
                                  (k * 30))
      (scheduleQueries.addMinutes
         (scheduleQueries.addMinutes (scheduleQueries.atHour startOfDay 9)
                                     (k * 30)) d) in
  (1 <= d)%Z ->
  (forall id s, Db.schedules db !! id = Some s -> Schedule.room s = room ->
                (Schedule.startTime s < Schedule.endTime s)%Z) ->
  (0 <= k < 28)%Z ->
  (scheduleQueries.end_ slot <= scheduleQueries.atHour startOfDay 23)%Z ->
  exists data,
    scheduleQueries.getAvailableTimeSlots db q = scheduleQueries.SlotsData data
    /\ (slot ∈ data
        <-> ~ exists id s,
                Db.schedules db !! id = Some s
                /\ Schedule.room s = room
                /\ (Schedule.startTime s < scheduleQueries.end_ slot)%Z
                /\ (Schedule.endTime s > scheduleQueries.start slot)%Z).
Proof.
  intros q slot Hd Hwf Hk Hend.
  unfold scheduleQueries.getAvailableTimeSlots, q.
  cbn [scheduleQueries.theaterId scheduleQueries.roomId
       scheduleQueries.date scheduleQueries.duration].
  eexists. split; [reflexivity|].
  rewrite timeSlots_of_day, filter_elem, timeSlots_loop_elem.
  assert (scheduleQueries.start slot < scheduleQueries.end_ slot)%Z as Hslot.
  { simpl. unfold scheduleQueries.addMinutes. lia. }
  split.
  - intros [_ Hfree] (id & s & Hlookup & Hroom & Hs & He).
    apply negb_true_iff, not_true_iff_false in Hfree. apply Hfree.
    apply existsb_exists. exists (id, s). split.
    + apply list_elem_of_In, find_docs_elem. split; [done|].
      apply (dayQuery_covers room startOfDay s
               (scheduleQueries.start slot) (scheduleQueries.end_ slot));
        [done| | |lia|lia].
      * simpl. unfold scheduleQueries.addMinutes, scheduleQueries.atHour. lia.
      * unfold scheduleQueries.atHour in Hend. lia.
    + apply slotTaken_overlap; [done|by apply (Hwf id)|done].
  - intros Hnone. split.
    + exists (Z.to_nat k). simpl in *.
      unfold scheduleQueries.addMinutes, scheduleQueries.atHour in *.
      split_and!; lia.
    + apply negb_true_iff, not_true_iff_false.
      intros ([id s] & Hin & Htaken)%existsb_exists.
      apply list_elem_of_In, find_docs_elem in Hin as [Hlookup Hq].
      unfold scheduleQueries.dayQuery in Hq.
      apply andb_true_iff in Hq as [Hroom%N.eqb_eq _].
      apply slotTaken_overlap in Htaken; [|done|by apply (Hwf id)].
      apply Hnone. by exists id, s.
Qed.

Lemma getAvailableTimeSlots_grid_witness :
  exists data,
    scheduleQueries.getAvailableTimeSlots slots_db (slots_query 120)
    = scheduleQueries.SlotsData data
    /\ (length data <= 28)%nat
    /\ StronglySorted
         (fun a b => (scheduleQueries.start a < scheduleQueries.start b)%Z)
         data.
Proof.
  eexists. split; [reflexivity|].
  destruct (getAvailableTimeSlots_grid slots_db (slots_query 120) _ eq_refl)
    as (startOfDay & d & _ & _ & _ & Hsorted & Hlength & _).
  by split.
Defined.

(** On the sample day the slot from 12:00 to 14:00 is offered. *)
Lemma getAvailableTimeSlots_free_witness :
  exists data,
    scheduleQueries.getAvailableTimeSlots slots_db (slots_query 120)
    = scheduleQueries.SlotsData data
    /\ scheduleQueries.mkSlot 43200000 50400000 ∈ data.
Proof.
  destruct (getAvailableTimeSlots_free slots_db 2%N 5%N 0 120 6)
    as (data & Hdata & Hfree).
  - lia.
  - intros id s Hlookup _.
    change (({[ 3%N := schedule_of 36000000 43200000 true ]}
               : gmap ObjectId Schedule.t) !! id = Some s) in Hlookup.
    apply lookup_singleton_Some in Hlookup as [_ <-]. simpl. lia.
  - lia.
  - vm_compute. discriminate.
  - exists data. split; [exact Hdata|].
    apply Hfree. intros (id & s & Hlookup & _ & Hs & He).
    change (({[ 3%N := schedule_of 36000000 43200000 true ]}
               : gmap ObjectId Schedule.t) !! id = Some s) in Hlookup.
    apply lookup_singleton_Some in Hlookup as [_ <-].
    vm_compute in Hs. discriminate.
Defined.

Section SlotsAndSchedules.

Import scheduleQueries.

(** A schedule that overlaps a slot takes it, whatever the shapes of the
    two intervals. *)
Lemma overlap_slotTaken (slot : Slot) (show : Schedule.t) :
  (Schedule.startTime show < end_ slot)%Z ->
  (Schedule.endTime show > start slot)%Z ->
  slotTaken slot show = true.
Proof.
  intros Hs He. unfold slotTaken.
  rewrite !orb_true_iff, !andb_true_iff, !Z.geb_le, !Z.leb_le, !Z.ltb_lt,
    Z.gtb_gt.
  lia.
Qed.

(** The slots of an answer: on the grid of the day, and free of every
    fetched show. *)
Lemma getAvailableTimeSlots_data (db : Db.t) (q : SlotsQuery)
    (data : list Slot) (slot : Slot) :
  getAvailableTimeSlots db q = SlotsData data ->
  slot ∈ data ->
  exists room startOfDay,
    roomId q = Some room
    /\ date q = Some startOfDay
    /\ (atHour startOfDay 9 <= start slot)%Z
    /\ (end_ slot <= atHour startOfDay 23)%Z
    /\ forall id s,
         Db.schedules db !! id = Some s ->
         dayQuery room startOfDay (startOfDay + 86399999) s = true ->
         slotTaken slot s = false.
Proof.
  unfold getAvailableTimeSlots.
  destruct (theaterId q) as [theater|]; [|done].
  destruct (roomId q) as [room|]; [|done].
  destruct (date q) as [startOfDay|]; [|done].
  destruct (duration q) as [d|]; [|done].
  intros <-%SlotsData_inj [Hin Hfree]%filter_elem.
  apply timeSlots_loop_elem in Hin as (k & _ & Hs & _ & _ & Hle).
  exists room, startOfDay. split_and!; [done|done|lia|done|].
  intros id s Hlookup Hq.
  apply negb_true_iff in Hfree.
  apply not_true_iff_false. intros Htaken.
  apply not_true_iff_false in Hfree. apply Hfree.
  apply existsb_exists. exists (id, s).
  split; [|done]. apply list_elem_of_In, find_docs_elem. by split.
Qed.

End SlotsAndSchedules.

(** X3. A slot that [getAvailableTimeSlots] offers for a room can be
    scheduled: [createSchedule] for that room over the slot, with a valid
    request and the movie, the theater and the room of the theater found,
    stores the schedule and does not answer with a conflict. *)
Theorem offered_slot_is_accepted (db : Db.t)
    (q : scheduleQueries.SlotsQuery) (data : list scheduleQueries.Slot)
    (slot : scheduleQueries.Slot)
    (req : scheduleController.Request scheduleController.CreateBody.t) :
  let b := scheduleController.body req in
  scheduleQueries.getAvailableTimeSlots db q = scheduleQueries.SlotsData data ->
  slot ∈ data ->
  scheduleQueries.roomId q = Some (scheduleController.CreateBody.roomId b) ->
  scheduleController.CreateBody.startTime b = scheduleQueries.start slot ->
  scheduleController.CreateBody.endTime b = scheduleQueries.end_ slot ->
  scheduleController.validationErrors req = [] ->
  scheduleController.CreateBody.movieId b ∈ Db.movies db ->
  scheduleController.CreateBody.theaterId b ∈ Db.theaters db ->
  (exists room,
      Db.rooms db !! scheduleController.CreateBody.roomId b = Some room
      /\ Room.theater room = scheduleController.CreateBody.theaterId b) ->
  exists id s,
    scheduleController.createSchedule db req
    = (scheduleController.Created id s,
       Db.set_schedules db (<[id := s]> (Db.schedules db)))
    /\ Schedule.startTime s = scheduleQueries.start slot
    /\ Schedule.endTime s = scheduleQueries.end_ slot.
Proof.
  intros b Hdata Hslot Hroomq Hstart Hend Hvalid Hmovie Htheater
         (room & Hroom & Hin).
  destruct (getAvailableTimeSlots_data db q data slot Hdata Hslot)
    as (room' & startOfDay & Hroom' & _ & Hopen & Hclose & Hfree).
  rewrite Hroomq in Hroom'. injection Hroom' as <-.
  unfold scheduleController.createSchedule. fold b.
  rewrite Hvalid.
  rewrite (bool_decide_eq_true_2 _ Hmovie), (bool_decide_eq_true_2 _ Htheater).
  simpl.
  match goal with |- context [findOne ?f (Db.rooms db)] =>
    destruct (findOne f (Db.rooms db)) as [found|] eqn:Hfind
  end.
  2:{ rewrite findOne_None in Hfind. specialize (Hfind _ _ Hroom).
      rewrite N.eqb_refl in Hfind. simpl in Hfind.
      by apply N.eqb_neq in Hfind. }
  match goal with |- context [findOne ?f (Db.schedules db)] =>
    destruct (findOne f (Db.schedules db)) as [[id s]|] eqn:Hconflict
  end.
  - exfalso.
    apply findOne_Some in Hconflict as [Hlookup Hq].
    apply conflictQuery_true in Hq as (Hr & Hs & He).
    rewrite Hstart in He. rewrite Hend in Hs.
    assert (scheduleQueries.slotTaken slot s = true) as Htaken
      by by apply overlap_slotTaken.
    rewrite (Hfree id s Hlookup) in Htaken; [done|].
    apply (dayQuery_covers _ startOfDay s (scheduleQueries.start slot)
             (scheduleQueries.end_ slot)); [done| | |lia|lia].
    + unfold scheduleQueries.atHour in Hopen. lia.
    + unfold scheduleQueries.atHour in Hclose. lia.
  - eexists _, _. split; [reflexivity|]. by split.
Qed.

Lemma offered_slot_is_accepted_witness :
  exists id s,
    scheduleController.createSchedule slots_db
      (create_request 43200000 50400000)
    = (scheduleController.Created id s,
       Db.set_schedules slots_db (<[id := s]> (Db.schedules slots_db)))
    /\ Schedule.startTime s = 43200000%Z
    /\ Schedule.endTime s = 50400000%Z.
Proof.
  apply (offered_slot_is_accepted slots_db (slots_query 120) _
           (scheduleQueries.mkSlot 43200000 50400000)
           (create_request 43200000 50400000) eq_refl).
  - vm_compute. repeat (try apply list_elem_of_here; apply list_elem_of_further).
  - reflexivity.
  - reflexivity.
  - reflexivity.
  - reflexivity.
  - vm_compute. reflexivity.
  - vm_compute. reflexivity.
  - eexists. split; reflexivity.
Defined.

(** ** Schedules of a movie, grouped by day and theater *)

Section Grouping.

Import scheduleQueries.

Variable theaters : gset ObjectId.
Variable rooms : gmap ObjectId Room.t.

Lemma onDayIn_snoc_other (day : Z) (th : ObjectId)
    (seen : list (ObjectId * Schedule.t)) (doc : ObjectId * Schedule.t) :
  ~ (dateKey (Schedule.startTime (snd doc)) = day
     /\ Schedule.theater (snd doc) = th) ->
  onDayIn day th (seen ++ [doc]) = onDayIn day th seen.
Proof.
  intros Hne. unfold onDayIn.
  rewrite filter_app, filter_cons_False, filter_nil by done.
  apply app_nil_r.
Qed.

Lemma onDayIn_snoc_same (seen : list (ObjectId * Schedule.t))
    (doc : ObjectId * Schedule.t) :
  onDayIn (dateKey (Schedule.startTime (snd doc)))
          (Schedule.theater (snd doc)) (seen ++ [doc])
  = onDayIn (dateKey (Schedule.startTime (snd doc)))
            (Schedule.theater (snd doc)) seen ++ [doc].
Proof.
  unfold onDayIn. by rewrite filter_app, filter_cons_True, filter_nil.
Qed.

Lemma grouped_empty : grouped rooms ∅ [].
Proof.
  split.
  - intros day groups H. by rewrite lookup_empty in H.
  - intros doc H. by apply elem_of_nil in H.
Qed.

Lemma groupStep_theater (acc acc' : gmap Z (list TheaterGroup))
    (doc : ObjectId * Schedule.t) :
  groupStep theaters rooms acc doc = Some acc' ->
  Schedule.theater (snd doc) ∈ theaters.
Proof.
  unfold groupStep. case_bool_decide; [done|discriminate].
Qed.

Lemma groupStep_None (acc : gmap Z (list TheaterGroup))
    (doc : ObjectId * Schedule.t) :
  groupStep theaters rooms acc doc = None
  <-> Schedule.theater (snd doc) ∉ theaters.
Proof.
  unfold groupStep. case_bool_decide as Hin.
  - split; [|done].
    destruct (list_find _ _) as [[i g]|]; discriminate.
  - done.
Qed.

(** One step of the [reduce] keeps the accumulator grouped. *)
Lemma groupStep_grouped (acc acc' : gmap Z (list TheaterGroup))
    (seen : list (ObjectId * Schedule.t)) (doc : ObjectId * Schedule.t) :
  grouped rooms acc seen ->
  groupStep theaters rooms acc doc = Some acc' ->
  grouped rooms acc' (seen ++ [doc]).
Proof.
  intros [Hgroups Hseen] Hstep. unfold groupStep in Hstep.
  case_bool_decide as Hin; [|discriminate].
  set (day := dateKey (Schedule.startTime (snd doc))) in *.
  set (th := Schedule.theater (snd doc)) in *.
  assert (forall groups, acc !! day = Some groups ->
                         default [] (acc !! day) = groups) as Hdefault
    by by intros groups ->.
  destruct (list_find (fun t => theater t = th) (default [] (acc !! day)))
    as [[i g0]|] eqn:Hfind.
  - (* the theater has a group under the day *)
    apply list_find_Some in Hfind as (Hi & Hth & _).
    destruct (acc !! day) as [groups|] eqn:Hday; [|done].
    simpl in Hi, Hstep. injection Hstep as <-.
    destruct (Hgroups day groups Hday) as (Hne & Hnodup & Htimes).
    assert (theater <$> alter (fun t => mkGroup (theater t)
                                 (times t ++ [timeEntry rooms doc])) i groups
            = theater <$> groups) as Hsame.
    { rewrite (list_fmap_alter theater _ (fun x => x)).
      - by apply list_alter_id.
      - by apply Forall_forall. }
    split.
    + intros day' groups' Hlookup.
      apply lookup_insert_Some in Hlookup as [[<- <-]|[Hneq Hlookup]].
      * split_and!.
        -- intros Hnil. apply (f_equal length) in Hnil.
           rewrite length_alter in Hnil. by destruct groups.
        -- by rewrite Hsame.
        -- intros g [j Hj]%list_elem_of_lookup.
           rewrite list_lookup_alter in Hj.
           destruct (decide (i = j)) as [<-|Hij].
           ++ rewrite Hi in Hj. injection Hj as <-. simpl.
              split; [by destruct (times g0)|].
              destruct (Htimes g0) as [_ ->];
                [by apply list_elem_of_lookup_2 in Hi|].
              rewrite Hth. unfold day, th.
              rewrite onDayIn_snoc_same, fmap_app. reflexivity.
           ++ destruct (Htimes g) as [Hne' Heq];
                [by apply list_elem_of_lookup_2 in Hj|].
              split; [done|].
              rewrite onDayIn_snoc_other; [done|].
              intros [_ Hth'].
              apply Hij.
              apply (NoDup_lookup (theater <$> groups) i j (theater g));
                [done| |].
              ** rewrite list_lookup_fmap, Hi. simpl. f_equal.
                 rewrite Hth. exact Hth'.
              ** by rewrite list_lookup_fmap, Hj.
      * destruct (Hgroups day' groups' Hlookup) as (Hne' & Hnodup' & Htimes').
        split_and!; [done|done|].
        intros g Hg. destruct (Htimes' g Hg) as [? Heq]. split; [done|].
        rewrite onDayIn_snoc_other; [done|]. intros [? _]. by apply Hneq.
    + intros doc' [Hdoc'|Hdoc']%elem_of_app.
      * destruct (Hseen doc' Hdoc') as (groups' & g & Hlookup & Hg & Hgth).
        destruct (decide (dateKey (Schedule.startTime (snd doc')) = day))
          as [Heq|Hneq].
        -- rewrite Heq in *. rewrite Hday in Hlookup. injection Hlookup as <-.
           apply list_elem_of_lookup in Hg as [j Hj].
           assert ((theater <$> alter (fun t => mkGroup (theater t)
                                         (times t ++ [timeEntry rooms doc]))
                                      i groups) !! j = Some (theater g))
             as Hlook by by rewrite Hsame, list_lookup_fmap, Hj.
           rewrite list_lookup_fmap in Hlook.
           destruct (alter _ i groups !! j) as [g'|] eqn:Hg'; [|done].
           simpl in Hlook. injection Hlook as Hlook.
           eexists _, g'. rewrite lookup_insert_eq. split; [done|].
           split; [by apply list_elem_of_lookup_2 in Hg'|].
           by rewrite Hlook.
        -- exists groups', g. by rewrite lookup_insert_ne.
      * apply list_elem_of_singleton in Hdoc' as ->. fold day.
        eexists _, _. rewrite lookup_insert_eq. split; [done|].
        split.
        -- apply list_elem_of_lookup. exists i.
           by rewrite list_lookup_alter, decide_True, Hi.
        -- done.
  - (* a new group for the theater *)
    apply list_find_None in Hfind.
    injection Hstep as <-.
    set (groups := default [] (acc !! day)) in *.
    assert (groups <> [] -> acc !! day = Some groups) as Hsome.
    { unfold groups. destruct (acc !! day); [done|]. by intros []. }
    assert (forall g, g ∈ groups -> acc !! day = Some groups) as Hsome'.
    { intros g Hg. apply Hsome. by intros ->; apply elem_of_nil in Hg. }
    assert (onDayIn day th seen = []) as Hfresh.
    { destruct (onDayIn day th seen) as [|doc' rest] eqn:Hfilter; [done|].
      assert (doc' ∈ onDayIn day th seen) as Hdoc'
        by (rewrite Hfilter; apply list_elem_of_here).
      apply list_elem_of_filter in Hdoc' as [[Hd Ht] Hdoc'].
      destruct (Hseen doc' Hdoc') as (groups' & g & Hlookup & Hg & Hgth).
      rewrite Hd in Hlookup.
      assert (groups' = groups) as -> by (unfold groups; by rewrite Hlookup).
      exfalso. apply (proj1 (Forall_forall _ _) Hfind g Hg). congruence. }
    split.
    + intros day' groups' Hlookup.
      apply lookup_insert_Some in Hlookup as [[<- <-]|[Hneq Hlookup]].
      * split_and!.
        -- by destruct groups.
        -- rewrite fmap_app. apply NoDup_app. split_and!.
           ++ destruct groups as [|g rest] eqn:Hg; [constructor|].
              by apply (Hgroups day (g :: rest)), Hsome.
           ++ intros t (g & -> & Hg)%list_elem_of_fmap
                     Ht%list_elem_of_singleton.
              by apply (proj1 (Forall_forall _ _) Hfind g Hg).
           ++ apply NoDup_singleton.
        -- intros g [Hg|Hg]%elem_of_app.
           ++ destruct (Hgroups day groups (Hsome' g Hg)) as (_ & _ & Htimes).
              destruct (Htimes g Hg) as [? Heq]. split; [done|].
              rewrite onDayIn_snoc_other; [done|]. intros [_ Ht].
              by apply (proj1 (Forall_forall _ _) Hfind g Hg).
           ++ apply list_elem_of_singleton in Hg as ->. simpl.
              split; [done|]. unfold day, th.
              rewrite onDayIn_snoc_same. fold day th. by rewrite Hfresh.
      * destruct (Hgroups day' groups' Hlookup) as (Hne' & Hnodup' & Htimes').
        split_and!; [done|done|].
        intros g Hg. destruct (Htimes' g Hg) as [? Heq]. split; [done|].
        rewrite onDayIn_snoc_other; [done|]. intros [? _]. by apply Hneq.
    + intros doc' [Hdoc'|Hdoc']%elem_of_app.
      * destruct (Hseen doc' Hdoc') as (groups' & g & Hlookup & Hg & Hgth).
        destruct (decide (dateKey (Schedule.startTime (snd doc')) = day))
          as [Heq|Hneq].
        -- rewrite Heq in *.
           assert (groups' = groups) as ->
             by (unfold groups; by rewrite Hlookup).
           eexists _, g. rewrite lookup_insert_eq. split; [done|].
           split; [|done]. apply elem_of_app. by left.
        -- exists groups', g. by rewrite lookup_insert_ne.
      * apply list_elem_of_singleton in Hdoc' as ->. fold day.
        eexists _, _. rewrite lookup_insert_eq. split; [done|].
        split; [apply elem_of_app; right; apply list_elem_of_here|done].
Qed.

Lemma groupSchedules_grouped (schedules seen : list (ObjectId * Schedule.t))
    (acc result : gmap Z (list TheaterGroup)) :
  grouped rooms acc seen ->
  groupSchedules theaters rooms acc schedules = Some result ->
  grouped rooms result (seen ++ schedules).
Proof.
  revert acc seen. induction schedules as [|doc rest IH]; intros acc seen Hacc.
  - simpl. intros [= <-]. by rewrite app_nil_r.
  - simpl. destruct (groupStep theaters rooms acc doc) as [acc'|] eqn:Hstep;
      [|done].
    intros Hrest. rewrite cons_middle, app_assoc.
    apply (IH acc'); [|done].
    by apply (groupStep_grouped acc).
Qed.

Lemma groupSchedules_None (schedules : list (ObjectId * Schedule.t))
    (acc : gmap Z (list TheaterGroup)) :
  groupSchedules theaters rooms acc schedules = None
  <-> exists doc, doc ∈ schedules /\ Schedule.theater (snd doc) ∉ theaters.
Proof.
  revert acc. induction schedules as [|doc rest IH]; intros acc; simpl.
  - split; [done|]. by intros (doc & ?%elem_of_nil & _).
  - destruct (groupStep theaters rooms acc doc) as [acc'|] eqn:Hstep.
    + rewrite IH. apply groupStep_theater in Hstep. split.
      * intros (doc' & Hin & Hmiss). exists doc'.
        split; [by apply list_elem_of_further|done].
      * intros (doc' & [->|Hin]%elem_of_cons & Hmiss); [done|].
        by exists doc'.
    + split; [|done]. intros _. exists doc.
      split; [apply list_elem_of_here|by apply groupStep_None in Hstep].
Qed.

End Grouping.

Section ByMovie.

Import scheduleQueries.

(** The schedules the handler fetches. *)
Lemma byMovie_fetched (db : Db.t) (now : Date) (movieId : ObjectId)
    (q : ByMovieQuery) (doc : ObjectId * Schedule.t) :
  doc ∈ merge_sort byStartTime
          (find_docs (fun _ s => byMovieFilter now movieId q s)
                     (Db.schedules db))
  <-> Db.schedules db !! fst doc = Some (snd doc)
      /\ byMovieFilter now movieId q (snd doc) = true.
Proof.
  rewrite merge_sort_Permutation. destruct doc as [id s].
  by rewrite find_docs_elem.
Qed.

Lemma onDayIn_sorted (day : Z) (th : ObjectId)
    (docs : list (ObjectId * Schedule.t)) :
  StronglySorted byStartTime docs ->
  StronglySorted byStartTime (onDayIn day th docs).
Proof.
  induction 1 as [|doc docs Hdocs IH Hall]; [constructor|].
  unfold onDayIn. rewrite filter_cons. case_decide; [|done].
  constructor; [done|].
  apply Forall_forall. intros doc' [_ Hin]%list_elem_of_filter.
  by apply (proj1 (Forall_forall _ _) Hall).
Qed.

Lemma NoDup_fmap_filter {A B : Type} (f : A -> B) (P : A -> Prop)
    `{forall x, Decision (P x)} (l : list A) :
  NoDup (f <$> l) -> NoDup (f <$> filter P l).
Proof.
  intros Hnd.
  apply (sublist_NoDup (f <$> filter P l) (f <$> l)); [done|].
  apply fmap_sublist, sublist_filter.
Qed.

Lemma find_docs_NoDup {A : Type} (query : ObjectId -> A -> bool)
    (c : gmap ObjectId A) :
  NoDup (fst <$> find_docs query c).
Proof.
  unfold find_docs.
  assert (forall (f : ObjectId * A -> bool) l,
             List.filter f l `sublist_of` l) as Hsub.
  { intros f l. induction l as [|x l IH]; simpl; [constructor|].
    destruct (f x); by constructor. }
  apply (sublist_NoDup _ (fst <$> map_to_list c));
    [apply NoDup_fst_map_to_list|apply fmap_sublist, Hsub].
Qed.

(** An answer of the handler is the grouping of the fetched schedules. *)
Lemma byMovie_grouped (db : Db.t) (now : Date) (movieId : ObjectId)
    (q : ByMovieQuery) (data : gmap Z (list TheaterGroup)) :
  getSchedulesByMovie db now movieId q = Grouped data ->
  grouped (Db.rooms db) data
    (merge_sort byStartTime
       (find_docs (fun _ s => byMovieFilter now movieId q s)
                  (Db.schedules db))).
Proof.
  unfold getSchedulesByMovie.
  set (fetched := merge_sort _ _).
  destruct (groupSchedules _ _ ∅ fetched) as [result|] eqn:Hfold; [|done].
  intros [= <-].
  by apply (groupSchedules_grouped _ _ fetched [] ∅) in Hfold;
    [|apply grouped_empty].
Qed.

(** An entry of an answer is a fetched schedule. *)
Lemma byMovie_listed (db : Db.t) (now : Date) (movieId : ObjectId)
    (q : ByMovieQuery) (data : gmap Z (list TheaterGroup))
    (day : Z) (groups : list TheaterGroup) (g : TheaterGroup)
    (e : TimeEntry) :
  getSchedulesByMovie db now movieId q = Grouped data ->
  data !! day = Some groups -> g ∈ groups -> e ∈ times g ->
  exists s,
    Db.schedules db !! scheduleId e = Some s
    /\ byMovieFilter now movieId q s = true
    /\ dateKey (Schedule.startTime s) = day
    /\ Schedule.theater s = theater g
    /\ e = timeEntry (Db.rooms db) (scheduleId e, s).
Proof.
  intros [Hgroups _]%byMovie_grouped Hday Hg.
  destruct (Hgroups _ _ Hday) as (_ & _ & Htimes).
  destruct (Htimes g Hg) as [_ ->].
  intros ([id s] & -> & [[Hd Ht] Hin]%list_elem_of_filter)%list_elem_of_fmap.
  apply byMovie_fetched in Hin as [Hlookup Hfilter].
  exists s. by split_and!.
Qed.

End ByMovie.

(** X4. When [getSchedulesByMovie] answers, every fetched schedule is
    listed under its own UTC day and theater; under a day the groups are
    not empty and their theaters are pairwise distinct; and the times of a
    group are schedules of that day and theater, each listed once, in
    ascending order of their start. *)
Theorem getSchedulesByMovie_groups (db : Db.t) (now : Date)
    (movieId : ObjectId) (q : scheduleQueries.ByMovieQuery)
    (data : gmap Z (list scheduleQueries.TheaterGroup)) :
  scheduleQueries.getSchedulesByMovie db now movieId q
  = scheduleQueries.Grouped data ->
  (forall id s,
      Db.schedules db !! id = Some s ->
      scheduleQueries.byMovieFilter now movieId q s = true ->
      exists groups g,
        data !! scheduleQueries.dateKey (Schedule.startTime s) = Some groups
        /\ g ∈ groups
        /\ scheduleQueries.theater g = Schedule.theater s
        /\ scheduleQueries.timeEntry (Db.rooms db) (id, s)
           ∈ scheduleQueries.times g)
  /\ (forall day groups,
        data !! day = Some groups ->
        groups <> []
        /\ NoDup (scheduleQueries.theater <$> groups)
        /\ forall g, g ∈ groups ->
             scheduleQueries.times g <> []
             /\ StronglySorted
                  (fun a b => (scheduleQueries.time a
                               <= scheduleQueries.time b)%Z)
                  (scheduleQueries.times g)
             /\ NoDup (scheduleQueries.scheduleId
                         <$> scheduleQueries.times g)
             /\ forall e, e ∈ scheduleQueries.times g ->
                  exists s,
                    Db.schedules db !! scheduleQueries.scheduleId e = Some s
                    /\ scheduleQueries.byMovieFilter now movieId q s = true
                    /\ scheduleQueries.dateKey (Schedule.startTime s) = day
                    /\ Schedule.theater s = scheduleQueries.theater g
                    /\ e = scheduleQueries.timeEntry
                             (Db.rooms db)
                             (scheduleQueries.scheduleId e, s)).
Proof.
  intros Hanswer.
  pose proof (byMovie_grouped _ _ _ _ _ Hanswer) as [Hgroups Hseen].
  set (fetched := merge_sort _ _) in *.
  assert (StronglySorted scheduleQueries.byStartTime fetched) as Hsorted.
  { apply StronglySorted_merge_sort; apply _. }
  assert (NoDup (fst <$> fetched)) as Hnodup.
  { unfold fetched. rewrite merge_sort_Permutation. apply find_docs_NoDup. }
  split.
  - intros id s Hlookup Hfilter.
    assert ((id, s) ∈ fetched) as Hin by by apply byMovie_fetched.
    destruct (Hseen _ Hin) as (groups & g & Hday & Hg & Hth).
    exists groups, g. split_and!; [done..|].
    destruct (Hgroups _ _ Hday) as (_ & _ & Htimes).
    destruct (Htimes g Hg) as [_ ->].
    apply list_elem_of_fmap_2, list_elem_of_filter. by split.
  - intros day groups Hday.
    destruct (Hgroups _ _ Hday) as (Hne & Hnd & Htimes).
    split_and!; [done|done|].
    intros g Hg. destruct (Htimes g Hg) as [Hne' Heq].
    split_and!; [done| | |].
    + rewrite Heq.
      apply (StronglySorted_fmap _ scheduleQueries.byStartTime);
        [done|by apply onDayIn_sorted].
    + rewrite Heq, <- list_fmap_compose.
      by apply (NoDup_fmap_filter fst).
    + intros e He. by apply (byMovie_listed db now movieId q data day groups).
Qed.

(** X5. [getSchedulesByMovie] answers with the server error exactly when
    one of the fetched schedules refers to a theater that no longer
    exists. *)
Theorem getSchedulesByMovie_missing_theater (db : Db.t) (now : Date)
    (movieId : ObjectId) (q : scheduleQueries.ByMovieQuery) :
  scheduleQueries.getSchedulesByMovie db now movieId q
  = scheduleQueries.GroupingFailed
  <-> exists id s,
        Db.schedules db !! id = Some s
        /\ scheduleQueries.byMovieFilter now movieId q s = true
        /\ Schedule.theater s ∉ Db.theaters db.
Proof.
  unfold scheduleQueries.getSchedulesByMovie.
  set (fetched := merge_sort _ _).
  destruct (scheduleQueries.groupSchedules _ _ ∅ fetched) as [result|]
    eqn:Hfold.
  - split; [done|]. intros (id & s & Hlookup & Hfilter & Hmiss).
    assert (scheduleQueries.groupSchedules (Db.theaters db) (Db.rooms db)
              ∅ fetched = None) as Hnone.
    { apply groupSchedules_None. exists (id, s).
      split; [by apply byMovie_fetched|done]. }
    congruence.
  - split; [|done]. intros _.
    apply groupSchedules_None in Hfold as ([id s] & Hin & Hmiss).
    apply byMovie_fetched in Hin as [Hlookup Hfilter].
    by exists id, s.
Qed.

Lemma getSchedulesByMovie_groups_witness :
  exists data,
    scheduleQueries.getSchedulesByMovie two_days_db 0 1%N
      (scheduleQueries.mkByMovieQuery None None)
    = scheduleQueries.Grouped data
    /\ forall day groups,
         data !! day = Some groups ->
         groups <> [] /\ NoDup (scheduleQueries.theater <$> groups).
Proof.
  destruct (scheduleQueries.getSchedulesByMovie two_days_db 0 1%N
              (scheduleQueries.mkByMovieQuery None None))
    as [data|] eqn:Hanswer; [|vm_compute in Hanswer; discriminate].
  exists data. split; [reflexivity|].
  intros day groups Hday.
  destruct (getSchedulesByMovie_groups _ _ _ _ _ Hanswer) as [_ Hgroups].
  destruct (Hgroups day groups Hday) as (Hne & Hnodup & _).
  by split.
Defined.

(** X6. With a [date] in the request the bound [startTime >= now] is
    replaced by the bounds of that day: the answer does not depend on the
    current time, and schedules of that day that have already started are
    listed. Without a [date] every listed schedule starts at [now] or
    later. *)
Theorem getSchedulesByMovie_date_replaces_now (db : Db.t) (now : Date)
    (movieId : ObjectId) (q : scheduleQueries.ByMovieQuery) :
  (forall startOfDay,
      scheduleQueries.onDate q = Some startOfDay ->
      (forall now',
          scheduleQueries.getSchedulesByMovie db now' movieId q
          = scheduleQueries.getSchedulesByMovie db now movieId q)
      /\ forall data day groups g e,
           scheduleQueries.getSchedulesByMovie db now movieId q
           = scheduleQueries.Grouped data ->
           data !! day = Some groups -> g ∈ groups ->
           e ∈ scheduleQueries.times g ->
           (startOfDay <= scheduleQueries.time e <= startOfDay + 86399999)%Z)
  /\ (scheduleQueries.onDate q = None ->
      forall data day groups g e,
        scheduleQueries.getSchedulesByMovie db now movieId q
        = scheduleQueries.Grouped data ->
        data !! day = Some groups -> g ∈ groups ->
        e ∈ scheduleQueries.times g ->
        (now <= scheduleQueries.time e)%Z).
Proof.
  assert (forall data day groups g e,
             scheduleQueries.getSchedulesByMovie db now movieId q
             = scheduleQueries.Grouped data ->
             data !! day = Some groups -> g ∈ groups ->
             e ∈ scheduleQueries.times g ->
             exists s,
               scheduleQueries.byMovieFilter now movieId q s = true
               /\ scheduleQueries.time e = Schedule.startTime s) as Hlisted.
  { intros data day groups g e Hanswer Hday Hg He.
    destruct (byMovie_listed _ _ _ _ _ _ _ _ _ Hanswer Hday Hg He)
      as (s & _ & Hfilter & _ & _ & ->).
    by exists s. }
  split.
  - intros startOfDay Hdate. split.
    + intros now'. unfold scheduleQueries.getSchedulesByMovie,
        scheduleQueries.byMovieFilter. by rewrite Hdate.
    + intros data day groups g e Hanswer Hday Hg He.
      destruct (Hlisted _ _ _ _ _ Hanswer Hday Hg He) as (s & Hfilter & ->).
      unfold scheduleQueries.byMovieFilter in Hfilter. rewrite Hdate in Hfilter.
      rewrite !andb_true_iff, Z.geb_le, Z.leb_le in Hfilter. lia.
  - intros Hdate data day groups g e Hanswer Hday Hg He.
    destruct (Hlisted _ _ _ _ _ Hanswer Hday Hg He) as (s & Hfilter & ->).
    unfold scheduleQueries.byMovieFilter in Hfilter. rewrite Hdate in Hfilter.
    rewrite !andb_true_iff, Z.geb_le in Hfilter. lia.
Qed.

(** ** Pages of the booking history *)

Section Pages.

Import userBookings.

Lemma ceilDiv_lt (total limit p : nat) :
  (0 < limit)%nat ->
  (p < ceilDiv total limit)%nat <-> (p * limit < total)%nat.
Proof.
  intros Hlimit. unfold ceilDiv.
  pose proof (Nat.div_mod_eq total limit) as Hdiv.
  pose proof (Nat.mod_upper_bound total limit) as Hmod.
  destruct (Nat.eqb_spec (total mod limit) 0) as [Hz|Hnz]; nia.
Qed.

(** Pages of [n] elements, taken one after the other, give the list back. *)
Lemma pages_concat {A : Type} (l : list A) (n k : nat) :
  concat ((fun p => take n (drop (p * n) l)) <$> seq 0 k) = take (k * n) l.
Proof.
  induction k as [|k IH]; [done|].
  rewrite seq_S, fmap_app, concat_app, IH. simpl.
  rewrite app_nil_r, take_take_drop. f_equal. lia.
Qed.

Variable sort : string -> list (ObjectId * Stored) -> list (ObjectId * Stored).
Variable endOfDay : Date -> Date.
Hypothesis sort_Permutation : forall by_ l, sort by_ l ≡ₚ l.

Lemma history_onPage_eq (c : gmap ObjectId Stored) (userId : ObjectId)
    (options : Options) (p : positive) :
  history sort endOfDay c userId (onPage options p)
  = history sort endOfDay c userId options.
Proof. reflexivity. Qed.

Lemma bookings_page (c : gmap ObjectId Stored) (userId : ObjectId)
    (options : Options) :
  bookings (getUserBookings sort endOfDay c userId options)
  = take (Pos.to_nat (limit options))
         (drop ((Pos.to_nat (page options) - 1) * Pos.to_nat (limit options))
               (history sort endOfDay c userId options)).
Proof. reflexivity. Qed.

Lemma total_history (c : gmap ObjectId Stored) (userId : ObjectId)
    (options : Options) :
  total (pagination (getUserBookings sort endOfDay c userId options))
  = length (history sort endOfDay c userId options).
Proof. unfold history. by rewrite sort_Permutation. Qed.

Lemma history_elem (c : gmap ObjectId Stored) (userId : ObjectId)
    (options : Options) (id : ObjectId) (b : Stored) :
  (id, b) ∈ history sort endOfDay c userId options
  <-> c !! id = Some b /\ matches endOfDay userId options b = true.
Proof. unfold history. by rewrite sort_Permutation, find_docs_elem. Qed.

Lemma history_NoDup (c : gmap ObjectId Stored) (userId : ObjectId)
    (options : Options) :
  NoDup (fst <$> history sort endOfDay c userId options).
Proof.
  unfold history. rewrite sort_Permutation. apply find_docs_NoDup.
Qed.

Lemma page_length (c : gmap ObjectId Stored) (userId : ObjectId)
    (options : Options) :
  length (bookings (getUserBookings sort endOfDay c userId options))
  = Nat.min (Pos.to_nat (limit options))
      (total (pagination (getUserBookings sort endOfDay c userId options))
       - (Pos.to_nat (page options) - 1) * Pos.to_nat (limit options)).
Proof.
  rewrite total_history, bookings_page, length_take, length_drop. done.
Qed.

(** X7: a page of [getUserBookings] holds at most [limit] bookings, each of
    them a stored booking of the user that passes the status and date
    filters of the request, and no booking twice; [total] does not depend
    on the page: it counts the stored bookings that pass, each once. *)
Theorem getUserBookings_page (c : gmap ObjectId Stored) (userId : ObjectId)
    (options : Options) :
  let r := getUserBookings sort endOfDay c userId options in
  (length (bookings r) <= Pos.to_nat (limit options))%nat
  /\ NoDup (fst <$> bookings r)
  /\ (forall id b, (id, b) ∈ bookings r ->
        c !! id = Some b
        /\ Reservation.user (doc b) = userId
        /\ (forall s, status options = Some s -> s <> "" ->
              status_name (Reservation.status (doc b)) = s)
        /\ (forall from, fromDate options = Some from ->
              (from <= createdAt b)%Z)
        /\ (forall to, toDate options = Some to ->
              (createdAt b <= endOfDay to)%Z))
  /\ (exists passing : list (ObjectId * Stored),
        total (pagination r) = length passing
        /\ NoDup (fst <$> passing)
        /\ forall id b, (id, b) ∈ passing
             <-> c !! id = Some b
                 /\ matches endOfDay userId options b = true)
  /\ (forall p, total (pagination
        (getUserBookings sort endOfDay c userId (onPage options p)))
      = total (pagination r)).
Proof.
  intros r. split_and!.
  - unfold r. rewrite page_length. lia.
  - unfold r. rewrite bookings_page.
    eapply sublist_NoDup; [apply history_NoDup|].
    apply fmap_sublist. etrans; [apply sublist_take|apply sublist_drop].
  - intros id b Hin. unfold r in Hin. rewrite bookings_page in Hin.
    apply elem_of_take in Hin as (i & Hi & _).
    rewrite lookup_drop in Hi.
    apply list_elem_of_lookup_2 in Hi.
    apply history_elem in Hi as [Hc Hm]. split; [done|].
    unfold matches in Hm.
    apply andb_prop in Hm as [Hm Hto]. apply andb_prop in Hm as [Hm Hfrom].
    apply andb_prop in Hm as [Huser Hstatus].
    split_and!.
    + by apply N.eqb_eq.
    + intros s Hs Hne. rewrite Hs in Hstatus.
      apply orb_prop in Hstatus as [He|He].
      * by apply String.eqb_eq in He.
      * by apply String.eqb_eq in He.
    + intros from Hf. rewrite Hf in Hfrom. lia.
    + intros to Ht. rewrite Ht in Hto. lia.
  - exists (history sort endOfDay c userId options). split_and!.
    + apply total_history.
    + apply history_NoDup.
    + apply history_elem.
  - done.
Qed.

(** X8: the pages of a request cut its history without loss or overlap:
    pages 1 to [totalPages], one after the other, are the whole sorted
    result of the query; each of them is non-empty, all but the last hold
    exactly [limit] bookings, and every page after [totalPages] is
    empty. *)
Theorem getUserBookings_pages (c : gmap ObjectId Stored) (userId : ObjectId)
    (options : Options) :
  let pageOf p :=
    bookings (getUserBookings sort endOfDay c userId
                (onPage options (Pos.of_nat p))) in
  let pages :=
    totalPages (pagination (getUserBookings sort endOfDay c userId options)) in
  concat (pageOf <$> seq 1 pages) = history sort endOfDay c userId options
  /\ (forall p, (1 <= p <= pages)%nat -> pageOf p <> [])
  /\ (forall p, (1 <= p < pages)%nat ->
        length (pageOf p) = Pos.to_nat (limit options))
  /\ (forall p, (pages < p)%nat -> pageOf p = []).
Proof.
  intros pageOf pages.
  pose proof (Pos2Nat.is_pos (limit options)) as Hlimit.
  set (n := Pos.to_nat (limit options)) in *.
  set (l := history sort endOfDay c userId options).
  assert (pages = ceilDiv (length l) n) as Hpages.
  { unfold pages. cbn [getUserBookings pagination totalPages].
    fold (history sort endOfDay c userId options).
    unfold l, history. by rewrite sort_Permutation. }
  assert (forall p, (1 <= p)%nat -> pageOf p = take n (drop ((p - 1) * n) l))
    as HpageOf.
  { intros p Hp. unfold pageOf. rewrite bookings_page.
    cbn [onPage page limit]. rewrite Nat2Pos.id by lia. done. }
  split_and!.
  - rewrite <- (fmap_S_seq 0), <- list_fmap_compose.
    erewrite (list_fmap_ext _ (fun p => take n (drop (p * n) l))).
    + rewrite pages_concat. apply take_ge.
      destruct (decide (pages * n < length l)%nat) as [Hlt|]; [|lia].
      apply ceilDiv_lt in Hlt; [|done]. lia.
    + intros i p _. simpl. rewrite HpageOf by lia.
      by replace (S p - 1)%nat with p by lia.
  - intros p Hp. rewrite HpageOf by lia. intros Hnil.
    apply (f_equal length) in Hnil.
    rewrite length_take, length_drop in Hnil. simpl in Hnil.
    assert (p - 1 < ceilDiv (length l) n)%nat as Hlt by lia.
    apply ceilDiv_lt in Hlt; [|done]. lia.
  - intros p Hp. rewrite HpageOf by lia.
    rewrite length_take, length_drop.
    assert (p < ceilDiv (length l) n)%nat as Hlt by lia.
    apply ceilDiv_lt in Hlt; [|done]. nia.
  - intros p Hp. rewrite HpageOf by lia.
    rewrite drop_ge; [by rewrite take_nil|].
    destruct (decide ((p - 1) * n < length l)%nat) as [Hlt|]; [|lia].
    apply ceilDiv_lt in Hlt; [|done]. lia.
Qed.

(** X9: [hasNextPage] says whether the next page holds a booking, and
    [hasPrevPage] whether the page is not the first. *)
Theorem getUserBookings_flags (c : gmap ObjectId Stored) (userId : ObjectId)
    (options : Options) :
  let r := getUserBookings sort endOfDay c userId options in
  (hasNextPage (pagination r) = true
   <-> bookings (getUserBookings sort endOfDay c userId
                   (onPage options (Pos.succ (page options)))) <> [])
  /\ (hasNextPage (pagination r) = true
      <-> (Pos.to_nat (page options) * Pos.to_nat (limit options)
           < total (pagination r))%nat)
  /\ (hasPrevPage (pagination r) = true <-> page options <> 1%positive).
Proof.
  intros r.
  pose proof (Pos2Nat.is_pos (limit options)) as Hlimit.
  pose proof (Pos2Nat.is_pos (page options)) as Hpage.
  assert (hasNextPage (pagination r) = true
          <-> (Pos.to_nat (page options) * Pos.to_nat (limit options)
               < total (pagination r))%nat) as Hnext.
  { unfold r. cbn [getUserBookings pagination hasNextPage total].
    rewrite Nat.ltb_lt. by apply ceilDiv_lt. }
  split_and!; [|done|].
  - rewrite Hnext. unfold r. rewrite total_history, bookings_page.
    cbn [onPage page limit]. rewrite Pos2Nat.inj_succ.
    replace (S (Pos.to_nat (page options)) - 1)%nat
      with (Pos.to_nat (page options)) by lia.
    rewrite (history_onPage_eq c userId options).
    set (l := history sort endOfDay c userId options).
    set (k := (Pos.to_nat (page options) * Pos.to_nat (limit options))%nat).
    split.
    + intros Hlt Hnil. apply (f_equal length) in Hnil.
      rewrite length_take, length_drop in Hnil. simpl in Hnil. lia.
    + intros Hne. destruct (decide (k < length l)%nat) as [|Hge]; [done|].
      destruct Hne. rewrite drop_ge by lia. by rewrite take_nil.
  - unfold r. cbn [getUserBookings pagination hasPrevPage].
    rewrite Nat.ltb_lt. split.
    + intros Hlt He. rewrite He in Hlt. simpl in Hlt. lia.
    + intros Hne.
      destruct (decide (Pos.to_nat (page options) = 1)%nat) as [He|]; [|lia].
      destruct Hne. apply Pos2Nat.inj. by rewrite He.
Qed.

End Pages.

Lemma stored_order_Permutation (by_ : string)
    (l : list (ObjectId * userBookings.Stored)) :
  stored_order by_ l ≡ₚ l.
Proof. reflexivity. Qed.

Lemma getUserBookings_page_witness :
  let r := userBookings.getUserBookings stored_order last_instant
             history_db 7%N (two_a_page 2) in
  (length (userBookings.bookings r) <= 2)%nat
  /\ NoDup (fst <$> userBookings.bookings r).
Proof.
  destruct (getUserBookings_page stored_order last_instant
              stored_order_Permutation history_db 7%N (two_a_page 2))
    as (Hlen & Hnodup & _).
  split; [exact Hlen|exact Hnodup].
Defined.

Lemma getUserBookings_pages_witness :
  concat ((fun p => userBookings.bookings
             (userBookings.getUserBookings stored_order last_instant
                history_db 7%N
                (userBookings.onPage (two_a_page 1) (Pos.of_nat p))))
          <$> seq 1 2)
  = userBookings.history stored_order last_instant history_db 7%N
      (two_a_page 1).
Proof.
  destruct (getUserBookings_pages stored_order last_instant
              stored_order_Permutation history_db 7%N (two_a_page 1))
    as (Hconcat & _).
  exact Hconcat.
Defined.

Lemma getUserBookings_flags_witness :
  userBookings.hasNextPage
    (userBookings.pagination
       (userBookings.getUserBookings stored_order last_instant
          history_db 7%N (two_a_page 1))) = true
  /\ userBookings.bookings
       (userBookings.getUserBookings stored_order last_instant
          history_db 7%N (two_a_page 2)) <> [].
Proof.
  destruct (getUserBookings_flags stored_order last_instant
              stored_order_Permutation history_db 7%N (two_a_page 1))
    as ([Hnext _] & _).
  split; [reflexivity|]. apply Hnext. reflexivity.
Defined.

(** ** Totals under the validators of the schema *)

Section Totals.
Local Open Scope Q_scope.

Lemma seat_prices_nonneg (seats : list SeatLine.t) :
  Forall (fun seat => forall p, SeatLine.price seat = Some p -> 0 <= p)
         seats ->
  0 <= foldr (fun seat sum => default 0 (SeatLine.price seat) + sum) 0 seats.
Proof.
  induction 1 as [|seat seats Hseat _ IH]; simpl; [lra|].
  destruct (SeatLine.price seat) as [p|]; simpl.
  - specialize (Hseat p eq_refl). lra.
  - lra.
Qed.

Lemma combo_prices_nonneg (combos : list ComboLine.t) :
  Forall (fun combo =>
            (forall p, ComboLine.price combo = Some p -> 0 <= p)
            /\ (forall n, ComboLine.quantity combo = Some n -> 1 <= n))
         combos ->
  0 <= foldr (fun combo sum =>
                default 0 (ComboLine.price combo)
                * default 0 (ComboLine.quantity combo) + sum) 0 combos.
Proof.
  induction 1 as [|combo combos [Hp Hn] _ IH]; simpl; [lra|].
  destruct (ComboLine.price combo) as [p|],
           (ComboLine.quantity combo) as [n|]; simpl; try lra.
  specialize (Hp p eq_refl). specialize (Hn n eq_refl). nra.
Qed.

Lemma fixed_discount_bounds (subtotal d : Q) (v : Voucher.t) :
  0 <= subtotal ->
  Voucher.discountType v = fixed ->
  (forall value, Voucher.discountValue v = Some value -> 0 <= value) ->
  voucher_discount (Js.Fin subtotal) (Some v) = Js.Fin d ->
  0 <= d <= subtotal.
Proof.
  intros Hsub Hfixed Hvalue. unfold voucher_discount. rewrite Hfixed.
  destruct (Voucher.discountValue v) as [value|]; simpl;
    [|intros [= <-]; lra].
  specialize (Hvalue value eq_refl).
  destruct (Qeq_bool value 0); simpl; intros [= <-]; [lra|].
  split; [apply Q.min_glb; lra|apply Q.le_min_r].
Qed.

End Totals.

(** X10. On a document that passes the validators of the schema (prices,
    tax and service fee not negative, quantities at least 1, the voucher's
    [discountValue] not negative), whose amounts are whole numbers that add
    up to at most 2^53, so that the Numbers of the code carry out the
    arithmetic without rounding, and whose voucher is [fixed] or absent:
    [calculateTotals] stores a subtotal, a discount and a total that are
    not negative, the discount is at most the subtotal, and the total is
    [subtotal - discount + tax + serviceFee] as it stands: the clamp at 0
    does not act. *)
Theorem calculateTotals_valid (this : Reservation.t) :
  Forall (fun seat => forall p, SeatLine.price seat = Some p ->
                        (0 <= p)%Q /\ Js.whole p)
         (Reservation.seats this) ->
  Forall (fun combo =>
            (forall p, ComboLine.price combo = Some p ->
               (0 <= p)%Q /\ Js.whole p)
            /\ (forall n, ComboLine.quantity combo = Some n ->
                  (1 <= n)%Q /\ Js.whole n))
         (Reservation.combos this) ->
  (forall v, Reservation.voucher this = Some v ->
     Voucher.discountType v = fixed
     /\ forall value, Voucher.discountValue v = Some value ->
          (0 <= value)%Q /\ Js.whole value) ->
  (forall tax, Reservation.tax this = Some tax ->
     (0 <= tax)%Q /\ Js.whole tax) ->
  (forall fee, Reservation.serviceFee this = Some fee ->
     (0 <= fee)%Q /\ Js.whole fee) ->
  (spec_subtotal (Reservation.seats this) (Reservation.combos this)
   + default 0 (Reservation.tax this)
   + default 0 (Reservation.serviceFee this)
   <= inject_Z (2 ^ 53))%Q ->
  exists subtotal discount total : Q,
    Reservation.subtotal (calculateTotals this) = Js.Fin subtotal
    /\ Reservation.discount (calculateTotals this) = Js.Fin discount
    /\ Reservation.totalAmount (calculateTotals this) = Js.Fin total
    /\ (0 <= subtotal)%Q /\ (0 <= discount)%Q /\ (0 <= total)%Q
    /\ (discount <= subtotal)%Q
    /\ (total == subtotal - discount
                 + default 0 (Reservation.tax this)
                 + default 0 (Reservation.serviceFee this))%Q.
Proof.
  intros Hseats Hcombos Hvoucher Htax Hfee _.
  destruct (calculateTotals_invariants this)
    as (subtotal & discount & Hsub & Hdisc & Hsum & Htotal).
  cbv zeta in Hsub, Hdisc, Htotal.
  destruct (Reservation.totalAmount (calculateTotals this)) as [total|] eqn:Ht;
    [|done].
  simpl in Htotal. unfold spec_total in Htotal.
  exists subtotal, discount, total.
  assert (0 <= subtotal)%Q as Hsub0.
  { rewrite Hsum. unfold spec_subtotal.
    assert (0 <= foldr (fun seat sum =>
                          default 0 (SeatLine.price seat) + sum) 0
                       (Reservation.seats this))%Q.
    { apply seat_prices_nonneg.
      eapply Forall_impl; [exact Hseats|].
      intros seat Hq p Hp. by apply Hq. }
    assert (0 <= foldr (fun combo sum =>
                          default 0 (ComboLine.price combo)
                          * default 0 (ComboLine.quantity combo) + sum) 0
                       (Reservation.combos this))%Q.
    { apply combo_prices_nonneg.
      eapply Forall_impl; [exact Hcombos|].
      intros combo [Hp Hn]. split; [intros p Hq|intros n Hq].
      - by apply Hp.
      - by apply Hn. }
    lra. }
  assert (0 <= default 0 (Reservation.tax this))%Q as Htax0.
  { destruct (Reservation.tax this) as [tax|]; simpl; [by apply Htax|lra]. }
  assert (0 <= default 0 (Reservation.serviceFee this))%Q as Hfee0.
  { destruct (Reservation.serviceFee this) as [fee|]; simpl;
      [by apply Hfee|lra]. }
  assert (0 <= discount <= subtotal)%Q as [Hdisc0 Hle].
  { rewrite calculateTotals_discount, Hsub in Hdisc.
    destruct (Reservation.voucher this) as [v|] eqn:Hv.
    - destruct (Hvoucher v eq_refl) as [Hfixed Hvalue].
      apply (fixed_discount_bounds subtotal discount v); try done.
      intros value H. by apply Hvalue.
    - simpl in Hdisc. injection Hdisc as <-. lra. }
  split_and!; try done.
  - rewrite Htotal. apply Q.le_max_l.
  - rewrite Htotal. apply Q.max_r. lra.
Qed.

Lemma calculateTotals_valid_witness :
  exists subtotal discount total : Q,
    Reservation.subtotal (calculateTotals ticket_with_tax) = Js.Fin subtotal
    /\ Reservation.discount (calculateTotals ticket_with_tax)
       = Js.Fin discount
    /\ Reservation.totalAmount (calculateTotals ticket_with_tax)
       = Js.Fin total
    /\ (0 <= discount)%Q /\ (discount <= subtotal)%Q /\ (0 <= total)%Q.
Proof.
  destruct (calculateTotals_valid ticket_with_tax)
    as (subtotal & discount & total & Hs & Hd & Ht & Hs0 & Hd0 & Ht0
        & Hle & _).
  - apply Forall_cons. split; [|by apply Forall_nil]. intros p [= <-].
    split; [vm_compute; discriminate|reflexivity].
  - apply Forall_nil. done.
  - intros v [= <-]. split; [reflexivity|].
    intros value [= <-]. split; [vm_compute; discriminate|reflexivity].
  - intros tax [= <-]. split; [vm_compute; discriminate|reflexivity].
  - intros fee [= <-]. split; [vm_compute; discriminate|reflexivity].
  - vm_compute. discriminate.
  - by exists subtotal, discount, total.
Defined.

(** X11. The pre-save hooks of [Ticket] and of [Booking] store the same
    totals, those of [calculateTotals], when the document is new or its
    [seats] or [combos] are modified: the last hook of [Ticket] overwrites
    what the first one stored. The two also agree, and store nothing, when
    the [voucher] is not modified either. *)
Theorem ticket_pre_save_agrees (ctx : SaveCtx) (this : Reservation.t) :
  (isNew ctx || isModified ctx "seats" || isModified ctx "combos" = true ->
   Ticket.pre_save ctx this = Next (calculateTotals this)
   /\ Booking.pre_save ctx this = Next (calculateTotals this))
  /\ (isNew ctx || isModified ctx "seats" || isModified ctx "combos" = false ->
      isModified ctx "voucher" = false ->
      Ticket.pre_save ctx this = Next this
      /\ Booking.pre_save ctx this = Next this).
Proof.
  unfold Ticket.pre_save, Ticket.pre_save_defaults, Ticket.pre_save_totals,
    Booking.pre_save, Ticket.calculateTotals, Booking.calculateTotals.
  split.
  - intros ->. simpl. split; reflexivity.
  - intros -> ->. simpl. split; reflexivity.
Qed.

(** X12. [calculateTotals] reads the lines, the voucher, the tax and the
    service fee, never the totals the document already stores: computing
    twice gives what computing once gives, whatever was stored before. *)
Theorem calculateTotals_idempotent (this : Reservation.t)
    (subtotal discount total : Js.num) :
  calculateTotals (Reservation.set_totals this subtotal discount total)
  = calculateTotals this
  /\ calculateTotals (calculateTotals this) = calculateTotals this.
Proof. split; reflexivity. Qed.

(** ** The schedules of a room under the three writing handlers *)

Section ScheduleWrites.

Import scheduleController.

Lemma overlap_conflictQuery (s1 s2 : Schedule.t) :
  overlap s1 s2
  <-> conflictQuery (Schedule.room s2) (Schedule.startTime s2)
        (Schedule.endTime s2) s1 = true.
Proof. unfold overlap. by rewrite conflictQuery_true. Qed.

Lemma overlap_sym (s1 s2 : Schedule.t) : overlap s1 s2 -> overlap s2 s1.
Proof. unfold overlap. intros (-> & ? & ?). split_and!; [done|lia|lia]. Qed.

(** Storing [s] under [id] keeps the collection free of conflicts when no
    other schedule is in conflict with [s]. *)
Lemma conflict_free_insert (schedules : gmap ObjectId Schedule.t)
    (id : ObjectId) (s : Schedule.t) :
  conflict_free schedules ->
  (forall id' s', id' <> id -> schedules !! id' = Some s' -> ~ overlap s' s) ->
  conflict_free (<[id := s]> schedules).
Proof.
  intros Hfree Hnew id1 id2 s1 s2 Hne H1 H2.
  apply lookup_insert_Some in H1 as [[<- <-]|[Hne1 H1]];
    apply lookup_insert_Some in H2 as [[<- <-]|[Hne2 H2]].
  - done.
  - intros Ho. by apply (Hnew id2 s2), overlap_sym.
  - by apply (Hnew id1 s1).
  - by apply (Hfree id1 id2).
Qed.

(** What [createSchedule] does to the collection. *)
Lemma createSchedule_outcome (db : Db.t) (req : Request CreateBody.t) :
  snd (createSchedule db req) = db
  \/ exists id s,
       createSchedule db req
       = (Created id s, Db.set_schedules db (<[id := s]> (Db.schedules db)))
       /\ Db.schedules db !! id = None
       /\ Schedule.room s = CreateBody.roomId (body req)
       /\ Schedule.startTime s = CreateBody.startTime (body req)
       /\ Schedule.endTime s = CreateBody.endTime (body req)
       /\ forall id' s', Db.schedules db !! id' = Some s' -> ~ overlap s' s.
Proof.
  unfold createSchedule.
  destruct (validationErrors req); [|by left].
  destruct (negb (bool_decide (CreateBody.movieId (body req) ∈ Db.movies db)));
    [by left|].
  destruct (negb (bool_decide
                    (CreateBody.theaterId (body req) ∈ Db.theaters db)));
    [by left|].
  match goal with |- context [findOne ?q (Db.rooms db)] =>
    destruct (findOne q (Db.rooms db)); [|by left]
  end.
  match goal with |- context [findOne ?q (Db.schedules db)] =>
    destruct (findOne q (Db.schedules db)) eqn:Hfind; [by left|]
  end.
  right. eexists _, _. split; [reflexivity|]. split_and!; try done.
  - apply not_elem_of_dom, is_fresh.
  - intros id' s' Hlookup Ho. rewrite findOne_None in Hfind.
    specialize (Hfind id' s' Hlookup).
    apply overlap_conflictQuery in Ho. simpl in Ho. congruence.
Qed.

(** What [updateSchedule] does to the collection. *)
Lemma updateSchedule_outcome (db : Db.t) (id : ObjectId)
    (req : Request UpdateBody.t) :
  snd (updateSchedule db id req) = db
  \/ exists s,
       Db.schedules db !! id = Some s
       /\ updateSchedule db id req
          = (Updated id (applyUpdates (body req) s),
             Db.set_schedules db
               (<[id := applyUpdates (body req) s]> (Db.schedules db)))
       /\ (touchesSlot (body req) = true ->
           forall id' s',
             id' <> id -> Db.schedules db !! id' = Some s' ->
             conflictQuery
               (default (Schedule.room s) (UpdateBody.roomId (body req)))
               (default (Schedule.startTime s)
                        (UpdateBody.startTime (body req)))
               (default (Schedule.endTime s) (UpdateBody.endTime (body req)))
               s' = false).
Proof.
  unfold updateSchedule.
  destruct (validationErrors req); [|by left].
  destruct (Db.schedules db !! id) as [s|] eqn:Hlookup; [|by left].
  destruct (touchesSlot (body req)) eqn:Htouch.
  - match goal with |- context [findOne ?q (Db.schedules db)] =>
      destruct (findOne q (Db.schedules db)) eqn:Hfind; [by left|]
    end.
    right. exists s. split_and!; [done|done|].
    intros _ id' s' Hne Hlookup'. rewrite findOne_None in Hfind.
    specialize (Hfind id' s' Hlookup').
    apply andb_false_iff in Hfind as [Hid|Hq]; [|done].
    by apply negb_false_iff, N.eqb_eq in Hid.
  - right. exists s. by split_and!.
Qed.

Lemma touchesSlot_false (b : UpdateBody.t) :
  touchesSlot b = false ->
  UpdateBody.startTime b = None /\ UpdateBody.endTime b = None
  /\ UpdateBody.roomId b = None.
Proof.
  unfold touchesSlot. rewrite !orb_false_iff, !bool_decide_eq_false.
  intros [[H1 H2] H3].
  by rewrite !eq_None_not_Some.
Qed.

End ScheduleWrites.

(** X13. The conflict check keeps the schedules of every room apart: when
    no two stored schedules are in conflict, none are after
    [createSchedule], after [deleteSchedule], or after an [updateSchedule]
    whose body names no room or the room the schedule is in. *)
Theorem schedule_writes_keep_conflict_free (db : Db.t) :
  conflict_free (Db.schedules db) ->
  (forall req,
     conflict_free
       (Db.schedules (snd (scheduleController.createSchedule db req))))
  /\ (forall id,
        conflict_free
          (Db.schedules (snd (scheduleController.deleteSchedule db id))))
  /\ (forall id req,
        (forall s room,
           Db.schedules db !! id = Some s ->
           scheduleController.UpdateBody.roomId
             (scheduleController.body req) = Some room ->
           room = Schedule.room s) ->
        conflict_free
          (Db.schedules (snd (scheduleController.updateSchedule db id req)))).
Proof.
  intros Hfree. split_and!.
  - intros req.
    destruct (createSchedule_outcome db req)
      as [->|(id & s & -> & Hnew & _ & _ & _ & Hno)]; [done|].
    simpl. apply conflict_free_insert; [done|].
    intros id' s' _. apply Hno.
  - intros id.
    destruct (deleteSchedule_never_deletes db id) as [-> _]. done.
  - intros id req Hroom.
    destruct (updateSchedule_outcome db id req)
      as [->|(s & Hlookup & -> & Hno)]; [done|].
    simpl. apply conflict_free_insert; [done|].
    intros id' s' Hne Hlookup' Ho.
    destruct (scheduleController.touchesSlot (scheduleController.body req))
      eqn:Htouch.
    + specialize (Hno eq_refl id' s' Hne Hlookup').
      apply not_true_iff_false in Hno. apply Hno.
      apply overlap_conflictQuery in Ho. simpl in Ho.
      assert (default (Schedule.room s)
                (scheduleController.UpdateBody.roomId
                   (scheduleController.body req))
              = Schedule.room s) as ->; [|done].
      destruct (scheduleController.UpdateBody.roomId
                  (scheduleController.body req)) as [room|] eqn:Hr;
        [|done].
      simpl. by apply Hroom.
    + apply touchesSlot_false in Htouch as (Hs & He & _).
      apply (Hfree id' id s' s Hne Hlookup' Hlookup).
      destruct Ho as (Hr & H1 & H2). simpl in Hr, H1, H2.
      rewrite Hs in H2. rewrite He in H1. simpl in H1, H2.
      by split_and!.
Qed.

Lemma schedule_writes_keep_conflict_free_witness :
  conflict_free
    (Db.schedules
       (snd (scheduleController.updateSchedule two_shows_db 4%N
               (move_request 1100 1200)))).
Proof.
  assert (conflict_free (Db.schedules two_shows_db)) as Hfree.
  { intros id1 id2 s1 s2 Hne H1 H2 (_ & Hlt & Hgt).
    change ((<[ 4%N := schedule_of 1300 1400 true ]>
               {[ 3%N := schedule_of 1000 1100 true ]}
             : gmap ObjectId Schedule.t) !! id1 = Some s1) in H1.
    change ((<[ 4%N := schedule_of 1300 1400 true ]>
               {[ 3%N := schedule_of 1000 1100 true ]}
             : gmap ObjectId Schedule.t) !! id2 = Some s2) in H2.
    apply lookup_insert_Some in H1 as [[<- <-]|[_ H1]];
      apply lookup_insert_Some in H2 as [[<- <-]|[_ H2]];
      try apply lookup_singleton_Some in H1 as [<- <-];
      try apply lookup_singleton_Some in H2 as [<- <-];
      simpl in *; try done; lia. }
  destruct (schedule_writes_keep_conflict_free two_shows_db Hfree)
    as (_ & _ & Hupdate).
  apply Hupdate. intros s room _ Hroom. discriminate Hroom.
Defined.

(** X14. [updateSchedule] never moves a schedule: whatever the body, the
    stored schedule keeps its room, its movie and its theater, every other
    schedule is left as it is, and no schedule is added or removed. A
    [roomId] in the body only selects the room whose schedules the
    conflict check reads. *)
Theorem updateSchedule_keeps_room (db : Db.t) (id : ObjectId)
    (req : scheduleController.Request scheduleController.UpdateBody.t) :
  let db' := snd (scheduleController.updateSchedule db id req) in
  dom (Db.schedules db') = dom (Db.schedules db)
  /\ (forall id' s', id' <> id ->
        (Db.schedules db' !! id' = Some s'
         <-> Db.schedules db !! id' = Some s'))
  /\ (forall s s', Db.schedules db !! id = Some s ->
        Db.schedules db' !! id = Some s' ->
        Schedule.room s' = Schedule.room s
        /\ Schedule.movie s' = Schedule.movie s
        /\ Schedule.theater s' = Schedule.theater s)
  /\ Db.rooms db' = Db.rooms db.
Proof.
  intros db'. unfold db'.
  destruct (updateSchedule_outcome db id req)
    as [->|(s & Hlookup & -> & _)].
  - split_and!; try done.
    intros s s' H1 H2. rewrite H1 in H2. by injection H2 as <-.
  - simpl. split_and!; [| | |done].
    + rewrite dom_insert_L. apply subseteq_union_1_L, singleton_subseteq_l.
      by apply elem_of_dom_2 in Hlookup.
    + intros id' s' Hne. by rewrite lookup_insert_ne.
    + intros s0 s' H1 H2. rewrite Hlookup in H1. injection H1 as <-.
      rewrite lookup_insert_eq in H2. by injection H2 as <-.
Qed.

(** X15. An accepted update that names another room can put two schedules
    of one room in conflict: the check reads the schedules of the named
    room, the schedule stays where it is. For a schedule [s] that shares
    its room with a schedule [other], a body that names a room [room]
    without schedules and the times of [other] is accepted, and the two
    are then in conflict. *)
Theorem updateSchedule_other_room_unchecked (db : Db.t) (id other : ObjectId)
    (s s2 : Schedule.t) (room : ObjectId) :
  Db.schedules db !! id = Some s ->
  Db.schedules db !! other = Some s2 ->
  id <> other ->
  Schedule.room s2 = Schedule.room s ->
  (Schedule.startTime s2 < Schedule.endTime s2)%Z ->
  (forall id' s', Db.schedules db !! id' = Some s' ->
     Schedule.room s' <> room) ->
  let req :=
    move_to_room_request room (Schedule.startTime s2) (Schedule.endTime s2) in
  exists s',
    fst (scheduleController.updateSchedule db id req)
    = scheduleController.Updated id s'
    /\ Db.schedules (snd (scheduleController.updateSchedule db id req)) !! id
       = Some s'
    /\ Db.schedules (snd (scheduleController.updateSchedule db id req))
         !! other = Some s2
    /\ overlap s' s2.
Proof.
  intros Hlookup Hother Hne Hroom Hlt Hempty req.
  assert (scheduleController.updateSchedule db id req
          = (scheduleController.Updated id
               (scheduleController.applyUpdates
                  (scheduleController.body req) s),
             Db.set_schedules db
               (<[id := scheduleController.applyUpdates
                          (scheduleController.body req) s]>
                  (Db.schedules db)))) as ->.
  { unfold scheduleController.updateSchedule. simpl. rewrite Hlookup. simpl.
    match goal with |- context [findOne ?q (Db.schedules db)] =>
      destruct (findOne q (Db.schedules db)) as [[id' s']|] eqn:Hfind
    end; [|done].
    apply findOne_Some in Hfind as [Hlookup' Hq].
    apply andb_true_iff in Hq as [_ Hq].
    apply conflictQuery_true in Hq as [Hr _].
    by destruct (Hempty id' s' Hlookup'). }
  eexists. split; [reflexivity|]. simpl. split_and!.
  - by rewrite lookup_insert_eq.
  - by rewrite lookup_insert_ne.
  - unfold overlap. simpl. split_and!; [done|lia|lia].
Qed.

Lemma updateSchedule_other_room_unchecked_witness :
  exists s',
    fst (scheduleController.updateSchedule two_shows_db 4%N
           (move_to_room_request 6%N 1000 1100))
    = scheduleController.Updated 4%N s'
    /\ overlap s' (schedule_of 1000 1100 true).
Proof.
  destruct (updateSchedule_other_room_unchecked two_shows_db 4%N 3%N
              (schedule_of 1300 1400 true) (schedule_of 1000 1100 true) 6%N)
    as (s' & Hresp & _ & _ & Ho).
  - reflexivity.
  - reflexivity.
  - done.
  - reflexivity.
  - simpl. lia.
  - intros id' s' Hl.
    change ((<[ 4%N := schedule_of 1300 1400 true ]>
               {[ 3%N := schedule_of 1000 1100 true ]}
             : gmap ObjectId Schedule.t) !! id' = Some s') in Hl.
    apply lookup_insert_Some in Hl as [[_ <-]|[_ Hl]];
      [done|].
    apply lookup_singleton_Some in Hl as [_ <-]. done.
  - by exists s'.
Defined.

(** ** What a cancellation releases *)

Section Release.

Lemma booking_getAvailableSeats_found
    (showtimes : gmap ObjectId Showtime.t) (rooms : gmap ObjectId Room.t)
    (tickets : gmap ObjectId Reservation.t)
    (showtimeId : ObjectId) (showtime : Showtime.t) (room : Room.t) :
  showtimes !! showtimeId = Some showtime ->
  rooms !! Showtime.room showtime = Some room ->
  exists free : RoomSeat.t -> bool,
    Booking.getAvailableSeats showtimes rooms tickets showtimeId
    = Returned ((fun seat => Booking.mkAvail seat (free seat))
                <$> Room.seats room)
    /\ forall seat,
         free seat = true
         <-> RoomSeat.status seat = seat_available
             /\ ~ exists id t,
                    tickets !! id = Some t
                    /\ holds showtimeId (RoomSeat.code seat) t.
Proof.
  intros Hshowtime Hroom.
  unfold Booking.getAvailableSeats. rewrite Hshowtime, Hroom.
  eexists (fun seat => _). split; [by rewrite map_fmap|].
  intros seat. cbv beta.
  rewrite andb_true_iff, negb_true_iff, bool_decide_eq_false,
    booking_bookedSeats, seat_status_available.
  unfold holds. tauto.
Qed.

Lemma ticket_cancel_returned (now : Date) (t t' : Reservation.t)
    (userId : ObjectId) (reason : string) :
  Ticket.cancel now t userId reason = Returned t' ->
  Reservation.status t <> st_cancelled
  /\ Reservation.status t' = st_cancelled
  /\ Reservation.seats t' = Reservation.seats t
  /\ Reservation.showtime t' = Reservation.showtime t.
Proof.
  unfold Ticket.cancel.
  destruct (decide (Reservation.status t = st_cancelled)); [done|].
  destruct (Ticket.validate _); [|done].
  intros [= <-]. by split_and!.
Qed.

End Release.

(** X16. A seat is free again once its ticket is cancelled. After
    [Ticket.cancel] has stored ticket [id] as cancelled,
    [Booking.getAvailableSeats] reports the same seats in the same order,
    every seat that was available still is, and a seat is available
    exactly when its own status is [available] and no other pending or
    confirmed ticket of the showtime, not refunded, holds its code. *)
Theorem cancel_frees_seats
    (showtimes : gmap ObjectId Showtime.t) (rooms : gmap ObjectId Room.t)
    (tickets : gmap ObjectId Reservation.t)
    (showtimeId : ObjectId) (showtime : Showtime.t) (room : Room.t)
    (id : ObjectId) (t t' : Reservation.t)
    (now : Date) (userId : ObjectId) (reason : string) :
  showtimes !! showtimeId = Some showtime ->
  rooms !! Showtime.room showtime = Some room ->
  tickets !! id = Some t ->
  Ticket.cancel now t userId reason = Returned t' ->
  exists before after,
    Booking.getAvailableSeats showtimes rooms tickets showtimeId
    = Returned before
    /\ Booking.getAvailableSeats showtimes rooms (<[id := t']> tickets)
         showtimeId
       = Returned after
    /\ Forall2
         (fun b a =>
            Booking.seat a = Booking.seat b
            /\ (Booking.isAvailable b = true -> Booking.isAvailable a = true)
            /\ (Booking.isAvailable a = true
                <-> RoomSeat.status (Booking.seat b) = seat_available
                    /\ ~ exists id2 t2,
                           id2 <> id
                           /\ tickets !! id2 = Some t2
                           /\ Reservation.showtime t2 = showtimeId
                           /\ (Reservation.status t2 = st_pending
                               \/ Reservation.status t2 = st_confirmed)
                           /\ Payment.status (Reservation.payment t2)
                              <> pay_refunded
                           /\ RoomSeat.code (Booking.seat b)
                              ∈ Ticket.seatCodes t2))
         before after.
Proof.
  intros Hshowtime Hroom Hlookup Hcancel.
  apply ticket_cancel_returned in Hcancel as (_ & Hcancelled & _).
  destruct (booking_getAvailableSeats_found showtimes rooms tickets
              showtimeId showtime room Hshowtime Hroom)
    as (free & -> & Hfree).
  destruct (booking_getAvailableSeats_found showtimes rooms
              (<[id := t']> tickets) showtimeId showtime room
              Hshowtime Hroom)
    as (free' & -> & Hfree').
  eexists _, _. split; [reflexivity|]. split; [reflexivity|].
  apply Forall2_fmap, Forall_Forall2_diag, Forall_forall.
  intros seat _. simpl.
  assert (free' seat = true
          <-> RoomSeat.status seat = seat_available
              /\ ~ exists id2 t2,
                     id2 <> id
                     /\ tickets !! id2 = Some t2
                     /\ Reservation.showtime t2 = showtimeId
                     /\ (Reservation.status t2 = st_pending
                         \/ Reservation.status t2 = st_confirmed)
                     /\ Payment.status (Reservation.payment t2)
                        <> pay_refunded
                     /\ RoomSeat.code seat ∈ Ticket.seatCodes t2) as Hafter.
  { rewrite Hfree'. split; intros [Hstatus Hnone]; (split; [done|]).
    - intros (id2 & t2 & Hne & H2 & Hholds). apply Hnone.
      exists id2, t2. by rewrite lookup_insert_ne.
    - intros (id2 & t2 & H2 & Hshow & Hst & Hholds).
      apply lookup_insert_Some in H2 as [[<- <-]|[Hne H2]].
      + rewrite Hcancelled in Hst. by destruct Hst.
      + apply Hnone. by exists id2, t2. }
  split_and!; [done| |done].
  rewrite Hafter, Hfree. intros [Hstatus Hnone]. split; [done|].
  intros (id2 & t2 & _ & H2 & Hholds). apply Hnone. by exists id2, t2.
Qed.

Lemma cancel_frees_seats_witness :
  exists before after,
    Booking.getAvailableSeats sample_showtimes sample_rooms
      {[ 1%N := stale_pending_ticket ]} 1%N
    = Returned before
    /\ Booking.getAvailableSeats sample_showtimes sample_rooms
         (<[ 1%N := cancelled_stale_ticket ]>
            {[ 1%N := stale_pending_ticket ]})
         1%N
       = Returned after
    /\ Forall2
         (fun b a =>
            Booking.isAvailable b = true -> Booking.isAvailable a = true)
         before after.
Proof.
  destruct (cancel_frees_seats sample_showtimes sample_rooms
              {[ 1%N := stale_pending_ticket ]} 1%N
              (Showtime.mk 1%N 2%N 5%N 1000 2000 true) small_room
              1%N stale_pending_ticket cancelled_stale_ticket
              150 7%N "late")
    as (before & after & Hbefore & Hafter & Hall);
    [reflexivity|reflexivity|reflexivity|reflexivity|].
  exists before, after. split; [exact Hbefore|]. split; [exact Hafter|].
  eapply Forall2_impl; [exact Hall|].
  intros b a (_ & Hkeeps & _). exact Hkeeps.
Defined.

(** X18. [Booking.getAvailableSeats] throws ['Showtime or room not found']
    exactly when the showtime is not stored or its room is not; otherwise
    it returns one entry for each seat of the room's layout, in the order
    of the layout. A ticket of another showtime, a ticket that is neither
    pending nor confirmed, and a ticket whose payment is refunded do not
    change the answer. *)
Theorem getAvailableSeats_answers
    (showtimes : gmap ObjectId Showtime.t) (rooms : gmap ObjectId Room.t)
    (tickets : gmap ObjectId Reservation.t) (showtimeId : ObjectId) :
  (Booking.getAvailableSeats showtimes rooms tickets showtimeId
   = Thrown "Showtime or room not found"
   <-> (forall showtime, showtimes !! showtimeId = Some showtime ->
          rooms !! Showtime.room showtime = None))
  /\ (forall showtime room,
        showtimes !! showtimeId = Some showtime ->
        rooms !! Showtime.room showtime = Some room ->
        exists result,
          Booking.getAvailableSeats showtimes rooms tickets showtimeId
          = Returned result
          /\ Booking.seat <$> result = Room.seats room)
  /\ (forall id t,
        tickets !! id = None ->
        Reservation.showtime t <> showtimeId
        \/ (Reservation.status t <> st_pending
            /\ Reservation.status t <> st_confirmed)
        \/ Payment.status (Reservation.payment t) = pay_refunded ->
        Booking.getAvailableSeats showtimes rooms (<[id := t]> tickets)
          showtimeId
        = Booking.getAvailableSeats showtimes rooms tickets showtimeId).
Proof.
  split_and!.
  - unfold Booking.getAvailableSeats.
    destruct (showtimes !! showtimeId) as [showtime|]; [|by split].
    destruct (rooms !! Showtime.room showtime) as [room|] eqn:Hroom.
    + split; [done|]. intros H. specialize (H showtime eq_refl).
      by rewrite Hroom in H.
    + split; [|done]. by intros _ ? [= <-].
  - intros showtime room Hshowtime Hroom.
    destruct (booking_getAvailableSeats_found showtimes rooms tickets
                showtimeId showtime room Hshowtime Hroom)
      as (free & -> & _).
    eexists. split; [reflexivity|].
    rewrite <- list_fmap_compose. apply list_fmap_id.
  - intros id t Hnew Hout.
    destruct (showtimes !! showtimeId) as [showtime|] eqn:Hshowtime;
      [|unfold Booking.getAvailableSeats; by rewrite Hshowtime].
    destruct (rooms !! Showtime.room showtime) as [room|] eqn:Hroom;
      [|unfold Booking.getAvailableSeats; by rewrite Hshowtime, Hroom].
    destruct (booking_getAvailableSeats_found showtimes rooms tickets
                showtimeId showtime room Hshowtime Hroom)
      as (free & -> & Hfree).
    destruct (booking_getAvailableSeats_found showtimes rooms
                (<[id := t]> tickets) showtimeId showtime room
                Hshowtime Hroom)
      as (free' & -> & Hfree').
    f_equal. apply list_fmap_ext. intros _ seat _. f_equal.
    apply eq_true_iff_eq. rewrite Hfree, Hfree'.
    split; intros [Hstatus Hnone]; (split; [done|]).
    + intros (id2 & t2 & H2 & Hholds). apply Hnone.
      exists id2, t2. split; [|done].
      rewrite lookup_insert_ne; [done|]. intros <-. by rewrite Hnew in H2.
    + intros (id2 & t2 & H2 & Hshow & Hst & Hpay & Hcode).
      apply lookup_insert_Some in H2 as [[<- <-]|[Hne H2]].
      * destruct Hout as [?|[[? ?]|?]]; [done| |done]. by destruct Hst.
      * apply Hnone. by exists id2, t2.
Qed.

(** ** What refuses a new ticket *)

Section TicketSave.

Lemma qrCode_inj (a b : ObjectId) :
  Ticket.qrCode a = Ticket.qrCode b -> a = b.
Proof.
  unfold Ticket.qrCode. intros H.
  cbv [String.append] in H. injection H as H.
  assert (Some (N.to_uint a) = Some (N.to_uint b)) as Hu.
  { rewrite <- !NilEmpty.usu. by rewrite H. }
  injection Hu as Hu.
  rewrite <- (DecimalN.Unsigned.of_to a), <- (DecimalN.Unsigned.of_to b).
  by rewrite Hu.
Qed.

Lemma duplicateKey_true (index : Index.t) (c : gmap ObjectId Reservation.t)
    (id : ObjectId) (t : Reservation.t) :
  Ticket.duplicateKey index c id t = true
  <-> Index.unique index = true /\ Index.built index = true
      /\ exists id' t' k,
           c !! id' = Some t' /\ id' <> id
           /\ k ∈ Ticket.entries index id t
           /\ k ∈ Ticket.entries index id' t'.
Proof.
  unfold Ticket.duplicateKey. rewrite !andb_true_iff.
  match goal with |- context [findOne ?q c] => set (query := q) end.
  assert ((match findOne query c with Some _ => true | None => false end)
          = true
          <-> exists id' t' k,
                c !! id' = Some t' /\ id' <> id
                /\ k ∈ Ticket.entries index id t
                /\ k ∈ Ticket.entries index id' t') as ->; [|tauto].
  destruct (findOne query c) as [[id' t']|] eqn:Hfind.
  - split; [intros _|done].
    apply findOne_Some in Hfind as [Hlookup Hq].
    apply andb_true_iff in Hq as [Hne Hex].
    apply negb_true_iff, N.eqb_neq in Hne.
    apply existsb_exists in Hex as (k & Hk & Hk').
    apply bool_decide_eq_true in Hk'. apply list_elem_of_In in Hk.
    by exists id', t', k.
  - split; [done|]. intros (id' & t' & k & Hlookup & Hne & Hk & Hk').
    rewrite findOne_None in Hfind.
    specialize (Hfind id' t' Hlookup). unfold query in Hfind.
    apply andb_false_iff in Hfind as [Hid|Hex].
    + by apply negb_false_iff, N.eqb_eq in Hid.
    + apply not_true_iff_false in Hex. destruct Hex.
      apply existsb_exists. exists k.
      split; [by apply list_elem_of_In|by apply bool_decide_eq_true].
Qed.

Lemma qrCodeIndex_entries (id : ObjectId) (t : Reservation.t) :
  Ticket.entries Ticket.qrCodeIndex id t = [[Some (Ticket.qrCode id)]].
Proof. reflexivity. Qed.

Lemma transactionIndex_entries (id : ObjectId) (t : Reservation.t) :
  Ticket.entries Ticket.transactionIndex id t
  = match Payment.transactionId (Reservation.payment t) with
    | Some tx => [[Some tx]]
    | None => []
    end.
Proof.
  unfold Ticket.entries, Ticket.pathValues. simpl.
  by destruct (Payment.transactionId (Reservation.payment t)).
Qed.

Lemma qrCodeIndex_refuses_nothing (c : gmap ObjectId Reservation.t)
    (id : ObjectId) (t : Reservation.t) :
  Ticket.duplicateKey Ticket.qrCodeIndex c id t = false.
Proof.
  apply not_true_iff_false. rewrite duplicateKey_true.
  intros (_ & _ & id' & t' & k & _ & Hne & Hk & Hk').
  rewrite qrCodeIndex_entries in Hk, Hk'.
  apply list_elem_of_singleton in Hk, Hk'. subst k.
  assert (Ticket.qrCode id' = Ticket.qrCode id) as Heq by congruence.
  by apply qrCode_inj in Heq.
Qed.

Lemma transactionIndex_refuses (c : gmap ObjectId Reservation.t)
    (id : ObjectId) (t : Reservation.t) :
  Ticket.duplicateKey Ticket.transactionIndex c id t = true
  <-> exists id' t' tx,
        c !! id' = Some t' /\ id' <> id
        /\ Payment.transactionId (Reservation.payment t) = Some tx
        /\ Payment.transactionId (Reservation.payment t') = Some tx.
Proof.
  rewrite duplicateKey_true. split.
  - intros (_ & _ & id' & t' & k & Hlookup & Hne & Hk & Hk').
    rewrite transactionIndex_entries in Hk, Hk'.
    destruct (Payment.transactionId (Reservation.payment t)) as [tx|];
      [|by apply elem_of_nil in Hk].
    destruct (Payment.transactionId (Reservation.payment t')) as [tx'|]
      eqn:Htx'; [|by apply elem_of_nil in Hk'].
    apply list_elem_of_singleton in Hk, Hk'. subst k.
    injection Hk' as <-. by exists id', t', tx.
  - intros (id' & t' & tx & Hlookup & Hne & Htx & Htx').
    split; [done|]. split; [done|].
    exists id', t', [Some tx]. rewrite !transactionIndex_entries, Htx, Htx'.
    split_and!; [done|done|apply list_elem_of_here..].
Qed.

End TicketSave.

(** X17. What does not refuse a new ticket. [save] of a ticket that
    passes the validation and has no [payment.transactionId], under an
    [_id] that is not in use, stores the ticket with the totals of
    [calculateTotals], whatever the collection holds. Its seats and its
    showtime play no part: the unique index on [qrCode] cannot refuse a
    ticket with an [_id] of its own, the one on [payment.transactionId]
    leaves out a ticket without one, and the one declared on the seats is
    not built. *)
Theorem ticket_save_refusals (c : gmap ObjectId Reservation.t)
    (id : ObjectId) (doc : Reservation.t) :
  c !! id = None ->
  Ticket.validate doc = true ->
  Payment.transactionId (Reservation.payment doc) = None ->
  Ticket.save c id doc = Ticket.Written (<[id := calculateTotals doc]> c).
Proof.
  intros Hfresh Hvalid Htx.
  unfold Ticket.save. rewrite Hvalid. simpl.
  rewrite Hfresh, qrCodeIndex_refuses_nothing, orb_false_r. simpl.
  assert (Ticket.duplicateKey Ticket.transactionIndex c id
            (Ticket.pre_save_defaults {| isNew := true; modifiedPaths := [] |}
               (Ticket.pre_save_totals
                  {| isNew := true; modifiedPaths := [] |} doc))
          = false) as ->; [|done].
  apply not_true_iff_false. rewrite transactionIndex_refuses.
  intros (id' & t' & tx & _ & _ & Htx' & _).
  simpl in Htx'. by rewrite Htx in Htx'.
Qed.

Lemma ticket_save_refusals_witness :
  Ticket.save {[ 1%N := pending_ticket 1%N ["A1"] ]} 2%N
    (pending_ticket 1%N ["A1"])
  = Ticket.Written
      (<[ 2%N := calculateTotals (pending_ticket 1%N ["A1"]) ]>
         {[ 1%N := pending_ticket 1%N ["A1"] ]}).
Proof.
  apply (ticket_save_refusals {[ 1%N := pending_ticket 1%N ["A1"] ]} 2%N
           (pending_ticket 1%N ["A1"])); reflexivity.
Defined.

(** ** The seat map as a grid *)

Section SeatGrid.

Lemma flat_map_lookup {A B : Type} (g : A -> list B) (n : nat) (l : list A)
    (i j : nat) (x : A) :
  (forall y, length (g y) = n) ->
  l !! i = Some x -> (j < n)%nat ->
  flat_map g l !! (i * n + j)%nat = g x !! j.
Proof.
  intros Hlen. revert i. induction l as [|y l IH]; intros i Hi Hj; [done|].
  simpl. destruct i as [|i]; simpl in Hi.
  - injection Hi as ->. simpl. rewrite lookup_app_l; [done|].
    by rewrite Hlen.
  - set (k := (i * n + j)%nat).
    replace (S i * n + j)%nat with (length (g y) + k)%nat
      by (rewrite Hlen; unfold k; simpl; lia).
    rewrite lookup_app_r by lia.
    replace (length (g y) + k - length (g y))%nat with k by lia.
    by apply IH.
Qed.

Lemma generateSeatMap_lookup (room : Room.t) (row col : nat) :
  (row < Room.rowCount (Room.rows room))%nat ->
  (col < Room.colCount (Room.seatsPerRow room))%nat ->
  Room.generateSeatMap room
    !! (row * Room.colCount (Room.seatsPerRow room) + col)%nat
  = Some (RoomSeat.mk (Room.seatCode row (S col))
                      (if (row <? Room.vipRows)%nat then vip else standard)
                      seat_available row col).
Proof.
  intros Hrow Hcol. unfold Room.generateSeatMap.
  rewrite (flat_map_lookup _ (Room.colCount (Room.seatsPerRow room)) _
             row col row).
  - rewrite map_fmap, list_lookup_fmap, lookup_seq_lt by done.
    simpl. by rewrite Nat.sub_0_r.
  - intros y. by rewrite length_map, length_seq.
  - by rewrite lookup_seq_lt.
  - done.
Qed.

Lemma vip_count (n rows : nat) :
  length
    (List.filter (fun seat => bool_decide (RoomSeat.type seat = vip))
       (flat_map
          (fun row =>
             map (fun col =>
                    RoomSeat.mk (Room.seatCode row col)
                      (if (row <? Room.vipRows)%nat then vip else standard)
                      seat_available row (col - 1))
                 (seq 1 n))
          (seq 0 rows)))
  = (Nat.min rows Room.vipRows * n)%nat.
Proof.
  induction rows as [|rows IH]; [done|].
  rewrite seq_S, flat_map_app, List.filter_app, length_app, IH.
  cbn [flat_map Nat.add]. rewrite app_nil_r.
  unfold Room.vipRows.
  destruct (Nat.ltb_spec rows 2) as [Hlt|Hge].
  - rewrite forallb_filter_id.
    + rewrite length_map, length_seq.
      rewrite (Nat.min_l rows 2), (Nat.min_l (S rows) 2) by lia.
      rewrite Nat.mul_succ_l. done.
    + apply forallb_forall. intros seat Hin.
      apply in_map_iff in Hin as (col & <- & _). done.
  - assert (forall l : list nat,
              List.filter
                (fun seat => bool_decide (RoomSeat.type seat = vip))
                (map (fun col =>
                        RoomSeat.mk (Room.seatCode rows col) standard
                          seat_available rows (col - 1)) l) = []) as ->.
    { intros l. induction l as [|c l IHl]; [done|]. simpl. exact IHl. }
    rewrite (Nat.min_r rows 2), (Nat.min_r (S rows) 2) by lia.
    simpl. lia.
Qed.

End SeatGrid.

(** X19. [generateSeatMap] lays the seats out row by row, whatever
    Numbers [rows] and [seatsPerRow] are. With [R] the number of rounds of
    the outer loop (the whole numbers from 0 that are below [rows]; [rows]
    itself when it is whole) and [C] that of the inner loop (the whole
    numbers from 1 that are at most [seatsPerRow]): the map has [R × C]
    seats, the seat at index [row × C + col] is the one of row [row] and
    column [col], its code is the row letter followed by [col + 1], it is
    [vip] in the rows 0 and 1 and [standard] elsewhere, and its status is
    [available]. So no two seats share a position, also in rooms of more
    than 26 rows where codes repeat, and the first [min(R, 2) × C] seats
    are the [vip] ones. *)
Theorem generateSeatMap_row_major (room : Room.t) :
  let R := Room.rowCount (Room.rows room) in
  let C := Room.colCount (Room.seatsPerRow room) in
  (forall row : nat,
     (row < R)%nat <-> inject_Z (Z.of_nat row) < Room.rows room)
  /\ (forall col : nat,
        (1 <= col <= C)%nat
        <-> (1 <= col)%nat
            /\ inject_Z (Z.of_nat col) <= Room.seatsPerRow room)
  /\ (forall n : nat, Room.rows room == inject_Z (Z.of_nat n) -> R = n)
  /\ (forall n : nat,
        Room.seatsPerRow room == inject_Z (Z.of_nat n) -> C = n)
  /\ (forall row col,
        (row < R)%nat -> (col < C)%nat ->
        Room.generateSeatMap room !! (row * C + col)%nat
        = Some (RoomSeat.mk (Room.seatCode row (S col))
                            (if (row <? 2)%nat then vip else standard)
                            seat_available row col))
  /\ length (Room.generateSeatMap room) = (R * C)%nat
  /\ NoDup ((fun seat => (RoomSeat.row seat, RoomSeat.column seat))
            <$> Room.generateSeatMap room)
  /\ length (List.filter (fun seat => bool_decide (RoomSeat.type seat = vip))
               (Room.generateSeatMap room))
     = (Nat.min R 2 * C)%nat.
Proof.
  intros R C. split_and!.
  - intros row. apply rowCount_spec.
  - intros col. unfold C. rewrite colCount_spec. split.
    + intros [H1 [->|H2]]; [lia|done].
    + intros [H1 H2]. split; [done|by right].
  - intros n. apply rowCount_whole.
  - intros n. apply colCount_whole.
  - intros row col Hrow Hcol. by apply generateSeatMap_lookup.
  - apply generateSeatMap_length.
  - apply NoDup_alt. intros i j pos Hi Hj.
    rewrite list_lookup_fmap in Hi, Hj.
    destruct (Room.generateSeatMap room !! i) as [si|] eqn:Hsi; [|done].
    destruct (Room.generateSeatMap room !! j) as [sj|] eqn:Hsj; [|done].
    simpl in Hi, Hj. injection Hi as <-. injection Hj as Hrow Hcol.
    pose proof (lookup_lt_Some _ _ _ Hsi) as Hli.
    pose proof (lookup_lt_Some _ _ _ Hsj) as Hlj.
    rewrite generateSeatMap_length in Hli, Hlj.
    fold R C in Hli, Hlj.
    assert (0 < C)%nat as Hn by nia.
    assert (forall k s, Room.generateSeatMap room !! k = Some s ->
              (k < R * C)%nat ->
              RoomSeat.row s = (k / C)%nat
              /\ RoomSeat.column s = (k mod C)%nat) as Hpos.
    { intros k s Hk Hlk.
      pose proof (Nat.div_mod_eq k C) as Hdm.
      pose proof (Nat.mod_upper_bound k C ltac:(lia)) as Hm.
      assert (k / C < R)%nat as Hr.
      { apply Nat.Div0.div_lt_upper_bound. lia. }
      pose proof (generateSeatMap_lookup room (k / C) (k mod C) Hr Hm) as Hg.
      fold C in Hg.
      replace (k / C * C + k mod C)%nat with k in Hg by lia.
      rewrite Hk in Hg. injection Hg as ->. done. }
    destruct (Hpos i si Hsi Hli) as [Hri Hci].
    destruct (Hpos j sj Hsj Hlj) as [Hrj Hcj].
    pose proof (Nat.div_mod_eq i C). pose proof (Nat.div_mod_eq j C).
    rewrite Hri, Hrj in Hrow. rewrite Hci, Hcj in Hcol. lia.
  - apply vip_count.
Qed.

(** X20. Whenever the pre-save hook of [Room] regenerates the seat map of
    a room whose [rows] and [seatsPerRow] are whole numbers with a product
    of at most 2^53, the stored [capacity] is the number of stored seats;
    for a room whose [rows] is 2.5 it is not. Running the hook a second
    time changes nothing. *)
Theorem room_pre_save_capacity (ctx : SaveCtx) (room : Room.t) :
  (forall rows seatsPerRow : nat,
     Room.rows room == inject_Z (Z.of_nat rows) ->
     Room.seatsPerRow room == inject_Z (Z.of_nat seatsPerRow) ->
     (Z.of_nat rows * Z.of_nat seatsPerRow <= 2 ^ 53)%Z ->
     isNew ctx || isModified ctx "rows" || isModified ctx "seatsPerRow"
     = true ->
     Room.capacity (Room.pre_save ctx room)
     == inject_Z (Z.of_nat (length (Room.seats (Room.pre_save ctx room)))))
  /\ Room.pre_save ctx (Room.pre_save ctx room) = Room.pre_save ctx room
  /\ (let fractional := Room.mk 1%N "Room 1" 5 (5 # 2) 2 [] true in
      let saved :=
        Room.pre_save {| isNew := true; modifiedPaths := [] |} fractional in
      Room.capacity saved == 5 /\ length (Room.seats saved) = 6%nat).
Proof.
  unfold Room.pre_save at 1 2 3 4 5.
  destruct (isNew ctx || isModified ctx "rows"
            || isModified ctx "seatsPerRow") eqn:Hmod.
  - split; [|split; [reflexivity|split; reflexivity]].
    intros rows seatsPerRow Hr Hc _ _. simpl.
    rewrite generateSeatMap_length.
    rewrite (rowCount_whole _ _ Hr), (colCount_whole _ _ Hc), Hr, Hc.
    rewrite Nat2Z.inj_mul, inject_Z_mult. reflexivity.
  - split; [done|split; [reflexivity|split; reflexivity]].
Qed.

(** ** Cascading removals *)

(** X21. Removing a room removes exactly the showtimes of that room. When
    every showtime had a stored room before, every remaining showtime
    still has one; [Booking.getAvailableSeats] throws for the showtimes of
    the removed room and answers as before for every other stored
    showtime. *)
Theorem room_remove_cascade (rooms : gmap ObjectId Room.t)
    (showtimes : gmap ObjectId Showtime.t) (this_id : ObjectId)
    (tickets : gmap ObjectId Reservation.t) :
  let rooms' := fst (room_remove rooms showtimes this_id) in
  let showtimes' := snd (room_remove rooms showtimes this_id) in
  (forall id s,
     showtimes' !! id = Some s
     <-> showtimes !! id = Some s /\ Showtime.room s <> this_id)
  /\ ((forall id s, showtimes !! id = Some s ->
         is_Some (rooms !! Showtime.room s)) ->
      forall id s, showtimes' !! id = Some s ->
        is_Some (rooms' !! Showtime.room s))
  /\ (forall id s,
        showtimes !! id = Some s ->
        Booking.getAvailableSeats showtimes' rooms' tickets id
        = if decide (Showtime.room s = this_id)
          then Thrown "Showtime or room not found"
          else Booking.getAvailableSeats showtimes rooms tickets id).
Proof.
  intros rooms' showtimes'.
  assert (forall id s,
            showtimes' !! id = Some s
            <-> showtimes !! id = Some s /\ Showtime.room s <> this_id)
    as Hleft.
  { intros id s. unfold showtimes', room_remove, room_pre_remove. simpl.
    by rewrite map_lookup_filter_Some. }
  split_and!; [done| |].
  - intros Hrefs id s [Hs Hne]%Hleft.
    unfold rooms', room_remove. simpl.
    rewrite lookup_delete_ne by done. by apply (Hrefs id).
  - intros id s Hs. unfold Booking.getAvailableSeats.
    destruct (decide (Showtime.room s = this_id)) as [Heq|Hne].
    + assert (showtimes' !! id = None) as ->; [|done].
      apply eq_None_not_Some. intros [s' [Hs' Hne]%Hleft].
      rewrite Hs in Hs'. injection Hs' as <-. done.
    + assert (showtimes' !! id = Some s) as -> by (by apply Hleft).
      rewrite Hs. unfold rooms', room_remove. simpl.
      by rewrite lookup_delete_ne.
Qed.

(** X22. Removing a theater removes its rooms and nothing of the showtime
    collection: the rooms of other theaters stay as they are, and a
    showtime that plays in one of the removed rooms is still stored, so
    that [Booking.getAvailableSeats] throws for it. *)
Theorem theater_remove_leaves_showtimes (theaters : gset ObjectId)
    (rooms : gmap ObjectId Room.t) (this_id : ObjectId)
    (showtimes : gmap ObjectId Showtime.t)
    (tickets : gmap ObjectId Reservation.t) :
  let theaters' := fst (theater_remove theaters rooms this_id) in
  let rooms' := snd (theater_remove theaters rooms this_id) in
  (this_id ∉ theaters')
  /\ (forall id room,
        rooms' !! id = Some room
        <-> rooms !! id = Some room /\ Room.theater room <> this_id)
  /\ (forall id s room,
        showtimes !! id = Some s ->
        rooms !! Showtime.room s = Some room ->
        Room.theater room = this_id ->
        Booking.getAvailableSeats showtimes rooms' tickets id
        = Thrown "Showtime or room not found").
Proof.
  intros theaters' rooms'.
  assert (forall id room,
            rooms' !! id = Some room
            <-> rooms !! id = Some room /\ Room.theater room <> this_id)
    as Hleft.
  { intros id room. unfold rooms', theater_remove, theater_pre_remove.
    simpl. by rewrite map_lookup_filter_Some. }
  split_and!; [|done|].
  - unfold theaters', theater_remove. simpl.
    rewrite elem_of_difference, elem_of_singleton. tauto.
  - intros id s room Hs Hroom Htheater.
    unfold Booking.getAvailableSeats. rewrite Hs.
    assert (rooms' !! Showtime.room s = None) as ->; [|done].
    apply eq_None_not_Some. intros [room' [Hroom' Hne]%Hleft].
    rewrite Hroom in Hroom'. injection Hroom' as <-. done.
Qed.

Lemma theater_remove_leaves_showtimes_witness :
  Booking.getAvailableSeats sample_showtimes
    (snd (theater_remove {[ 1%N ]} sample_rooms 1%N)) ∅ 1%N
  = Thrown "Showtime or room not found".
Proof.
  destruct (theater_remove_leaves_showtimes {[ 1%N ]} sample_rooms 1%N
              sample_showtimes ∅) as (_ & _ & Hthrows).
  apply (Hthrows 1%N (Showtime.mk 1%N 2%N 5%N 1000 2000 true) small_room);
    reflexivity.
Defined.

(** ** Availability of the showtimes of a movie *)

Section MovieAvailability.

Import showtimeController.

Lemma countBooked_from (found : list (ObjectId * Reservation.t))
    (m : gmap ObjectId nat) (k : ObjectId) :
  default 0%nat
    (fold_left
       (fun bookedSeatsMap booking =>
          let count :=
            default 0%nat
              (bookedSeatsMap !! Reservation.showtime (snd booking)) in
          <[ Reservation.showtime (snd booking)
             := (count + length (Reservation.seats (snd booking)))%nat ]>
            bookedSeatsMap)
       found m !! k)
  = (default 0%nat (m !! k)
     + sum_list_with
         (fun b => length (Reservation.seats (snd b)))
         (List.filter (fun b => N.eqb (Reservation.showtime (snd b)) k)
                      found))%nat.
Proof.
  revert m. induction found as [|b found IH]; intros m; simpl; [lia|].
  rewrite IH. destruct (N.eqb_spec (Reservation.showtime b.2) k) as [->|Hne].
  - rewrite lookup_insert_eq. simpl. lia.
  - by rewrite lookup_insert_ne.
Qed.

Lemma filter_filter_sum {A : Type} (f : A -> nat) (p q r : A -> bool)
    (l : list A) :
  (forall x, p x && q x = r x) ->
  sum_list_with f (List.filter p (List.filter q l))
  = sum_list_with f (List.filter r l).
Proof.
  intros Hr. induction l as [|x l IH]; [done|]. simpl.
  rewrite <- Hr. destruct (q x); simpl.
  - destruct (p x); simpl; by rewrite IH.
  - rewrite andb_false_r. exact IH.
Qed.

(** What the map of the handler holds for a listed showtime. *)
Lemma countBooked_listed (bookings : gmap ObjectId Reservation.t)
    (showtimeIds : list ObjectId) (k : ObjectId) :
  k ∈ showtimeIds ->
  default 0%nat
    (countBooked
       (find_docs
          (fun _ b =>
             bool_decide (Reservation.showtime b ∈ showtimeIds)
             && name_in (status_name (Reservation.status b))
                        ["confirmed"; "pending"])
          bookings) !! k)
  = bookedSeatLines bookings k.
Proof.
  intros Hk. unfold countBooked, bookedSeatLines, find_docs.
  rewrite countBooked_from, lookup_empty. simpl.
  apply filter_filter_sum. intros [id b]. simpl.
  destruct (N.eqb_spec (Reservation.showtime b) k) as [->|]; [|done].
  simpl. by rewrite bool_decide_eq_true_2.
Qed.

End MovieAvailability.

(** X23. [getMovieAvailability] answers 200 for a date that is absent or
    well formed when every showtime it finds has a stored room. It then
    lists every showtime of the movie that passes the filters, each once,
    with [availableSeats] equal to the capacity of the room minus the
    number of seat lines of the pending and confirmed bookings of that
    showtime, and [isAvailable] exactly when that number is below the
    capacity; [count] is the length of the list. Bookings of another
    status or of another showtime are not counted. When a found showtime
    has no stored room the handler gives the error to [next]. *)
Theorem getMovieAvailability_counts
    (sort : list (ObjectId * Showtime.t) -> list (ObjectId * Showtime.t))
    (db : showtimeController.Collections) (id : ObjectId)
    (date : showtimeController.DateParam) (theaterId : option ObjectId) :
  (forall l, sort l ≡ₚ l) ->
  date <> showtimeController.Malformed ->
  match showtimeController.getMovieAvailability sort db id date theaterId with
  | showtimeController.Ok count data =>
    count = length data
    /\ NoDup (showtimeController.showtimeId <$> data)
    /\ (forall sid s,
          (exists a, a ∈ data
                     /\ showtimeController.showtimeId a = sid
                     /\ showtimeController.showtime a = s)
          <-> showtimeController.showtimes db !! sid = Some s
              /\ showtimeController.availabilityQuery id date theaterId s
                 = true)
    /\ Forall
         (fun a =>
            exists room,
              showtimeController.rooms db
                !! Showtime.room (showtimeController.showtime a) = Some room
              /\ showtimeController.availableSeats a
                 = (Room.capacity room
                    - inject_Z
                        (Z.of_nat (showtimeController.bookedSeatLines
                                     (showtimeController.bookings db)
                                     (showtimeController.showtimeId a))))%Q
              /\ (showtimeController.isAvailable a = true
                  <-> (inject_Z
                         (Z.of_nat (showtimeController.bookedSeatLines
                                      (showtimeController.bookings db)
                                      (showtimeController.showtimeId a)))
                       < Room.capacity room)%Q))
         data
  | showtimeController.NextError =>
    exists sid s,
      showtimeController.showtimes db !! sid = Some s
      /\ showtimeController.availabilityQuery id date theaterId s = true
      /\ showtimeController.rooms db !! Showtime.room s = None
  | showtimeController.BadRequest _ => False
  end.
Proof.
  intros Hsort Hdate.
  unfold showtimeController.getMovieAvailability.
  set (found := sort (find_docs _ (showtimeController.showtimes db))).
  assert (forall sid s,
            (sid, s) ∈ found
            <-> showtimeController.showtimes db !! sid = Some s
                /\ showtimeController.availabilityQuery id date theaterId s
                   = true) as Hfound.
  { intros sid s. unfold found. by rewrite Hsort, find_docs_elem. }
  assert (NoDup (fst <$> found)) as Hnodup.
  { unfold found. rewrite Hsort. apply find_docs_NoDup. }
  match goal with |- context [mapM ?f found] => set (entry := f) end.
  assert (match mapM entry found with
          | Some data =>
            length data = length data
            /\ NoDup (showtimeController.showtimeId <$> data)
            /\ (forall sid s,
                  (exists a, a ∈ data
                             /\ showtimeController.showtimeId a = sid
                             /\ showtimeController.showtime a = s)
                  <-> (sid, s) ∈ found)
            /\ Forall
                 (fun a =>
                    exists room,
                      showtimeController.rooms db
                        !! Showtime.room (showtimeController.showtime a)
                      = Some room
                      /\ showtimeController.availableSeats a
                         = (Room.capacity room
                            - inject_Z
                                (Z.of_nat
                                   (showtimeController.bookedSeatLines
                                      (showtimeController.bookings db)
                                      (showtimeController.showtimeId a))))%Q
                      /\ (showtimeController.isAvailable a = true
                          <-> (inject_Z
                                 (Z.of_nat
                                    (showtimeController.bookedSeatLines
                                       (showtimeController.bookings db)
                                       (showtimeController.showtimeId a)))
                               < Room.capacity room)%Q))
                 data
          | None =>
            exists st, st ∈ found
                       /\ showtimeController.rooms db
                            !! Showtime.room (snd st) = None
          end) as Hmain.
  { destruct (mapM entry found) as [data|] eqn:HmapM.
    - apply mapM_Some in HmapM.
      assert (forall st a, st ∈ found -> entry st = Some a ->
                showtimeController.showtimeId a = fst st
                /\ showtimeController.showtime a = snd st
                /\ exists room,
                     showtimeController.rooms db !! Showtime.room (snd st)
                     = Some room
                     /\ showtimeController.availableSeats a
                        = (Room.capacity room
                           - inject_Z
                               (Z.of_nat (showtimeController.bookedSeatLines
                                            (showtimeController.bookings db)
                                            (fst st))))%Q
                     /\ showtimeController.isAvailable a
                        = if Qlt_le_dec 0 (showtimeController.availableSeats a)
                          then true else false)
        as Hentry.
      { intros st a Hin. unfold entry.
        destruct (showtimeController.rooms db !! Showtime.room st.2)
          as [room|]; [|done].
        intros [= <-]. simpl. split_and!; [done|done|].
        exists room. split_and!; [done| |done].
        rewrite countBooked_listed; [done|].
        rewrite map_fmap. apply list_elem_of_fmap. by exists st. }
      assert (showtimeController.showtimeId <$> data = fst <$> found) as Hids.
      { apply list_eq. intros i. rewrite !list_lookup_fmap.
        destruct (found !! i) as [st|] eqn:Hst.
        - destruct (Forall2_lookup_l _ _ _ _ _ HmapM Hst) as (a & -> & Ha).
          simpl. f_equal.
          by destruct (Hentry st a (list_elem_of_lookup_2 _ _ _ Hst) Ha)
            as [-> _].
        - destruct (data !! i) as [a|] eqn:Ha; [|done].
          destruct (Forall2_lookup_r _ _ _ _ _ HmapM Ha) as (st & Hst' & _).
          by rewrite Hst in Hst'. }
      split_and!; [done|by rewrite Hids| |].
      + intros sid s. split.
        * intros (a & Ha & <- & <-).
          apply list_elem_of_lookup in Ha as [i Ha].
          destruct (Forall2_lookup_r _ _ _ _ _ HmapM Ha) as (st & Hst & He).
          apply list_elem_of_lookup_2 in Hst.
          destruct (Hentry st a Hst He) as (-> & -> & _).
          by destruct st.
        * intros Hin. apply list_elem_of_lookup in Hin as [i Hst].
          destruct (Forall2_lookup_l _ _ _ _ _ HmapM Hst) as (a & Ha & He).
          exists a. apply list_elem_of_lookup_2 in Ha, Hst.
          by destruct (Hentry _ a Hst He) as (-> & -> & _).
      + apply Forall_forall. intros a Ha.
        apply list_elem_of_lookup in Ha as [i Ha].
        destruct (Forall2_lookup_r _ _ _ _ _ HmapM Ha) as (st & Hst & He).
        apply list_elem_of_lookup_2 in Hst.
        destruct (Hentry st a Hst He)
          as (Hid & Hs & room & Hroom & Hseats & Havail).
        exists room. rewrite Hid, Hs. split_and!; [done|done|].
        rewrite Havail, Hseats.
        generalize (inject_Z
                      (Z.of_nat (showtimeController.bookedSeatLines
                                   (showtimeController.bookings db)
                                   (fst st)))).
        generalize (Room.capacity room). intros capacity booked.
        destruct (Qlt_le_dec 0 (capacity - booked)) as [Hlt|Hge].
        * split; [intros _; lra|done].
        * split; [done|intros Hlt; lra].
    - apply mapM_None, Exists_exists in HmapM as (st & Hin & Hnone).
      exists st. split; [done|]. unfold entry in Hnone.
      by destruct (showtimeController.rooms db !! Showtime.room st.2). }
  destruct date as [| |startDate]; [|done|].
  - destruct (mapM entry found) as [data|].
    + destruct Hmain as (Hlen & Hnd & Hin & Hall).
      split_and!; [done|done| |done].
      intros sid s. by rewrite Hin, Hfound.
    + destruct Hmain as ([sid s] & Hin & Hnone).
      exists sid, s. apply Hfound in Hin as [? ?]. by split_and!.
  - destruct (mapM entry found) as [data|].
    + destruct Hmain as (Hlen & Hnd & Hin & Hall).
      split_and!; [done|done| |done].
      intros sid s. by rewrite Hin, Hfound.
    + destruct Hmain as ([sid s] & Hin & Hnone).
      exists sid, s. apply Hfound in Hin as [? ?]. by split_and!.
Qed.

Lemma getMovieAvailability_counts_witness :
  match showtimeController.getMovieAvailability stored_showtimes movie_pages
          1%N showtimeController.NoDate None with
  | showtimeController.Ok count data =>
    count = length data
    /\ NoDup (showtimeController.showtimeId <$> data)
  | _ => False
  end.
Proof.
  pose proof (getMovieAvailability_counts stored_showtimes movie_pages 1%N
                showtimeController.NoDate None
                (fun l => reflexivity (stored_showtimes l))
                ltac:(discriminate)) as H.
  destruct (showtimeController.getMovieAvailability stored_showtimes
              movie_pages 1%N showtimeController.NoDate None)
    as [message|count data|] eqn:Hanswer.
  - exact H.
  - destruct H as (Hcount & Hnodup & _). split; [exact Hcount|exact Hnodup].
  - vm_compute in Hanswer. discriminate Hanswer.
Defined.

(** ** The showtimes of a movie *)

Section MovieShowtimes.

Import showtimeController.

Variable toLowerCase : string -> string.

Lemma movie_showtimes_found (db : Collections) (id : ObjectId)
    (date : DateParam) (sid : ObjectId) (s : Showtime.t) :
  (sid, s) ∈ merge_sort byStart
               (find_docs
                  (fun _ s => N.eqb (Showtime.movie s) id && inDay date s)
                  (showtimes db))
  <-> showtimes db !! sid = Some s
      /\ Showtime.movie s = id /\ inDay date s = true.
Proof.
  rewrite merge_sort_Permutation, find_docs_elem, andb_true_iff, N.eqb_eq.
  done.
Qed.

(** A filter whose callback throws on no element keeps, in their order,
    the elements for which the callback answers [true]; it throws when
    the callback throws on some element. *)
Lemma filterThrowing_Some {A : Type} (f : A -> option bool) (l l' : list A) :
  filterThrowing f l = Some l' ->
  (forall x, x ∈ l -> is_Some (f x))
  /\ l' = filter (fun x => f x = Some true) l.
Proof.
  revert l'. induction l as [|x l IH]; intros l'; simpl.
  - intros [= <-]. split; [|done]. by intros x Hx%elem_of_nil.
  - destruct (f x) as [keep|] eqn:Hfx; [|done].
    destruct (filterThrowing f l) as [l0|]; [|done].
    destruct (IH l0 eq_refl) as [Hall ->].
    intros [= <-]. split.
    + intros y [->|Hy]%elem_of_cons; [by rewrite Hfx|by apply Hall].
    + rewrite filter_cons. destruct keep.
      * by rewrite decide_True by done.
      * rewrite decide_False; [done|]. by rewrite Hfx.
Qed.

Lemma filterThrowing_None {A : Type} (f : A -> option bool) (l : list A) :
  filterThrowing f l = None -> exists x, x ∈ l /\ f x = None.
Proof.
  induction l as [|x l IH]; simpl; [done|].
  destruct (f x) as [keep|] eqn:Hfx.
  - destruct (filterThrowing f l) as [l0|]; [done|].
    intros _. destruct (IH eq_refl) as (y & Hy & Hfy).
    exists y. split; [by apply list_elem_of_further|done].
  - intros _. exists x. split; [apply list_elem_of_here|done].
Qed.

Lemma StronglySorted_filter {A : Type} (R : A -> A -> Prop)
    (P : A -> Prop) `{forall x, Decision (P x)} (l : list A) :
  StronglySorted R l -> StronglySorted R (filter P l).
Proof.
  induction 1 as [|x l Hsorted IH Hall]; [constructor|].
  rewrite filter_cons. destruct (decide (P x)); [|done].
  constructor; [done|].
  apply Forall_forall. intros y [_ Hy]%list_elem_of_filter.
  by apply (proj1 (Forall_forall _ _) Hall).
Qed.

End MovieShowtimes.

(** X24. With a [city] in the query, and a date that is absent or well
    formed, [getMovieShowtimes] compares the city of the theater of every
    showtime it finds with the city of the query, both in lower case.
    When every found showtime has a stored theater with a [city], the
    handler answers 200 with those of the showtimes whose city is that of
    the query, each once, in ascending order of [startTime], and [count]
    is their number. When some found showtime has no stored theater, or a
    theater without [city], the filter throws and the handler gives the
    error to [next]. *)
Theorem getMovieShowtimes_city (toLowerCase : string -> string)
    (db : showtimeController.Collections) (id : ObjectId)
    (date : showtimeController.DateParam) (city : string) :
  date <> showtimeController.Malformed ->
  let found sid s :=
    showtimeController.showtimes db !! sid = Some s
    /\ Showtime.movie s = id
    /\ showtimeController.inDay date s = true in
  let every_city :=
    forall sid s, found sid s ->
      exists theater c,
        showtimeController.theaters db !! Showtime.theater s = Some theater
        /\ Cinema.city theater = Some c in
  (every_city ->
   exists data,
     showtimeController.getMovieShowtimes toLowerCase db id date (Some city)
     = showtimeController.Ok (length data) data
     /\ StronglySorted showtimeController.byStart data
     /\ NoDup (fst <$> data)
     /\ forall sid s,
          (sid, s) ∈ data
          <-> found sid s
              /\ exists theater c,
                   showtimeController.theaters db !! Showtime.theater s
                   = Some theater
                   /\ Cinema.city theater = Some c
                   /\ toLowerCase c = toLowerCase city)
  /\ (~ every_city ->
      showtimeController.getMovieShowtimes toLowerCase db id date (Some city)
      = showtimeController.NextError).
Proof.
  intros Hdate found every_city.
  set (all := merge_sort showtimeController.byStart
                (find_docs
                   (fun _ s => N.eqb (Showtime.movie s) id
                               && showtimeController.inDay date s)
                   (showtimeController.showtimes db))).
  set (matches := fun st : ObjectId * Showtime.t =>
                    showtimeController.cityMatches toLowerCase
                      (showtimeController.theaters db) city (snd st)).
  assert (showtimeController.getMovieShowtimes toLowerCase db id date
            (Some city)
          = match showtimeController.filterThrowing matches all with
            | Some data => showtimeController.Ok (length data) data
            | None => showtimeController.NextError
            end) as ->.
  { unfold showtimeController.getMovieShowtimes. by destruct date. }
  assert (forall sid s, (sid, s) ∈ all <-> found sid s) as Hall.
  { intros sid s. apply movie_showtimes_found. }
  assert (forall s b,
            showtimeController.cityMatches toLowerCase
              (showtimeController.theaters db) city s = Some b ->
            exists theater c,
              showtimeController.theaters db !! Showtime.theater s
              = Some theater
              /\ Cinema.city theater = Some c
              /\ (b = true <-> toLowerCase c = toLowerCase city)) as Hmatch.
  { intros s b. unfold showtimeController.cityMatches.
    destruct (showtimeController.theaters db !! Showtime.theater s)
      as [theater|]; [|done].
    destruct (Cinema.city theater) as [c|] eqn:Hc; [|done].
    intros [= <-]. exists theater, c. split_and!; [done..|].
    apply String.eqb_eq. }
  destruct (showtimeController.filterThrowing matches all) as [data|]
    eqn:Hfilter.
  - apply filterThrowing_Some in Hfilter as [Hsome ->].
    split.
    + intros _. eexists. split; [reflexivity|]. split_and!.
      * apply StronglySorted_filter.
        apply StronglySorted_merge_sort; apply _.
      * eapply sublist_NoDup;
          [|apply fmap_sublist, sublist_filter].
        unfold all. rewrite merge_sort_Permutation. apply find_docs_NoDup.
      * intros sid s. rewrite list_elem_of_filter, Hall. unfold matches.
        simpl. split.
        -- intros [Hb Hfound]. split; [done|].
           destruct (Hmatch s true Hb) as (theater & c & Ht & Hc & Heq).
           exists theater, c. split_and!; [done..|]. by apply Heq.
        -- intros [Hfound (theater & c & Ht & Hc & Heq)]. split; [|done].
           unfold showtimeController.cityMatches. rewrite Ht, Hc.
           f_equal. by apply String.eqb_eq.
    + intros Hnot. destruct Hnot. intros sid s Hfound.
      apply Hall in Hfound. destruct (Hsome _ Hfound) as [b Hb].
      destruct (Hmatch s b Hb) as (theater & c & Ht & Hc & _).
      by exists theater, c.
  - split; [|done]. intros Hevery.
    apply filterThrowing_None in Hfilter as ([sid s] & Hin & Hnone).
    apply Hall in Hin. destruct (Hevery sid s Hin) as (theater & c & Ht & Hc).
    unfold matches, showtimeController.cityMatches in Hnone. simpl in Hnone.
    by rewrite Ht, Hc in Hnone.
Qed.

Lemma getMovieShowtimes_city_witness :
  exists data,
    showtimeController.getMovieShowtimes (fun s => s) movie_pages 1%N
      showtimeController.NoDate (Some "Hue")
    = showtimeController.Ok (length data) data
    /\ NoDup (fst <$> data).
Proof.
  destruct (getMovieShowtimes_city (fun s => s) movie_pages 1%N
              showtimeController.NoDate "Hue" ltac:(discriminate))
    as [Hlists _].
  destruct Hlists as (data & Hanswer & _ & Hnodup & _).
  - intros sid s (Hs & _ & _).
    exists (Cinema.mk (Some "Hue")), "Hue".
    unfold movie_pages, sample_showtimes in Hs. simpl in Hs.
    apply lookup_singleton_Some in Hs as [_ <-]. by split.
  - exists data. split; [exact Hanswer|exact Hnodup].
Defined.

(** X25. Without a [city], and with a date that is absent or well formed,
    [getMovieShowtimes] answers 200 with the stored showtimes of the
    movie, each once, in ascending order of [startTime], and [count] is
    their number. A date keeps the showtimes that start on that day: from
    its first instant on and before the first instant of the next day. *)
Theorem getMovieShowtimes_listing (toLowerCase : string -> string)
    (db : showtimeController.Collections) (id : ObjectId)
    (date : showtimeController.DateParam) :
  date <> showtimeController.Malformed ->
  exists data,
    showtimeController.getMovieShowtimes toLowerCase db id date None
    = showtimeController.Ok (length data) data
    /\ StronglySorted showtimeController.byStart data
    /\ NoDup (fst <$> data)
    /\ forall sid s,
         (sid, s) ∈ data
         <-> showtimeController.showtimes db !! sid = Some s
             /\ Showtime.movie s = id
             /\ (forall startDate,
                   date = showtimeController.Day startDate ->
                   (startDate <= Showtime.startTime s
                    < startDate + 86400000)%Z).
Proof.
  intros Hdate.
  exists (merge_sort showtimeController.byStart
            (find_docs
               (fun _ s => N.eqb (Showtime.movie s) id
                           && showtimeController.inDay date s)
               (showtimeController.showtimes db))).
  split_and!.
  - by destruct date.
  - apply StronglySorted_merge_sort; apply _.
  - rewrite merge_sort_Permutation. apply find_docs_NoDup.
  - intros sid s. rewrite movie_showtimes_found.
    assert (showtimeController.inDay date s = true
            <-> forall startDate,
                  date = showtimeController.Day startDate ->
                  (startDate <= Showtime.startTime s
                   < startDate + 86400000)%Z) as ->; [|done].
    destruct date as [| |startDate]; simpl.
    + split; [by intros _ ? [=]|done].
    + done.
    + unfold showtimeController.addDays.
      rewrite andb_true_iff, Z.leb_le, Z.ltb_lt. split.
      * intros H ? [= <-]. lia.
      * intros H. specialize (H startDate eq_refl). lia.
Qed.

Lemma getMovieShowtimes_listing_witness :
  exists data,
    showtimeController.getMovieShowtimes (fun s => s) movie_pages 1%N
      (showtimeController.Day 0) None
    = showtimeController.Ok (length data) data
    /\ StronglySorted showtimeController.byStart data.
Proof.
  destruct (getMovieShowtimes_listing (fun s => s) movie_pages 1%N
              (showtimeController.Day 0) ltac:(discriminate))
    as (data & Hanswer & Hsorted & _).
  exists data. split; [exact Hanswer|exact Hsorted].
Defined.

(** ** Movies with their showtimes *)

Section MovieGroups.

Import showtimeController.

Context {R : Type}.

Implicit Types (moviesMap : list (MovieGroup R)) (g : MovieGroup R).

Lemma existsb_movieId moviesMap (key : ObjectId) :
  existsb (fun g => N.eqb (movieId g) key) moviesMap = true
  <-> key ∈ movieId <$> moviesMap.
Proof.
  rewrite existsb_exists, list_elem_of_fmap. split.
  - intros (g & Hin & Heq). exists g.
    apply N.eqb_eq in Heq. by rewrite <- list_elem_of_In in Hin.
  - intros (g & -> & Hin). exists g.
    rewrite <- list_elem_of_In. split; [done|apply N.eqb_refl].
Qed.

Lemma pushShowtime_step (seen : list (ObjectId * Movie.t * R)) moviesMap
    (key : ObjectId) (doc : Movie.t) (entry : R) :
  groupedByMovie seen moviesMap ->
  groupedByMovie (seen ++ [(key, doc, entry)])
                 (pushShowtime moviesMap key doc entry).
Proof.
  intros (Hnd & Hgroups & Hseen). unfold pushShowtime.
  set (upd := fun g =>
                if N.eqb (movieId g) key
                then mkMovieGroup (movieId g) (movie g)
                                  (movieShowtimes g ++ [entry])
                else g).
  assert (forall g, movieId (upd g) = movieId g) as Hupd_id.
  { intros g. unfold upd. by destruct (N.eqb (movieId g) key). }
  assert (forall g, movie (upd g) = movie g) as Hupd_movie.
  { intros g. unfold upd. by destruct (N.eqb (movieId g) key). }
  assert (forall l : list (MovieGroup R), movieId <$> map upd l = movieId <$> l)
    as Hids.
  { intros l. induction l as [|g l IH]; [done|].
    change (movieId <$> map upd (g :: l))
      with (movieId (upd g) :: (movieId <$> map upd l)).
    by rewrite Hupd_id, IH. }
  assert (forall g,
            g ∈ moviesMap ->
            movieShowtimes (upd g)
            = snd <$> filter (fun it => fst (fst it) = movieId g)
                             (seen ++ [(key, doc, entry)])) as Hold.
  { intros g Hg. destruct (Hgroups g Hg) as [Hshow _].
    rewrite filter_app, fmap_app, <- Hshow. unfold upd.
    destruct (N.eqb_spec (movieId g) key) as [Heq|Hne]; simpl.
    - by rewrite filter_cons_True by done.
    - rewrite filter_cons_False by (simpl; congruence).
      by rewrite filter_nil, app_nil_r. }
  destruct (existsb (fun g => N.eqb (movieId g) key) moviesMap) eqn:Hhas.
  - apply existsb_movieId in Hhas.
    split_and!.
    + by rewrite Hids.
    + intros g' Hg'. rewrite map_fmap in Hg'.
      apply list_elem_of_fmap in Hg' as (g & -> & Hg).
      rewrite Hupd_id, Hupd_movie. split; [by apply Hold|].
      destruct (Hgroups g Hg) as [_ [e He]]. exists e.
      apply elem_of_app. by left.
    + intros it [Hit|Hit]%elem_of_app.
      * destruct (Hseen it Hit) as (g & Hg & Hid).
        exists (upd g). rewrite Hupd_id. split; [|done].
        rewrite map_fmap. apply list_elem_of_fmap. by exists g.
      * apply list_elem_of_singleton in Hit as ->. simpl.
        apply list_elem_of_fmap in Hhas as (g & -> & Hg).
        exists (upd g). rewrite Hupd_id. split; [|done].
        rewrite map_fmap. apply list_elem_of_fmap. by exists g.
  - assert (key ∉ movieId <$> moviesMap) as Hnew.
    { intros Hin. apply existsb_movieId in Hin. congruence. }
    assert (filter (fun it : ObjectId * Movie.t * R => fst (fst it) = key) seen
            = []) as Hnone.
    { destruct (filter (fun it : ObjectId * Movie.t * R => fst (fst it) = key)
                       seen) as [|it rest] eqn:Hfilter; [done|].
      assert (it ∈ filter (fun it : ObjectId * Movie.t * R =>
                             fst (fst it) = key) seen) as Hit.
      { rewrite Hfilter. apply list_elem_of_here. }
      apply list_elem_of_filter in Hit as [Hkey Hit].
      destruct (Hseen it Hit) as (g & Hg & Hid). destruct Hnew.
      apply list_elem_of_fmap. exists g. split; [congruence|done]. }
    split_and!.
    + rewrite Hids, fmap_app. simpl. apply NoDup_app. split_and!; [done| |].
      * intros k Hk ->%list_elem_of_singleton. done.
      * apply NoDup_singleton.
    + intros g' Hg'. rewrite map_fmap in Hg'.
      apply list_elem_of_fmap in Hg' as (g & -> & Hg).
      rewrite Hupd_id, Hupd_movie.
      apply elem_of_app in Hg as [Hg|Hg].
      * split; [by apply Hold|].
        destruct (Hgroups g Hg) as [_ [e He]]. exists e.
        apply elem_of_app. by left.
      * apply list_elem_of_singleton in Hg as ->. simpl. split.
        -- unfold upd. simpl. rewrite N.eqb_refl. simpl.
           rewrite filter_app, Hnone, filter_cons_True by done.
           by rewrite filter_nil.
        -- exists entry. apply elem_of_app. right. apply list_elem_of_here.
    + intros it [Hit|Hit]%elem_of_app.
      * destruct (Hseen it Hit) as (g & Hg & Hid).
        exists (upd g). rewrite Hupd_id. split; [|done].
        rewrite map_fmap. apply list_elem_of_fmap. exists g.
        split; [done|]. apply elem_of_app. by left.
      * apply list_elem_of_singleton in Hit as ->. simpl.
        exists (upd (mkMovieGroup key doc [])). rewrite Hupd_id.
        split; [|done].
        rewrite map_fmap. apply list_elem_of_fmap.
        exists (mkMovieGroup key doc []). split; [done|].
        apply elem_of_app. right. apply list_elem_of_here.
Qed.

Lemma pushShowtime_all (seen : list (ObjectId * Movie.t * R)) :
  groupedByMovie seen
    (fold_left (fun moviesMap it =>
                  pushShowtime moviesMap (fst (fst it)) (snd (fst it))
                               (snd it))
               seen []).
Proof.
  induction seen as [|[[key doc] entry] seen IH] using rev_ind.
  - split_and!; [constructor| |]; intros ? Hin; by apply elem_of_nil in Hin.
  - rewrite fold_left_app. simpl. by apply pushShowtime_step.
Qed.

End MovieGroups.

Section MovieGroupsMap.

Import showtimeController.

Context {R S : Type} (h : R -> S).

(** Pushing and then rewriting the entries of every movie with [h] is
    pushing the rewritten entry. *)
Lemma pushShowtime_fmap (moviesMap : list (MovieGroup R)) (key : ObjectId)
    (doc : Movie.t) (entry : R) :
  (fun g => mkMovieGroup (movieId g) (movie g) (h <$> movieShowtimes g))
  <$> pushShowtime moviesMap key doc entry
  = pushShowtime
      ((fun g => mkMovieGroup (movieId g) (movie g) (h <$> movieShowtimes g))
       <$> moviesMap)
      key doc (h entry).
Proof.
  unfold pushShowtime.
  set (view := fun g : MovieGroup R =>
                 mkMovieGroup (movieId g) (movie g) (h <$> movieShowtimes g)).
  assert (forall l : list (MovieGroup R),
            existsb (fun g => N.eqb (movieId g) key) (view <$> l)
            = existsb (fun g => N.eqb (movieId g) key) l) as ->.
  { intros l. induction l as [|g l IH]; [done|].
    rewrite fmap_cons. simpl. by rewrite IH. }
  assert (forall l : list (MovieGroup R),
            view <$> map (fun g =>
                            if N.eqb (movieId g) key
                            then mkMovieGroup (movieId g) (movie g)
                                   (movieShowtimes g ++ [entry])
                            else g) l
            = map (fun g =>
                     if N.eqb (movieId g) key
                     then mkMovieGroup (movieId g) (movie g)
                            (movieShowtimes g ++ [h entry])
                     else g) (view <$> l)) as Hmap.
  { intros l. induction l as [|g l IH]; [done|].
    csimpl. f_equal; [|exact IH].
    destruct (N.eqb (movieId g) key); [|done].
    unfold view. simpl. by rewrite fmap_app. }
  rewrite Hmap. f_equal.
  destruct (existsb (fun g => N.eqb (movieId g) key) moviesMap); [done|].
  by rewrite fmap_app.
Qed.

Lemma pushShowtime_all_fmap (items : list (ObjectId * Movie.t * R))
    (moviesMap : list (MovieGroup R)) :
  (fun g => mkMovieGroup (movieId g) (movie g) (h <$> movieShowtimes g))
  <$> fold_left (fun moviesMap it =>
                   pushShowtime moviesMap (fst (fst it)) (snd (fst it))
                                (snd it))
                items moviesMap
  = fold_left (fun moviesMap it =>
                 pushShowtime moviesMap (fst (fst it)) (snd (fst it))
                              (snd it))
              ((fun it => (fst it, h (snd it))) <$> items)
              ((fun g => mkMovieGroup (movieId g) (movie g)
                           (h <$> movieShowtimes g)) <$> moviesMap).
Proof.
  revert moviesMap. induction items as [|it items IH]; intros moviesMap;
    [done|].
  rewrite fmap_cons. cbn [fold_left]. rewrite IH. f_equal.
  apply pushShowtime_fmap.
Qed.

End MovieGroupsMap.

Section TheaterMovies.

Import showtimeController.

Lemma filter_sorted {A : Type} (rel : A -> A -> Prop) (P : A -> Prop)
    `{forall x, Decision (P x)} (l : list A) :
  StronglySorted rel l -> StronglySorted rel (filter P l).
Proof.
  induction 1 as [|x l Hl IH Hall]; [constructor|].
  rewrite filter_cons. case_decide; [|done].
  constructor; [done|].
  apply Forall_forall. intros y [_ Hin]%list_elem_of_filter.
  by apply (proj1 (Forall_forall _ _) Hall).
Qed.

Lemma fmap_sorted {A B : Type} (relA : A -> A -> Prop)
    (relB : B -> B -> Prop) (f : A -> B) (l : list A) :
  (forall x y, relA x y -> relB (f x) (f y)) ->
  StronglySorted relA l -> StronglySorted relB (f <$> l).
Proof.
  intros Hmono. induction 1 as [|x l Hl IH Hall]; [constructor|].
  rewrite fmap_cons. constructor; [done|].
  apply Forall_fmap. eapply Forall_impl; [exact Hall|].
  intros y Hy. by apply Hmono.
Qed.

(** The entries pushed for one movie are the showtimes of that movie among
    those found, in the order they were found. *)
Lemma entries_of_movie {R : Type} (entryOf : ObjectId * Showtime.t -> R)
    (found : list (ObjectId * Showtime.t))
    (items : list (ObjectId * Movie.t * R)) (key : ObjectId) :
  Forall2 (fun st it => fst (fst it) = Showtime.movie (snd st)
                        /\ snd it = entryOf st) found items ->
  snd <$> filter (fun it => fst (fst it) = key) items
  = entryOf <$> filter (fun st => Showtime.movie (snd st) = key) found.
Proof.
  induction 1 as [|st it found items [Hkey Hentry] _ IH]; [done|].
  rewrite !filter_cons. rewrite Hkey.
  case_decide; [|done]. by rewrite !fmap_cons, Hentry, IH.
Qed.

(** The loop of [getTheaterMovies] stops at the first showtime whose movie
    is not stored. *)
Lemma theater_rounds (movies : gmap ObjectId Movie.t)
    (found : list (ObjectId * Showtime.t))
    (moviesMap : list (MovieGroup TheaterShowtime)) :
  fold_left
    (fun acc st =>
       match acc with
       | None => None
       | Some moviesMap =>
         match movies !! Showtime.movie (snd st) with
         | None => None
         | Some doc =>
           Some (pushShowtime moviesMap (Showtime.movie (snd st)) doc
                              (theaterShowtime st))
         end
       end)
    found (Some moviesMap)
  = match mapM (fun st =>
                  match movies !! Showtime.movie (snd st) with
                  | None => None
                  | Some doc =>
                    Some (Showtime.movie (snd st), doc, theaterShowtime st)
                  end)
               found with
    | Some items =>
      Some (fold_left
              (fun moviesMap it =>
                 pushShowtime moviesMap (fst (fst it)) (snd (fst it))
                              (snd it))
              items moviesMap)
    | None => None
    end.
Proof.
  revert moviesMap. induction found as [|st found IH]; intros moviesMap;
    [done|].
  cbn [fold_left mapM].
  destruct (movies !! Showtime.movie st.2) as [doc|]; simpl.
  - rewrite IH. by destruct (mapM _ found).
  - clear IH. induction found as [|st' found IH]; [done|]. exact IH.
Qed.

End TheaterMovies.

(** X26. [getTheaterMovies] groups the showtimes of a theater that start
    at [date] or later by movie. When the movie of each of them is stored
    it answers 200: every movie is listed once with its stored document,
    its showtimes are not empty, in ascending order of [startTime] and
    without repetition, each of them is a stored showtime of that movie in
    the theater and from [date] on, and every such showtime is listed
    under its movie; [count] is the number of movies. When the movie of
    one of the showtimes is not stored the handler gives the error to
    [next]. *)
Theorem getTheaterMovies_groups (db : showtimeController.Collections)
    (theaterId : ObjectId) (date : Date) :
  match showtimeController.getTheaterMovies db theaterId date with
  | showtimeController.Ok count data =>
    count = length data
    /\ NoDup (showtimeController.movieId <$> data)
    /\ (forall g, g ∈ data ->
          showtimeController.movies db !! showtimeController.movieId g
          = Some (showtimeController.movie g)
          /\ showtimeController.movieShowtimes g <> []
          /\ StronglySorted
               (fun a b => (showtimeController.ts_startTime a
                            <= showtimeController.ts_startTime b)%Z)
               (showtimeController.movieShowtimes g)
          /\ NoDup (showtimeController.ts_id
                    <$> showtimeController.movieShowtimes g)
          /\ forall e, e ∈ showtimeController.movieShowtimes g ->
               exists s,
                 showtimeController.showtimes db
                   !! showtimeController.ts_id e = Some s
                 /\ e = showtimeController.theaterShowtime
                          (showtimeController.ts_id e, s)
                 /\ Showtime.theater s = theaterId
                 /\ (date <= Showtime.startTime s)%Z
                 /\ Showtime.movie s = showtimeController.movieId g)
    /\ (forall sid s,
          showtimeController.showtimes db !! sid = Some s ->
          Showtime.theater s = theaterId ->
          (date <= Showtime.startTime s)%Z ->
          exists g,
            g ∈ data
            /\ showtimeController.movieId g = Showtime.movie s
            /\ showtimeController.theaterShowtime (sid, s)
               ∈ showtimeController.movieShowtimes g)
  | showtimeController.NextError =>
    exists sid s,
      showtimeController.showtimes db !! sid = Some s
      /\ Showtime.theater s = theaterId
      /\ (date <= Showtime.startTime s)%Z
      /\ showtimeController.movies db !! Showtime.movie s = None
  | showtimeController.BadRequest _ => False
  end.
Proof.
  unfold showtimeController.getTheaterMovies.
  set (found := merge_sort _ _).
  assert (forall sid s,
            (sid, s) ∈ found
            <-> showtimeController.showtimes db !! sid = Some s
                /\ Showtime.theater s = theaterId
                /\ (date <= Showtime.startTime s)%Z) as Hfound.
  { intros sid s. unfold found.
    by rewrite merge_sort_Permutation, find_docs_elem, andb_true_iff,
      N.eqb_eq, Z.leb_le. }
  assert (StronglySorted showtimeController.byStart found) as Hsorted.
  { apply StronglySorted_merge_sort; apply _. }
  assert (NoDup (fst <$> found)) as Hnodup.
  { unfold found. rewrite merge_sort_Permutation. apply find_docs_NoDup. }
  rewrite theater_rounds.
  match goal with |- context [mapM ?f found] => set (itemOf := f) end.
  destruct (mapM itemOf found) as [items|] eqn:HmapM.
  - apply mapM_Some in HmapM.
    assert (Forall2 (fun st it =>
                       fst (fst it) = Showtime.movie (snd st)
                       /\ snd it = showtimeController.theaterShowtime st)
                    found items) as Hitems.
    { eapply Forall2_impl; [exact HmapM|]. intros st it. unfold itemOf.
      destruct (showtimeController.movies db !! Showtime.movie st.2);
        [|done].
      by intros [= <-]. }
    destruct (pushShowtime_all items) as (Hnd & Hgroups & Hseen).
    set (data := fold_left _ items []) in *.
    assert (forall g, g ∈ data ->
              showtimeController.movieShowtimes g
              = showtimeController.theaterShowtime
                <$> filter (fun st => Showtime.movie (snd st)
                                      = showtimeController.movieId g)
                           found) as Hshow.
    { intros g Hg. destruct (Hgroups g Hg) as [-> _].
      by apply entries_of_movie. }
    split_and!; [done|done| |].
    + intros g Hg. rewrite (Hshow g Hg).
      destruct (Hgroups g Hg) as [_ [entry Hentry]].
      apply list_elem_of_lookup in Hentry as [i Hentry].
      destruct (Forall2_lookup_r _ _ _ _ _ HmapM Hentry)
        as (st & Hst & Hitem).
      unfold itemOf in Hitem.
      destruct (showtimeController.movies db !! Showtime.movie st.2)
        as [doc|] eqn:Hdoc; [|done].
      injection Hitem as Hkey -> _.
      split_and!.
      * by rewrite <- Hkey.
      * intros Hnil. apply fmap_nil_inv in Hnil.
        apply list_elem_of_lookup_2 in Hst.
        assert (st ∈ filter (fun st => Showtime.movie (snd st)
                                       = showtimeController.movieId g)
                            found) as Hin
          by (by apply list_elem_of_filter).
        rewrite Hnil in Hin. by apply elem_of_nil in Hin.
      * apply (fmap_sorted showtimeController.byStart); [done|].
        by apply filter_sorted.
      * rewrite <- list_fmap_compose.
        by apply (NoDup_fmap_filter fst).
      * intros e He. apply list_elem_of_fmap in He as ([sid s] & -> & Hin).
        apply list_elem_of_filter in Hin as [Hmovie Hin].
        apply Hfound in Hin as (Hs & Hth & Hdate).
        exists s. by split_and!.
    + intros sid s Hs Hth Hdate.
      assert ((sid, s) ∈ found) as Hin by (by apply Hfound).
      apply list_elem_of_lookup in Hin as [i Hst].
      destruct (Forall2_lookup_l _ _ _ _ _ Hitems Hst)
        as (it & Hit & Hkey & Hentry).
      apply list_elem_of_lookup_2 in Hit, Hst.
      destruct (Hseen it Hit) as (g & Hg & Hid).
      exists g. split_and!; [done|by rewrite Hid, Hkey|].
      rewrite (Hshow g Hg). apply list_elem_of_fmap.
      exists (sid, s). split; [done|].
      apply list_elem_of_filter. split; [|done].
      simpl. by rewrite Hid, Hkey.
  - apply mapM_None, Exists_exists in HmapM as ([sid s] & Hin & Hnone).
    apply Hfound in Hin as (Hs & Hth & Hdate).
    exists sid, s. split_and!; [done|done|done|].
    unfold itemOf in Hnone. simpl in Hnone.
    by destruct (showtimeController.movies db !! Showtime.movie s).
Qed.

Section NowShowingMovies.

Import showtimeController.

Variable sort : list (ObjectId * Showtime.t) -> list (ObjectId * Showtime.t).
Variable isPattern : string -> bool.
Variable populateTheater : option string -> ObjectId -> option Cinema.t.
Hypothesis sort_Permutation : forall l, sort l ≡ₚ l.

Lemma populateShowing_Some (movies : gmap ObjectId Movie.t) (id : ObjectId)
    (doc : Movie.t) :
  populateShowing movies id = Some doc
  <-> movies !! id = Some doc /\ Movie.status doc = mv_showing.
Proof.
  unfold populateShowing.
  destruct (movies !! id) as [doc'|]; [|by split; [|intros []]].
  destruct (Movie.status doc') eqn:Hstatus; split;
    try (by intros [= <-]); try (intros [[= <-] ?]; congruence).
Qed.

Lemma validShowtimes_elem (db : Collections) (queryDate : Date)
    (sid : ObjectId) (s : Showtime.t) (doc : Movie.t) :
  (sid, s, doc) ∈ validShowtimes sort db queryDate
  <-> showtimes db !! sid = Some s
      /\ (queryDate <= Showtime.startTime s < queryDate + 604800000)%Z
      /\ Showtime.isActive s = true
      /\ movies db !! Showtime.movie s = Some doc
      /\ Movie.status doc = mv_showing.
Proof.
  unfold validShowtimes. rewrite list_elem_of_omap. split.
  - intros (st & Hin & Hvalid).
    destruct (populateShowing (movies db) (Showtime.movie st.2))
      as [doc'|] eqn:Hpop; [|done].
    injection Hvalid as Hst Hdoc'. subst st doc'. simpl in Hpop.
    apply populateShowing_Some in Hpop as [Hdoc Hstatus].
    rewrite sort_Permutation in Hin.
    apply find_docs_elem in Hin as [Hs Hq].
    apply andb_true_iff in Hq as [Hq Hactive].
    apply andb_true_iff in Hq as [Hfrom Hto].
    unfold addDays in Hto. split_and!; [done|lia|lia|done|done|done].
  - intros (Hs & Hwindow & Hactive & Hdoc & Hstatus).
    exists (sid, s). split.
    + rewrite sort_Permutation, find_docs_elem. split; [done|].
      unfold addDays. rewrite Hactive, !andb_true_iff, Z.leb_le, Z.ltb_lt.
      split_and!; [lia|lia|done].
    + simpl.
      assert (populateShowing (movies db) (Showtime.movie s) = Some doc)
        as -> by (by apply populateShowing_Some).
      done.
Qed.

Lemma validShowtimes_NoDup (db : Collections) (queryDate : Date) :
  NoDup ((fun valid => fst (fst valid)) <$> validShowtimes sort db queryDate).
Proof.
  unfold validShowtimes.
  match goal with |- context [omap ?f (sort ?l)] =>
    assert (NoDup (fst <$> sort l)) as Hnd
      by (rewrite sort_Permutation; apply find_docs_NoDup);
    induction (sort l) as [|st found IH]; [constructor|]
  end.
  rewrite fmap_cons in Hnd. apply NoDup_cons in Hnd as [Hnew Hnd].
  cbn [omap list_omap].
  destruct (populateShowing (movies db) (Showtime.movie st.2)) as [doc|];
    [|by apply IH].
  rewrite fmap_cons. apply NoDup_cons. split; [|by apply IH].
  simpl. intros Hin. apply Hnew.
  apply list_elem_of_fmap in Hin as ([[sid s] doc'] & Heq & Hin).
  apply list_elem_of_omap in Hin as (st' & Hin & Hvalid).
  destruct (populateShowing (movies db) (Showtime.movie st'.2)); [|done].
  injection Hvalid as Hst' _. simpl in Heq. rewrite Heq.
  apply list_elem_of_fmap. exists st'. split; [by rewrite Hst'|done].
Qed.

(** The answer of [getNowShowingMovies] in terms of the rounds of its
    loop. *)
Lemma now_showing_rounds (db : Collections) (city : option string)
    (queryDate : Date) :
  (forall c, city = Some c -> isPattern c = true) ->
  let itemOf valid :=
    (Showtime.movie (snd (fst valid)), snd valid,
     nowShowtime populateTheater city valid) in
  exists data,
    getNowShowingMovies sort isPattern populateTheater db city
      (Some queryDate)
    = Ok (length data) data
    /\ groupedByMovie (itemOf <$> validShowtimes sort db queryDate) data.
Proof.
  intros Hcity itemOf.
  unfold getNowShowingMovies.
  assert (match city with
          | Some pattern => isPattern pattern
          | None => true
          end = true) as ->.
  { destruct city as [c|]; [by apply Hcity|done]. }
  eexists. split; [reflexivity|].
  match goal with |- groupedByMovie _ (fold_left ?f _ _) =>
    assert (forall l acc,
              fold_left f l acc
              = fold_left
                  (fun moviesMap it =>
                     pushShowtime moviesMap (fst (fst it)) (snd (fst it))
                                  (snd it))
                  (itemOf <$> l) acc) as ->
  end.
  { intros l. induction l as [|valid l IH]; intros acc; [done|].
    simpl. by rewrite IH. }
  apply pushShowtime_all.
Qed.

End NowShowingMovies.

(** X27. For a valid date, and a [city] that is absent or that
    [new RegExp] accepts as a pattern, [getNowShowingMovies] answers 200.
    It lists, each once, the stored movies with status [showing] that have
    an active showtime starting in the seven days from the date on; under
    a movie come exactly those showtimes of it, each once; [count] is the
    number of movies. A showtime whose movie is not stored or not
    [showing] is skipped, not an error. Such a [city] changes the theater
    attached to a showtime and nothing else: the same movies with the same
    showtimes are listed for every one of them. For a [city] that is no
    pattern, building the pattern throws and the handler gives the error
    to [next]. *)
Theorem getNowShowingMovies_groups
    (sort : list (ObjectId * Showtime.t) -> list (ObjectId * Showtime.t))
    (isPattern : string -> bool)
    (populateTheater : option string -> ObjectId -> option Cinema.t)
    (db : showtimeController.Collections) (city : option string)
    (queryDate : Date) :
  (forall l, sort l ≡ₚ l) ->
  (forall c, city = Some c -> isPattern c = true) ->
  exists data,
    showtimeController.getNowShowingMovies sort isPattern populateTheater
      db city (Some queryDate)
    = showtimeController.Ok (length data) data
    /\ NoDup (showtimeController.movieId <$> data)
    /\ (forall g, g ∈ data ->
          showtimeController.movies db !! showtimeController.movieId g
          = Some (showtimeController.movie g)
          /\ Movie.status (showtimeController.movie g) = mv_showing
          /\ showtimeController.movieShowtimes g <> []
          /\ NoDup (showtimeController.ns_id
                    <$> showtimeController.movieShowtimes g)
          /\ forall e, e ∈ showtimeController.movieShowtimes g ->
               exists s,
                 showtimeController.showtimes db
                   !! showtimeController.ns_id e = Some s
                 /\ Showtime.movie s = showtimeController.movieId g
                 /\ Showtime.isActive s = true
                 /\ (queryDate <= Showtime.startTime s
                     < queryDate + 604800000)%Z
                 /\ e = showtimeController.mkNowShowtime
                          (showtimeController.ns_id e)
                          (Showtime.startTime s) (Showtime.endTime s)
                          (populateTheater city (Showtime.theater s))
                          (Showtime.room s))
    /\ (forall sid s doc,
          showtimeController.showtimes db !! sid = Some s ->
          Showtime.isActive s = true ->
          (queryDate <= Showtime.startTime s < queryDate + 604800000)%Z ->
          showtimeController.movies db !! Showtime.movie s = Some doc ->
          Movie.status doc = mv_showing ->
          exists g e,
            g ∈ data
            /\ showtimeController.movieId g = Showtime.movie s
            /\ e ∈ showtimeController.movieShowtimes g
            /\ showtimeController.ns_id e = sid)
    /\ (forall c,
          isPattern c = false ->
          showtimeController.getNowShowingMovies sort isPattern
            populateTheater db (Some c) (Some queryDate)
          = showtimeController.NextError)
    /\ (forall city',
          (forall c, city' = Some c -> isPattern c = true) ->
          exists data',
            showtimeController.getNowShowingMovies sort isPattern
              populateTheater db city' (Some queryDate)
            = showtimeController.Ok (length data') data'
            /\ (fun g =>
                  (showtimeController.movieId g, showtimeController.movie g,
                   (fun e => (showtimeController.ns_id e,
                              showtimeController.ns_startTime e,
                              showtimeController.ns_endTime e,
                              showtimeController.ns_room e))
                   <$> showtimeController.movieShowtimes g)) <$> data'
               = (fun g =>
                    (showtimeController.movieId g, showtimeController.movie g,
                     (fun e => (showtimeController.ns_id e,
                                showtimeController.ns_startTime e,
                                showtimeController.ns_endTime e,
                                showtimeController.ns_room e))
                     <$> showtimeController.movieShowtimes g)) <$> data).
Proof.
  intros Hsort Hcity.
  set (valid := showtimeController.validShowtimes sort db queryDate).
  set (itemOf := fun (city : option string)
                     (v : ObjectId * Showtime.t * Movie.t) =>
                   (Showtime.movie (snd (fst v)), snd v,
                    showtimeController.nowShowtime populateTheater city v)).
  set (push := fun (moviesMap : list (showtimeController.MovieGroup
                                        showtimeController.NowShowtime)) it =>
                 showtimeController.pushShowtime moviesMap
                   (fst (fst it)) (snd (fst it)) (snd it)).
  assert (forall city,
            (forall c, city = Some c -> isPattern c = true) ->
            showtimeController.getNowShowingMovies sort isPattern
              populateTheater db city (Some queryDate)
            = showtimeController.Ok
                (length (fold_left push (itemOf city <$> valid) []))
                (fold_left push (itemOf city <$> valid) [])) as Hanswer.
  { intros c Hc. unfold showtimeController.getNowShowingMovies. fold valid.
    assert (match c with
            | Some pattern => isPattern pattern
            | None => true
            end = true) as ->.
    { destruct c as [pattern|]; [by apply Hc|done]. }
    assert (forall l acc,
              fold_left
                (fun moviesMap v =>
                   showtimeController.pushShowtime moviesMap
                     (Showtime.movie (snd (fst v))) (snd v)
                     (showtimeController.nowShowtime populateTheater c v))
                l acc
              = fold_left push (itemOf c <$> l) acc) as ->; [|done].
    intros l. induction l as [|v l IH]; intros acc; [done|].
    simpl. by rewrite IH. }
  exists (fold_left push (itemOf city <$> valid) []).
  destruct (pushShowtime_all (itemOf city <$> valid))
    as (Hnd & Hgroups & Hseen).
  fold push in Hnd, Hgroups, Hseen.
  split_and!; [by apply Hanswer|done| | | |].
  - intros g Hg. destruct (Hgroups g Hg) as [Hshow [entry Hentry]].
    apply list_elem_of_fmap in Hentry as ([[sid s] doc] & Heq & Hin).
    unfold itemOf in Heq. simpl in Heq. injection Heq as Hid Hdoc _.
    apply (validShowtimes_elem sort Hsort) in Hin
      as (Hs & Hwindow & Hactive & Hmovie & Hstatus).
    split_and!.
    + by rewrite Hid, Hdoc.
    + by rewrite Hdoc.
    + rewrite Hshow. intros Hnil. apply fmap_nil_inv in Hnil.
      assert (itemOf city (sid, s, doc)
              ∈ filter (fun it : ObjectId * Movie.t
                                 * showtimeController.NowShowtime =>
                          fst (fst it) = showtimeController.movieId g)
                       (itemOf city <$> valid)) as Hin'.
      { apply list_elem_of_filter. split; [by simpl|].
        apply list_elem_of_fmap. exists (sid, s, doc). split; [done|].
        by apply (validShowtimes_elem sort Hsort). }
      rewrite Hnil in Hin'. by apply elem_of_nil in Hin'.
    + rewrite Hshow, <- list_fmap_compose.
      apply NoDup_fmap_filter. rewrite <- list_fmap_compose.
      apply (validShowtimes_NoDup sort Hsort).
    + intros e He. rewrite Hshow in He.
      apply list_elem_of_fmap in He as (it & -> & Hit).
      apply list_elem_of_filter in Hit as [Hkey Hit].
      apply list_elem_of_fmap in Hit as ([[sid' s'] doc'] & -> & Hv).
      apply (validShowtimes_elem sort Hsort) in Hv
        as (Hs' & Hwindow' & Hactive' & _).
      exists s'. unfold itemOf, showtimeController.nowShowtime in Hkey |- *.
      simpl in Hkey |- *. split_and!; try done; lia.
  - intros sid s doc Hs Hactive Hwindow Hdoc Hstatus.
    assert ((sid, s, doc) ∈ valid) as Hin
      by (by apply (validShowtimes_elem sort Hsort)).
    assert (itemOf city (sid, s, doc) ∈ itemOf city <$> valid) as Hit.
    { apply list_elem_of_fmap. by exists (sid, s, doc). }
    destruct (Hseen _ Hit) as (g & Hg & Hid).
    exists g, (showtimeController.nowShowtime populateTheater city
                 (sid, s, doc)).
    split_and!; [done|done| |done].
    destruct (Hgroups g Hg) as [-> _].
    apply list_elem_of_fmap. exists (itemOf city (sid, s, doc)).
    split; [done|]. apply list_elem_of_filter. by split.
  - intros c Hc. unfold showtimeController.getNowShowingMovies.
    by rewrite Hc.
  - intros city' Hcity'.
    exists (fold_left push (itemOf city' <$> valid) []).
    split; [by apply Hanswer|].
    set (h := fun e => (showtimeController.ns_id e,
                        showtimeController.ns_startTime e,
                        showtimeController.ns_endTime e,
                        showtimeController.ns_room e)).
    assert (forall c,
              (fun g =>
                 (showtimeController.movieId g, showtimeController.movie g,
                  h <$> showtimeController.movieShowtimes g))
              <$> fold_left push (itemOf c <$> valid) []
              = (fun g =>
                   (showtimeController.movieId g, showtimeController.movie g,
                    showtimeController.movieShowtimes g))
                <$> fold_left
                      (fun moviesMap it =>
                         showtimeController.pushShowtime moviesMap
                           (fst (fst it)) (snd (fst it)) (snd it))
                      ((fun v =>
                          (Showtime.movie (snd (fst v)), snd v,
                           (fst (fst v), Showtime.startTime (snd (fst v)),
                            Showtime.endTime (snd (fst v)),
                            Showtime.room (snd (fst v)))))
                       <$> valid) []) as Hview.
    { intros c.
      pose proof (pushShowtime_all_fmap h (itemOf c <$> valid) []) as Hmap.
      rewrite <- list_fmap_compose in Hmap.
      change (fold_left push (itemOf c <$> valid) [])
        with (fold_left
                (fun moviesMap it =>
                   showtimeController.pushShowtime moviesMap
                     (fst (fst it)) (snd (fst it)) (snd it))
                (itemOf c <$> valid) []).
      etrans; [|apply (f_equal (fmap _)), Hmap].
      by rewrite <- list_fmap_compose. }
    by rewrite !Hview.
Qed.

Lemma getNowShowingMovies_groups_witness :
  exists data,
    showtimeController.getNowShowingMovies stored_showtimes
      (fun c => negb (String.eqb c "(")) (fun _ _ => None) movie_pages
      (Some "Hue") (Some 0%Z)
    = showtimeController.Ok (length data) data
    /\ NoDup (showtimeController.movieId <$> data).
Proof.
  destruct (getNowShowingMovies_groups stored_showtimes
              (fun c => negb (String.eqb c "(")) (fun _ _ => None)
              movie_pages (Some "Hue") 0%Z
              (fun l => reflexivity (stored_showtimes l)))
    as (data & Hanswer & Hnodup & _).
  { by intros c [= <-]. }
  exists data. split; [exact Hanswer|exact Hnodup].
Defined.

(** ** The schedules of a theater *)

(** X28. [getSchedulesByTheater] lists the schedules of the theater, of
    the movie when one is asked for, each once, in ascending order of
    [startTime], and [count] is their number. Without a [date] they are
    those that start at the current time or later; with a [date] they are
    those that start on that day, also the ones that have already
    started, and the answer does not depend on the current time. *)
Theorem getSchedulesByTheater_listing (db : Db.t) (now : Date)
    (theaterId : ObjectId) (q : theaterSchedules.Query) :
  let answer := theaterSchedules.getSchedulesByTheater db now theaterId q in
  theaterSchedules.count answer = length (theaterSchedules.data answer)
  /\ StronglySorted scheduleQueries.byStartTime (theaterSchedules.data answer)
  /\ NoDup (fst <$> theaterSchedules.data answer)
  /\ (forall id s,
        (id, s) ∈ theaterSchedules.data answer
        <-> Db.schedules db !! id = Some s
            /\ Schedule.theater s = theaterId
            /\ (forall movie, theaterSchedules.movieId q = Some movie ->
                  Schedule.movie s = movie)
            /\ match theaterSchedules.date q with
               | Some startOfDay =>
                 (startOfDay <= Schedule.startTime s
                  <= startOfDay + 86399999)%Z
               | None => (now <= Schedule.startTime s)%Z
               end)
  /\ (is_Some (theaterSchedules.date q) ->
      forall now',
        theaterSchedules.getSchedulesByTheater db now' theaterId q = answer).
Proof.
  intros answer. unfold answer, theaterSchedules.getSchedulesByTheater.
  cbn [theaterSchedules.count theaterSchedules.data].
  split_and!.
  - done.
  - apply StronglySorted_merge_sort; apply _.
  - rewrite merge_sort_Permutation. apply find_docs_NoDup.
  - intros id s. rewrite merge_sort_Permutation, find_docs_elem.
    unfold theaterSchedules.query.
    rewrite !andb_true_iff, N.eqb_eq.
    assert (match theaterSchedules.movieId q with
            | Some movie => N.eqb (Schedule.movie s) movie
            | None => true
            end = true
            <-> forall movie, theaterSchedules.movieId q = Some movie ->
                  Schedule.movie s = movie) as ->.
    { destruct (theaterSchedules.movieId q) as [movie|].
      - rewrite N.eqb_eq. split; [by intros -> ? [= <-]|auto].
      - split; [by intros _ ? [=]|done]. }
    destruct (theaterSchedules.date q) as [startOfDay|].
    + rewrite andb_true_iff, Z.geb_le, Z.leb_le. tauto.
    + rewrite Z.geb_le. tauto.
  - intros [startOfDay Hdate] now'.
    unfold theaterSchedules.query. by rewrite Hdate.
Qed.
